(** * Dataset and model lifecycle orchestrator (Express backend)

    A shallow embedding of the backend server: the tabular cache loader
    [loadData], the upload/train handler of [POST /api/upload] and the
    prediction handler of [POST /api/predict], together with the JavaScript
    built-ins they call (string search, [parseFloat], [parseInt], [isNaN],
    [JSON.parse]). *)

From Stdlib Require Import String Ascii List ZArith NArith Lia Bool DecimalString.
From Stdlib Require Import Permutation Sorted.
Import ListNotations.
Set Warnings "-register-all".
Open Scope string_scope.
Open Scope Z_scope.

(** ** JavaScript strings

    Strings are byte strings holding the UTF-8 form of the JavaScript text.
    The characters the server searches for (braces, ASCII letters, dots) are
    single bytes that never occur inside a multi-byte sequence, so positions
    found and substrings cut here delimit the same text as in JavaScript. *)
Module JsString.

(** [s.indexOf(c)] for a one-character needle; [-1] when absent. *)
Fixpoint indexOf (c : ascii) (s : string) : Z :=
  match s with
  | EmptyString => -1
  | String a s' =>
      if Ascii.eqb a c then 0
      else let i := indexOf c s' in if i =? -1 then -1 else i + 1
  end.

(** [s.lastIndexOf(c)]; [-1] when absent. *)
Fixpoint lastIndexOf (c : ascii) (s : string) : Z :=
  match s with
  | EmptyString => -1
  | String a s' =>
      let i := lastIndexOf c s' in
      if i =? -1 then (if Ascii.eqb a c then 0 else -1) else i + 1
  end.

Definition len (s : string) : Z := Z.of_nat (String.length s).

(** [s.substring(a, b)]: both indices are clamped to [0, length] and
    swapped when the first is the larger one. *)
Definition substring (s : string) (a b : Z) : string :=
  let a' := Z.min (Z.max a 0) (len s) in
  let b' := Z.min (Z.max b 0) (len s) in
  let from := Z.min a' b' in
  let to := Z.max a' b' in
  String.substring (Z.to_nat from) (Z.to_nat (to - from)) s.

(** [s.includes(needle)]. *)
Fixpoint includes (needle s : string) : bool :=
  String.prefix needle s ||
  match s with
  | EmptyString => false
  | String _ s' => includes needle s'
  end.

(** [s.endsWith(suffix)]. *)
Definition endsWith (suffix s : string) : bool :=
  let n := String.length s in
  let m := String.length suffix in
  (m <=? n)%nat && String.eqb (String.substring (n - m) m s) suffix.

Definition lower_ascii (a : ascii) : ascii :=
  let n := nat_of_ascii a in
  if ((65 <=? n) && (n <=? 90))%nat then ascii_of_nat (n + 32) else a.

(** [s.toLowerCase()] on the ASCII letters.  The two non-ASCII characters
    whose lower case contains an ASCII letter (the Kelvin sign, giving [k],
    and the dotted capital I, giving [i] followed by a combining dot) cannot
    complete the words [date] or [time], so the column search of the loader
    sees the same answer. *)
Fixpoint toLowerCase (s : string) : string :=
  match s with
  | EmptyString => EmptyString
  | String a s' => String (lower_ascii a) (toLowerCase s')
  end.

(** Truthiness of a string: only the empty string is falsy. *)
Definition truthy (s : string) : bool :=
  match s with EmptyString => false | _ => true end.

End JsString.

(** ** JavaScript numbers

    A number is a binary64 value: [Fin neg f q] is [(-1)^neg * f * 2^q] with
    [0 <= f < 2^53] and [-1074 <= q <= 971], in canonical form ([f >= 2^52]
    unless [q = -1074]; zero is [Fin _ 0 (-1074)]). *)
Module JsNumber.

Inductive number : Type :=
| NaN
| Infinity (neg : bool)
| Fin (neg : bool) (f : Z) (q : Z).

Definition number_eqb (a b : number) : bool :=
  match a, b with
  | NaN, NaN => true
  | Infinity x, Infinity y => Bool.eqb x y
  | Fin x f q, Fin y g r => Bool.eqb x y && (f =? g) && (q =? r)
  | _, _ => false
  end.

(** Round the positive rational [num / den] to the nearest binary64,
    ties to even. *)
Definition round_ratio (neg : bool) (num den : Z) : number :=
  if num =? 0 then Fin neg 0 (-1074)
  else
    let q0 := Z.log2 num - Z.log2 den - 52 in
    (* num/den < 2^(q0+52) ? *)
    let below (q : Z) :=
      if 0 <=? q + 52 then num <? den * 2 ^ (q + 52)
      else num * 2 ^ (- (q + 52)) <? den in
    let q1 := if below q0 then q0 - 1 else q0 in
    let q := Z.max q1 (-1074) in
    let n' := if q <? 0 then num * 2 ^ (- q) else num in
    let d' := if q <? 0 then den else den * 2 ^ q in
    let f0 := n' / d' in
    let r := n' mod d' in
    let up := (d' <? 2 * r) || ((d' =? 2 * r) && Z.odd f0) in
    let f := if up then f0 + 1 else f0 in
    let '(f, q) := if f =? 2 ^ 53 then (2 ^ 52, q + 1) else (f, q) in
    if 971 <? q then Infinity neg else Fin neg f q.

(** The number value of the decimal [m * 10^e]. *)
Definition of_decimal (neg : bool) (m : Z) (e : Z) : number :=
  if 0 <=? e then round_ratio neg (m * 10 ^ e) 1
  else round_ratio neg m (10 ^ (- e)).

Definition is_nan (n : number) : bool :=
  match n with NaN => true | _ => false end.

Definition is_finite (n : number) : bool :=
  match n with Fin _ _ _ => true | _ => false end.

(** Truthiness of a number: [NaN] and both zeros are falsy. *)
Definition truthy (n : number) : bool :=
  match n with
  | NaN => false
  | Infinity _ => true
  | Fin _ f _ => negb (f =? 0)
  end.

(** *** Number to string ([Number::toString], radix 10) *)

Definition digits_of (n : Z) : string :=
  NilZero.string_of_uint (N.to_uint (Z.to_N n)).

Definition ndigits (n : Z) : Z := Z.of_nat (String.length (digits_of n)).

Fixpoint zeros (k : nat) : string :=
  match k with O => "" | S k' => String "0" (zeros k') end.

(** The decimal exponent [n] with [10^(n-1) <= num/den < 10^n]. *)
Definition dec_exponent (num den : Z) : Z :=
  let n0 := ndigits num - ndigits den in
  let lt_pow (n : Z) :=
    if 0 <=? n then num <? den * 10 ^ n else num * 10 ^ (- n) <? den in
  if lt_pow n0 then n0 else n0 + 1.

(** The [k]-digit candidates around [num/den]: the pair [(s, n)] stands
    for [s * 10^(n-k)].  A candidate is kept when it reads back as the
    same binary64; of two, the nearer one wins, the even one on a tie. *)
Definition shortest_at (v : number) (num den n k : Z)
  : option (Z * Z) :=
  let sc := k - n in
  let tn := if 0 <=? sc then num * 10 ^ sc else num in
  let td := if 0 <=? sc then den else den * 10 ^ (- sc) in
  let lo := tn / td in
  let r := tn mod td in
  let hi := lo + 1 in
  let norm (s : Z) := if s =? 10 ^ k then (10 ^ (k - 1), n + 1) else (s, n) in
  let ok (s : Z) :=
    (10 ^ (k - 1) <=? s) &&
    let '(s', n') := norm s in
    number_eqb (of_decimal false s' (n' - k)) v in
  match ok lo, ok hi with
  | true, false => Some (norm lo)
  | false, true => Some (norm hi)
  | false, false => None
  | true, true =>
      if 2 * r <? td then Some (norm lo)
      else if td <? 2 * r then Some (norm hi)
      else if Z.even lo then Some (norm lo) else Some (norm hi)
  end.

Fixpoint shortest (v : number) (num den n : Z) (k : Z) (fuel : nat)
  : Z * Z * Z :=
  match fuel with
  | O => (0, n, k)
  | S fuel' =>
      match shortest_at v num den n k with
      | Some (s, n') => (s, n', k)
      | None => shortest v num den n (k + 1) fuel'
      end
  end.

Definition format_digits (s n k : Z) : string :=
  let ds := digits_of s in
  if (k <=? n) && (n <=? 21) then ds ++ zeros (Z.to_nat (n - k))
  else if (0 <? n) && (n <=? 21) then
    String.substring 0 (Z.to_nat n) ds ++ "." ++
    String.substring (Z.to_nat n) (Z.to_nat (k - n)) ds
  else if (-6 <? n) && (n <=? 0) then "0." ++ zeros (Z.to_nat (- n)) ++ ds
  else
    let e := n - 1 in
    let sign := if e <? 0 then "-" else "+" in
    let mant :=
      if k =? 1 then ds
      else String.substring 0 1 ds ++ "." ++
           String.substring 1 (Z.to_nat (k - 1)) ds in
    mant ++ "e" ++ sign ++ digits_of (Z.abs e).

Definition toString (v : number) : string :=
  match v with
  | NaN => "NaN"
  | Infinity false => "Infinity"
  | Infinity true => "-Infinity"
  | Fin neg f q =>
      if f =? 0 then "0"
      else
        let num := if 0 <=? q then f * 2 ^ q else f in
        let den := if 0 <=? q then 1 else 2 ^ (- q) in
        let n := dec_exponent num den in
        let '(s, n', k) := shortest (Fin false f q) num den n 1 17 in
        (if neg then "-" else "") ++ format_digits s n' k
  end.

End JsNumber.
Export JsNumber.

(** ** Numeric literals in strings: [parseFloat], [parseInt], [ToNumber] *)
Module JsParse.

(** Leading white space and line terminators are skipped; the characters
    outside ASCII appear in their UTF-8 form (U+00A0, U+1680,
    U+2000..U+200A, U+2028, U+2029, U+202F, U+205F, U+3000, U+FEFF). *)
Fixpoint trimStart (s : string) : string :=
  match s with
  | String a r =>
      let n := nat_of_ascii a in
      if ((9 <=? n) && (n <=? 13) || (n =? 32))%nat then trimStart r
      else
        match n, r with
        | 194%nat, String b r2 =>
            if (nat_of_ascii b =? 160)%nat then trimStart r2 else s
        | 225%nat, String b (String c r3) =>
            if ((nat_of_ascii b =? 154) && (nat_of_ascii c =? 128))%nat
            then trimStart r3 else s
        | 226%nat, String b (String c r3) =>
            let nb := nat_of_ascii b in
            let nc := nat_of_ascii c in
            if ((nb =? 128) &&
                ((128 <=? nc) && (nc <=? 138) || (nc =? 168) || (nc =? 169)
                 || (nc =? 175))
                || (nb =? 129) && (nc =? 159))%nat
            then trimStart r3 else s
        | 227%nat, String b (String c r3) =>
            if ((nat_of_ascii b =? 128) && (nat_of_ascii c =? 128))%nat
            then trimStart r3 else s
        | 239%nat, String b (String c r3) =>
            if ((nat_of_ascii b =? 187) && (nat_of_ascii c =? 191))%nat
            then trimStart r3 else s
        | _, _ => s
        end
  | EmptyString => s
  end.

(** Value of a digit in the given radix, if the character is one. *)
Definition digit_val (radix : Z) (a : ascii) : option Z :=
  let n := Z.of_nat (nat_of_ascii a) in
  let d :=
    if (48 <=? n) && (n <=? 57) then n - 48
    else if (97 <=? n) && (n <=? 122) then n - 87
    else if (65 <=? n) && (n <=? 90) then n - 55
    else 99 in
  if d <? radix then Some d else None.

(** The longest run of digits at the head of [s]: its value when read
    after the digits already accumulated in [acc], how many there are,
    and the text that follows. *)
Fixpoint digits (radix : Z) (s : string) (acc : Z) (count : Z)
  : Z * Z * string :=
  match s with
  | String a r =>
      match digit_val radix a with
      | Some d => digits radix r (acc * radix + d) (count + 1)
      | None => (acc, count, s)
      end
  | EmptyString => (acc, count, s)
  end.

(** An optional sign. *)
Definition sign (s : string) : bool * string :=
  match s with
  | String "-" r => (true, r)
  | String "+" r => (false, r)
  | _ => (false, s)
  end.

(** An optional exponent part [e], [E] with optional sign and at least one
    digit; without digits the text is left untouched. *)
Definition exponent (s : string) : Z * string :=
  match s with
  | String c r =>
      if Ascii.eqb c "e" || Ascii.eqb c "E" then
        let '(neg, r1) := sign r in
        let '(v, cnt, r2) := digits 10 r1 0 0 in
        if cnt =? 0 then (0, s) else ((if neg then - v else v), r2)
      else (0, s)
  | EmptyString => (0, s)
  end.

(** The longest prefix of [s] that is a [StrDecimalLiteral], as a number,
    with the text left over; [None] when no prefix is one. *)
Definition decimal_prefix (s : string) : option (number * string) :=
  let '(neg, r0) := sign s in
  if String.prefix "Infinity" r0
  then Some (Infinity neg, String.substring 8 (String.length r0 - 8) r0)
  else
    let '(ip, ni, r1) := digits 10 r0 0 0 in
    let '(m, nf, r2, dot) :=
      match r1 with
      | String "." rf =>
          let '(m, nf, r2) := digits 10 rf ip 0 in (m, nf, r2, true)
      | _ => (ip, 0, r1, false)
      end in
    if (ni =? 0) && (nf =? 0) then None
    else
      let '(e, r3) := exponent r2 in
      Some (of_decimal neg m (e - nf), r3).

(** [parseFloat(s)] on a string. *)
Definition parseFloat (s : string) : number :=
  match decimal_prefix (trimStart s) with
  | Some (n, _) => n
  | None => NaN
  end.

(** [parseInt(s)] with no radix argument: radix 16 after a [0x] or [0X]
    prefix, radix 10 otherwise. *)
Definition parseInt (s : string) : number :=
  let '(neg, r0) := sign (trimStart s) in
  let '(radix, r1) :=
    match r0 with
    | String "0" (String x r) =>
        if Ascii.eqb x "x" || Ascii.eqb x "X" then (16, r) else (10, r0)
    | _ => (10, r0)
    end in
  let '(v, cnt, _) := digits radix r1 0 0 in
  if cnt =? 0 then NaN else of_decimal neg v 0.

(** [ToNumber] of a string ([StringToNumber]): the whole text, white space
    at both ends apart, must be a numeric literal; the empty text is [0]. *)
Definition ToNumber (s : string) : number :=
  let t := trimStart s in
  match t with
  | EmptyString => Fin false 0 (-1074)
  | _ =>
      let prefixed (radix : Z) (r : string) : number :=
        let '(v, cnt, rest) := digits radix r 0 0 in
        if negb (cnt =? 0) && negb (JsString.truthy (trimStart rest))
        then of_decimal false v 0 else NaN in
      let plain :=
        match decimal_prefix t with
        | Some (n, rest) =>
            if JsString.truthy (trimStart rest) then NaN else n
        | None => NaN
        end in
      match t with
      | String "0" (String x r) =>
          if Ascii.eqb x "x" || Ascii.eqb x "X" then prefixed 16 r
          else if Ascii.eqb x "o" || Ascii.eqb x "O" then prefixed 8 r
          else if Ascii.eqb x "b" || Ascii.eqb x "B" then prefixed 2 r
          else plain
      | _ => plain
      end
  end.

End JsParse.

(** ** JavaScript values

    [value] is what [JSON.parse] returns and what the response bodies are
    made of; [cell] is what a field of a dataset row can hold, a string
    from the CSV parser or a number assigned by the loader.  [undefined]
    is the absence of a value ([None] on a property read). *)
Module JsValue.

Inductive value : Type :=
| VNull
| VBool (b : bool)
| VNum (n : number)
| VStr (s : string)
| VArr (items : list value)
| VObj (props : list (string * value)).

Inductive cell : Type :=
| CStr (s : string)
| CNum (n : number).

(** An object is its own properties in the order the engine lists them:
    the array indices in ascending order, then the other names in order
    of creation. *)
Definition object : Type := list (string * value).
Definition Row : Type := list (string * cell).

(** The array index a property name stands for, if it is one: the
    canonical decimal text of an integer below [2^32 - 1]. *)
Definition array_index (k : string) : option Z :=
  match k with
  | EmptyString => None
  | String "0" EmptyString => Some 0
  | String "0" _ => None
  | _ =>
      let '(n, _, rest) := JsParse.digits 10 k 0 0 in
      match rest with
      | EmptyString => if n <? 4294967295 then Some n else None
      | _ => None
      end
  end.

(** Whether a new property [k] is listed before the property [k']. *)
Definition listed_before (k k' : string) : bool :=
  match array_index k, array_index k' with
  | Some i, Some j => i <? j
  | Some _, None => true
  | None, _ => false
  end.

Section Properties.
Context {A : Type}.

(** [o[k]]. *)
Fixpoint get (o : list (string * A)) (k : string) : option A :=
  match o with
  | [] => None
  | (k', v) :: r => if String.eqb k' k then Some v else get r k
  end.

(** A new value for a property the object has: it keeps its place. *)
Fixpoint update (o : list (string * A)) (k : string) (v : A)
  : list (string * A) :=
  match o with
  | [] => []
  | (k', v') :: r =>
      if String.eqb k' k then (k', v) :: r else (k', v') :: update r k v
  end.

(** A property the object does not have yet: an array index goes to its
    place among the indices, any other name to the end. *)
Fixpoint create (o : list (string * A)) (k : string) (v : A)
  : list (string * A) :=
  match o with
  | [] => [(k, v)]
  | (k', v') :: r =>
      if listed_before k k' then (k, v) :: o else (k', v') :: create r k v
  end.

(** [o[k] = v]. *)
Definition set (o : list (string * A)) (k : string) (v : A)
  : list (string * A) :=
  match get o k with
  | Some _ => update o k v
  | None => create o k v
  end.

(** [Object.keys(o)]. *)
Definition keys (o : list (string * A)) : list string := map fst o.

End Properties.

(** The property names every plain object inherits from
    [Object.prototype]: a read of one of them on an object that has no
    property of its own by that name yields a function (or, for
    [__proto__], the prototype), not [undefined]. *)
Definition inherited (k : string) : bool :=
  existsb (String.eqb k)
    ["constructor"; "toString"; "toLocaleString"; "valueOf";
     "hasOwnProperty"; "isPrototypeOf"; "propertyIsEnumerable"; "__proto__";
     "__defineGetter__"; "__defineSetter__"; "__lookupGetter__";
     "__lookupSetter__"].

(** [ToString] of a parsed value; [None] when it throws a [TypeError].
    An array joins its elements with commas, [null] elements giving the
    empty text.  A plain object answers through [Object.prototype.toString]
    unless it has a property of its own named [toString]: that property
    is no function, [valueOf] returns no primitive either, and the
    conversion throws. *)
Fixpoint ToString (v : value) : option string :=
  match v with
  | VNull => Some "null"
  | VBool true => Some "true"
  | VBool false => Some "false"
  | VNum n => Some (JsNumber.toString n)
  | VStr s => Some s
  | VArr items =>
      (fix join (l : list value) (first : bool) : option string :=
         match l with
         | [] => Some ""
         | x :: r =>
             match (match x with VNull => Some "" | _ => ToString x end),
                   join r false with
             | Some sx, Some sr =>
                 Some ((if first then "" else ",") ++ sx ++ sr)
             | _, _ => None
             end
         end) items true
  | VObj props =>
      match get props "toString" with
      | Some _ => None
      | None => Some "[object Object]"
      end
  end.

(** [ToPropertyKey], for the values at hand. *)
Definition ToPropertyKey (v : value) : option string := ToString v.

(** Truthiness ([ToBoolean]) of a value that may be [undefined]. *)
Definition truthy (o : option value) : bool :=
  match o with
  | None => false
  | Some VNull => false
  | Some (VBool b) => b
  | Some (VNum n) => JsNumber.truthy n
  | Some (VStr s) => JsString.truthy s
  | Some (VArr _) => true
  | Some (VObj _) => true
  end.

(** *** Row cells *)

Definition cell_string (c : cell) : string :=
  match c with
  | CStr s => s
  | CNum n => JsNumber.toString n
  end.

Definition cell_value (c : cell) : value :=
  match c with
  | CStr s => VStr s
  | CNum n => VNum n
  end.

(** Truthiness of a field that may be [undefined]. *)
Definition cell_truthy (o : option cell) : bool :=
  match o with
  | None => false
  | Some (CStr s) => JsString.truthy s
  | Some (CNum n) => JsNumber.truthy n
  end.

(** The global [isNaN(x)]: [x] is converted to a number first; [undefined]
    converts to [NaN]. *)
Definition isNaN (o : option cell) : bool :=
  match o with
  | None => true
  | Some (CStr s) => is_nan (JsParse.ToNumber s)
  | Some (CNum n) => is_nan n
  end.

(** The global [parseFloat(x)] and [parseInt(x)]: [x] is converted to a
    string first. *)
Definition parseFloat (c : cell) : number := JsParse.parseFloat (cell_string c).
Definition parseInt (c : cell) : number := JsParse.parseInt (cell_string c).

End JsValue.
Export JsValue.

(** The double-quote character and the line feed. *)
Definition dquote : ascii := "034"%char.
Definition dq : string := String dquote EmptyString.
Definition nl : string := String "010"%char EmptyString.

(** ** [JSON.parse] *)
Module JSON.

(** JSON white space: space, tab, line feed, carriage return. *)
Fixpoint skip_ws (s : string) : string :=
  match s with
  | String a r =>
      let n := nat_of_ascii a in
      if ((n =? 32) || (n =? 9) || (n =? 10) || (n =? 13))%nat
      then skip_ws r else s
  | EmptyString => s
  end.

(** UTF-8 form of a code point (a lone surrogate keeps its three-byte
    form). *)
Definition utf8 (cp : Z) : string :=
  let b (n : Z) := ascii_of_nat (Z.to_nat n) in
  if cp <? 128 then String (b cp) ""
  else if cp <? 2048 then
    String (b (192 + cp / 64)) (String (b (128 + cp mod 64)) "")
  else if cp <? 65536 then
    String (b (224 + cp / 4096))
      (String (b (128 + (cp / 64) mod 64)) (String (b (128 + cp mod 64)) ""))
  else
    String (b (240 + cp / 262144))
      (String (b (128 + (cp / 4096) mod 64))
         (String (b (128 + (cp / 64) mod 64))
            (String (b (128 + cp mod 64)) ""))).

Definition hex4 (a b c d : ascii) : option Z :=
  match JsParse.digit_val 16 a, JsParse.digit_val 16 b,
        JsParse.digit_val 16 c, JsParse.digit_val 16 d with
  | Some x, Some y, Some z, Some w => Some (((x * 16 + y) * 16 + z) * 16 + w)
  | _, _, _, _ => None
  end.

Definition simple_escape (e : ascii) : option ascii :=
  if Ascii.eqb e dquote then Some dquote
  else if Ascii.eqb e "\" then Some "\"%char
  else if Ascii.eqb e "/" then Some "/"%char
  else if Ascii.eqb e "b" then Some "008"%char
  else if Ascii.eqb e "f" then Some "012"%char
  else if Ascii.eqb e "n" then Some "010"%char
  else if Ascii.eqb e "r" then Some "013"%char
  else if Ascii.eqb e "t" then Some "009"%char
  else None.

Definition prepend (p : string) (r : option (string * string))
  : option (string * string) :=
  match r with
  | Some (body, rest) => Some (p ++ body, rest)
  | None => None
  end.

(** The body of a string literal after its opening quote: the text up to
    the closing quote, decoded, and what follows the closing quote. *)
Fixpoint string_body (s : string) : option (string * string) :=
  match s with
  | EmptyString => None
  | String c r =>
      if Ascii.eqb c dquote then Some ("", r)
      else if Ascii.eqb c "\" then
        match r with
        | String e r2 =>
            match simple_escape e with
            | Some ch => prepend (String ch "") (string_body r2)
            | None =>
                if Ascii.eqb e "u" then
                  match r2 with
                  | String h1 (String h2 (String h3 (String h4 r3))) =>
                      match hex4 h1 h2 h3 h4 with
                      | Some hi =>
                          let single := prepend (utf8 hi) (string_body r3) in
                          if (55296 <=? hi) && (hi <=? 56319) then
                            match r3 with
                            | String "\" (String "u" (String l1 (String l2
                                (String l3 (String l4 r4))))) =>
                                match hex4 l1 l2 l3 l4 with
                                | Some lo =>
                                    if (56320 <=? lo) && (lo <=? 57343) then
                                      prepend
                                        (utf8 (65536 + (hi - 55296) * 1024
                                               + (lo - 56320)))
                                        (string_body r4)
                                    else single
                                | None => single
                                end
                            | _ => single
                            end
                          else single
                      | None => None
                      end
                  | _ => None
                  end
                else None
            end
        | EmptyString => None
        end
      else if (nat_of_ascii c <? 32)%nat then None
      else prepend (String c "") (string_body r)
  end.

(** A number literal: [-]? int frac? exp?, where int has no leading zero. *)
Definition number_literal (s : string) : option (number * string) :=
  let '(neg, r0) :=
    match s with String "-" r => (true, r) | _ => (false, s) end in
  let int_part :=
    match r0 with
    | String "0" r1 => Some (0, r1)
    | _ =>
        let '(ip, ni, r1) := JsParse.digits 10 r0 0 0 in
        if ni =? 0 then None else Some (ip, r1)
    end in
  match int_part with
  | None => None
  | Some (ip, r1) =>
      let '(m, nf, r2) :=
        match r1 with
        | String "." rf =>
            let '(m, nf, r2) := JsParse.digits 10 rf ip 0 in
            if nf =? 0 then (ip, 0, r1) else (m, nf, r2)
        | _ => (ip, 0, r1)
        end in
      let '(e, r3) := JsParse.exponent r2 in
      Some (of_decimal neg m (e - nf), r3)
  end.

Definition after (word : string) (s : string) : string :=
  String.substring (String.length word) (String.length s - String.length word) s.

(** Recursive descent; [fuel] bounds the depth of the calls. *)
Fixpoint parse_value (fuel : nat) (s : string) : option (value * string) :=
  match fuel with
  | O => None
  | S f =>
      match skip_ws s with
      | String "{" r =>
          match skip_ws r with
          | String "}" r' => Some (VObj [], r')
          | r1 => parse_members f r1 []
          end
      | String "[" r =>
          match skip_ws r with
          | String "]" r' => Some (VArr [], r')
          | r1 => parse_elements f r1 []
          end
      | String "034" r =>
          match string_body r with
          | Some (body, r') => Some (VStr body, r')
          | None => None
          end
      | t =>
          if String.prefix "true" t then Some (VBool true, after "true" t)
          else if String.prefix "false" t then Some (VBool false, after "false" t)
          else if String.prefix "null" t then Some (VNull, after "null" t)
          else
            match number_literal t with
            | Some (n, r') => Some (VNum n, r')
            | None => None
            end
      end
  end

with parse_elements (fuel : nat) (s : string) (acc : list value)
  : option (value * string) :=
  match fuel with
  | O => None
  | S f =>
      match parse_value f s with
      | Some (v, r) =>
          match skip_ws r with
          | String "," r' => parse_elements f r' (acc ++ [v])
          | String "]" r' => Some (VArr (acc ++ [v]), r')
          | _ => None
          end
      | None => None
      end
  end

with parse_members (fuel : nat) (s : string) (acc : object)
  : option (value * string) :=
  match fuel with
  | O => None
  | S f =>
      match skip_ws s with
      | String "034" r =>
          match string_body r with
          | Some (k, r1) =>
              match skip_ws r1 with
              | String ":" r2 =>
                  match parse_value f r2 with
                  | Some (v, r3) =>
                      match skip_ws r3 with
                      | String "," r4 => parse_members f r4 (set acc k v)
                      | String "}" r4 => Some (VObj (set acc k v), r4)
                      | _ => None
                      end
                  | None => None
                  end
              | _ => None
              end
          | None => None
          end
      | _ => None
      end
  end.

(** [JSON.parse(s)]; [None] when it throws a [SyntaxError]. *)
Definition parse (s : string) : option value :=
  match parse_value (2 * String.length s + 2) s with
  | Some (v, rest) =>
      match skip_ws rest with
      | EmptyString => Some v
      | _ => None
      end
  | None => None
  end.

End JSON.

(** ** The artifact directory

    The server keeps everything under one directory, [model/]: the active
    dataset, the trained artifacts and the metadata document.  File names
    are base names (multer hands over the base name of the uploaded file),
    so the directory is a flat listing. *)
Module Fs.

(** A directory entry.  [contents] is what [fs.readFileSync] returns
    ([None] when the read throws); [csv_records] is what the [csv-parser]
    stream yields for the entry, one record per line, each a list of
    header/cell pairs; [unlink_fails] tells whether [fs.unlinkSync] throws
    on it (a locked file, a sub-directory). *)
Record file : Type := mkFile {
  contents : option string;
  csv_records : list (list (string * string));
  unlink_fails : bool
}.

(** The listing, in the order [fs.readdirSync] reports it. *)
Definition dir : Type := list (string * file).

Fixpoint lookup (d : dir) (name : string) : option file :=
  match d with
  | [] => None
  | (n, f) :: r => if String.eqb n name then Some f else lookup r name
  end.

Definition existsSync (d : dir) (name : string) : bool :=
  match lookup d name with Some _ => true | None => false end.

Definition readdirSync (d : dir) : list string := map fst d.

(** [None] when the read throws. *)
Definition readFileSync (d : dir) (name : string) : option string :=
  match lookup d name with
  | Some f => contents f
  | None => None
  end.

Fixpoint remove (d : dir) (name : string) : dir :=
  match d with
  | [] => []
  | (n, f) :: r =>
      if String.eqb n name then r else (n, f) :: remove r name
  end.

(** [None] when the call throws: the entry is missing or cannot be
    unlinked. *)
Definition unlinkSync (d : dir) (name : string) : option dir :=
  match lookup d name with
  | Some f => if unlink_fails f then None else Some (remove d name)
  | None => None
  end.

(** Writing a file replaces an entry of the same name. *)
Fixpoint write (d : dir) (name : string) (f : file) : dir :=
  match d with
  | [] => [(name, f)]
  | (n, g) :: r =>
      if String.eqb n name then (n, f) :: r else (n, g) :: write r name f
  end.

End Fs.

(** ** The server *)
Module Server.
Import Fs.

Record response : Type := mkResponse {
  status : Z;
  body : value
}.

(** [res.json(v)] and [res.status(c).json(v)]. *)
Definition res_json (v : value) : response := mkResponse 200 v.
Definition res_status_json (c : Z) (v : value) : response := mkResponse c v.

(** A read stream opened by [loadData] that has not delivered its records
    yet: the file it reads and the [targetCol] its handlers closed over. *)
Record stream : Type := mkStream {
  dataPath : string;
  targetCol : value
}.

(** The module-level variables of the server, and the read streams whose
    events are still to come. *)
Record state : Type := mkState {
  salesData : list Row;
  currentDataFile : string;
  streams : list stream
}.

Definition metaPath : string := "model_metadata.json".

(** [meta.target_column] on a parsed document: [None] when the read throws
    (the document is [null]); [Some None] when the property is [undefined]. *)
Definition target_column (meta : value) : option (option value) :=
  match meta with
  | VNull => None
  | VObj props => Some (get props "target_column")
  | _ => Some None
  end.

(** The body of the [try] block of [loadData], as a function of the local
    [targetCol] it may assign; [None] when it throws. *)
Definition targetCol_try (d : dir) (targetCol : value) : option value :=
  if existsSync d metaPath then
    match readFileSync d metaPath with
    | None => None
    | Some txt =>
        match JSON.parse txt with
        | None => None
        | Some meta =>
            match target_column meta with
            | None => None
            | Some tc =>
                match tc with
                | Some v => if truthy tc then Some v else Some targetCol
                | None => Some targetCol
                end
            end
        end
    end
  else Some targetCol.

(** [targetCol] after the [try]/[catch]: the handler only logs, so a throw
    leaves the initial ['sales']. *)
Definition resolve_targetCol (d : dir) : value :=
  let targetCol := VStr "sales" in
  match targetCol_try d targetCol with
  | Some t => t
  | None => targetCol
  end.

(** The record [csv-parser] hands to the ['data'] listener: a plain object
    built by assigning each cell, a string, under its header.  Assigning a
    string to [__proto__] creates no property. *)
Definition row_of_record (r : list (string * string)) : Row :=
  fold_left
    (fun o kv =>
       if String.eqb (fst kv) "__proto__" then o
       else set o (fst kv) (CStr (snd kv)))
    r [].

Definition date_like (k : string) : bool :=
  JsString.includes "date" (JsString.toLowerCase k) ||
  JsString.includes "time" (JsString.toLowerCase k).

(** Dynamic date mapping. *)
Definition map_date (row : Row) : Row :=
  let keys := keys row in
  if negb (cell_truthy (get row "date")) then
    match find date_like keys with
    | Some dateKey =>
        if JsString.truthy dateKey then
          match get row dateKey with
          | Some v => set row "date" v
          | None => row
          end
        else row
    | None => row
    end
  else row.

(** Dynamic target mapping; [key] is the property key [targetCol]
    converts to.  When the row has no such column but inherits a property
    of that name, [row[targetCol]] is a function or the prototype object,
    whose text starts with no number: [parseFloat] gives [NaN]. *)
Definition map_target (key : string) (row : Row) : Row :=
  match get row key with
  | Some v => set row "sales" (CNum (parseFloat v))
  | None =>
      if inherited key then set row "sales" (CNum NaN)
      else
        match get row "sales" with
        | Some v =>
            if cell_truthy (Some v) then set row "sales" (CNum (parseFloat v))
            else row
        | None => row
        end
  end.

(** The two legacy columns. *)
Definition map_legacy (row : Row) : Row :=
  let row1 :=
    match get row "marketing_spend" with
    | Some v =>
        if cell_truthy (Some v)
        then set row "marketing_spend" (CNum (parseFloat v))
        else row
    | None => row
    end in
  match get row1 "holiday" with
  | Some v =>
      if cell_truthy (Some v) then set row1 "holiday" (CNum (parseInt v))
      else row1
  | None => row1
  end.

(** The row as it stands when the listener reaches its last test. *)
Definition normalize (key : string) (row : Row) : Row :=
  map_legacy (map_target key (map_date row)).

(** The last test of the listener. *)
Definition keep (row : Row) : bool :=
  cell_truthy (get row "date") && negb (isNaN (get row "sales")).

(** The ['data'] listener of [loadData]: one record in, the cache out.
    [None] when the listener throws, which it does when [targetCol] has no
    property key. *)
Definition on_data (targetCol : value) (cache : list Row) (row : Row)
  : option (list Row) :=
  match ToPropertyKey targetCol with
  | Some key =>
      let row' := normalize key row in
      Some (if keep row' then cache ++ [row'] else cache)%list
  | None => None
  end.

(** The listener over the records of a file, in file order. *)
Fixpoint on_all_data (targetCol : value) (cache : list Row) (rows : list Row)
  : option (list Row) :=
  match rows with
  | [] => Some cache
  | r :: rest =>
      match on_data targetCol cache r with
      | Some cache' => on_all_data targetCol cache' rest
      | None => None
      end
  end.

(** [loadData()]: the synchronous part.  The target column is resolved and
    the read stream is opened; its records arrive in later turns of the
    event loop. *)
Definition loadData (d : dir) (st : state) : state :=
  let dataPath := currentDataFile st in
  let targetCol := resolve_targetCol d in
  if existsSync d dataPath
  then mkState (salesData st) (currentDataFile st)
               (streams st ++ [mkStream dataPath targetCol])
  else st.

(** The events of one read stream: every record of the file goes through
    the ['data'] listener, which pushes onto whatever [salesData] is bound
    to at that moment.  [None] when the server dies of an uncaught
    exception: the file is gone (the stream raises an ['error'] event
    nobody listens to) or the listener throws. *)
Definition stream_events (d : dir) (s : stream) (st : state) : option state :=
  match lookup d (dataPath s) with
  | Some f =>
      match on_all_data (targetCol s) (salesData st)
                        (map row_of_record (csv_records f)) with
      | Some cache => Some (mkState cache (currentDataFile st) (streams st))
      | None => None
      end
  | None => None
  end.

(** A later turn of the event loop in which the oldest pending stream
    delivers its records. *)
Definition stream_turn (d : dir) (st : state) : option state :=
  match streams st with
  | [] => Some st
  | s :: rest =>
      stream_events d s
        (mkState (salesData st) (currentDataFile st) rest)
  end.

(** The rows a complete reload of [name] puts in an empty cache. *)
Definition reloaded_rows (d : dir) (name : string) : option (list Row) :=
  match lookup d name with
  | Some f =>
      on_all_data (resolve_targetCol d) []
                  (map row_of_record (csv_records f))
  | None => Some []
  end.

(** [GET /api/sales]. *)
Definition get_sales (st : state) : response :=
  res_json (VArr (map (fun r => VObj (map (fun kv => (fst kv, cell_value (snd kv))) r))
                      (salesData st))).

(** *** [POST /api/upload] *)

(** The file part of the multipart request, as multer presents it. *)
Record upload_file : Type := mkUpload {
  originalname : string;
  received : file
}.

Record request : Type := mkRequest {
  req_file : option upload_file
}.

(** The [upload.single('file')] middleware: disk storage into [model/]
    under the original file name, before the handler runs. *)
Definition multer_single (d : dir) (req : request) : dir :=
  match req_file req with
  | Some u => write d (originalname u) (received u)
  | None => d
  end.

(** The test that marks a listed file for deletion. *)
Definition stale (uploaded : string) (file : string) : bool :=
  (JsString.endsWith ".csv" file && negb (String.eqb file uploaded))
  || JsString.endsWith ".pkl" file
  || String.eqb file "model_metadata.json".

(** How a block ends: normally, or by a throw; the directory is what the
    deletions done so far left. *)
Inductive completion : Type :=
| Normal (d : dir)
| Thrown (d : dir).

(** [files.forEach(file => ...)] over the listing taken at the start. *)
Fixpoint cleanup_forEach (uploaded : string) (files : list string) (d : dir)
  : completion :=
  match files with
  | [] => Normal d
  | file :: rest =>
      if stale uploaded file then
        match unlinkSync d file with
        | Some d' => cleanup_forEach uploaded rest d'
        | None => Thrown d
        end
      else cleanup_forEach uploaded rest d
  end.

(** The cleanup block: the [catch] logs and the handler goes on. *)
Definition cleanup (uploaded : string) (d : dir) : dir :=
  match cleanup_forEach uploaded (readdirSync d) d with
  | Normal d' => d'
  | Thrown d' => d'
  end.

(** The spawned child and the text gathered from its standard output. *)
Record child : Type := mkChild {
  cmd : string;
  args : list string;
  output : string
}.

Definition pythonPath : string := "model/venv/Scripts/python.exe".
Definition trainScript : string := "model/train.py".

(** The handler up to the registration of the listeners.  [bundled] is
    [fs.existsSync(pythonPath)]. *)
Inductive started : Type :=
| Responded (r : response)
| Spawned (st : state) (d : dir) (p : child).

Definition upload_start (bundled : bool) (st : state) (d : dir) (req : request)
  : started :=
  match req_file req with
  | None =>
      Responded (res_status_json 400 (VObj [("error", VStr "No file uploaded")]))
  | Some u =>
      let d' := cleanup (originalname u) d in
      let st' := mkState (salesData st) (originalname u) (streams st) in
      let cmd := if bundled then pythonPath else "python" in
      Spawned st' d' (mkChild cmd [trainScript; currentDataFile st'] "")
  end.

(** What the child process can raise.  [Close None] is an exit by signal
    (the code is [null]). *)
Inductive child_event : Type :=
| Stdout (data : string)
| Stderr (data : string)
| Error (message : string)
| Close (code : option Z).

(** A request in progress: the server variables, the child, the
    responses sent so far, and whether an exception has escaped from a
    listener.  Nothing catches such an exception: Node ends the process,
    and [run_state] is then what the variables held at that moment. *)
Record run : Type := mkRun {
  run_state : state;
  run_child : child;
  sent : list response;
  uncaught : bool
}.

(** [res.status(c).json(body)] and [res.json(body)]: the first answer is
    sent; once the headers are sent, setting a header throws. *)
Definition respond (r : run) (resp : response) : run :=
  match sent r with
  | [] => mkRun (run_state r) (run_child r) [resp] (uncaught r)
  | _ :: _ => mkRun (run_state r) (run_child r) (sent r) true
  end.

(** The listeners of the upload handler.  [d] is the directory as the
    event finds it (the training job writes there).  No listener runs
    once the process has ended. *)
Definition upload_on (d : dir) (ev : child_event) (r : run) : run :=
  let st := run_state r in
  let p := run_child r in
  if uncaught r then r
  else
    match ev with
    | Error message =>
        respond r
          (res_status_json 500
             (VObj [("error", VStr "Failed to start training script");
                    ("details", VStr message)]))
    | Stdout data =>
        mkRun st (mkChild (cmd p) (args p) (output p ++ data)) (sent r)
          (uncaught r)
    | Stderr _ => r
    | Close code =>
        match code with
        | Some 0 =>
            let st1 := mkState [] (currentDataFile st) (streams st) in
            let st2 := loadData d st1 in
            respond (mkRun st2 p (sent r) (uncaught r))
              (res_json
                 (VObj [("message",
                          VStr "Data updated and model retrained successfully");
                        ("output", VStr (output p))]))
        | _ =>
            respond r
              (res_status_json 500
                 (VObj [("error", VStr "Model training failed");
                        ("details", VStr (output p))]))
        end
    end.

(** The events of one child, each with the directory it finds. *)
Definition upload_events (tr : list (dir * child_event)) (r : run) : run :=
  fold_left (fun r e => upload_on (fst e) (snd e) r) tr r.

(** One whole upload request: multer, the handler, the child's events. *)
Definition upload (bundled : bool) (st : state) (d : dir) (req : request)
  (tr : list (dir * child_event)) : run + response :=
  match upload_start bundled st (multer_single d req) req with
  | Responded resp => inr resp
  | Spawned st' d' p => inl (upload_events tr (mkRun st' p [] false))
  end.

(** The text a child has written to its standard output. *)
Fixpoint stdout_of (evs : list child_event) : string :=
  match evs with
  | [] => ""
  | Stdout data :: r => data ++ stdout_of r
  | _ :: r => stdout_of r
  end.

(** Events that only carry output. *)
Definition is_output (ev : child_event) : bool :=
  match ev with
  | Stdout _ => true
  | Stderr _ => true
  | _ => false
  end.

(** *** [POST /api/predict] *)

(** The ['close'] listener of the prediction handler. *)
Definition predict_close (code : option Z) (dataString : string) : response :=
  let failed :=
    res_status_json 500
      (VObj [("error", VStr "Prediction script failed");
             ("details", VStr dataString)]) in
  let jsonStart := JsString.indexOf "{" dataString in
  let jsonEnd := JsString.lastIndexOf "}" dataString in
  if (jsonStart =? -1) || (jsonEnd =? -1) then failed
  else
    let jsonPart := JsString.substring dataString jsonStart (jsonEnd + 1) in
    match JSON.parse jsonPart with
    | Some result => res_json result
    | None => failed
    end.

(** The listeners of the prediction handler over the child's events: the
    output text gathered so far and the responses sent.  No listener is
    registered for ['error']; [None] stands for the exception Node raises
    in that case. *)
Definition predict_on (ev : child_event) (acc : string * list response)
  : option (string * list response) :=
  let '(dataString, out) := acc in
  match ev with
  | Stdout data => Some (dataString ++ data, out)
  | Stderr _ => Some acc
  | Close code =>
      Some (dataString, (out ++ [predict_close code dataString])%list)
  | Error _ => None
  end.

Fixpoint predict_events (evs : list child_event) (acc : string * list response)
  : option (string * list response) :=
  match evs with
  | [] => Some acc
  | ev :: rest =>
      match predict_on ev acc with
      | Some acc' => predict_events rest acc'
      | None => None
      end
  end.

(** One whole prediction request. *)
Definition predict (evs : list child_event) : option (list response) :=
  match predict_events evs ("", []) with
  | Some (_, out) => Some out
  | None => None
  end.

End Server.

(** ** The dashboard page ([frontend/app/page.js])

    The state logic of the page: the form built from the metadata
    document, the change of one form field, and the chart data computed
    from the rows of [GET /api/sales]. *)
Module Page.

(** How an evaluation ends: with a value, by a throw, or with the text of
    a built-in function in hand, which depends on the engine and is left
    outside the model. *)
Inductive outcome (A : Type) : Type :=
| Done (a : A)
| Throws
| NativeText.
Arguments Done {A} a.
Arguments Throws {A}.
Arguments NativeText {A}.

Definition bind {A B : Type} (o : outcome A) (k : A -> outcome B)
  : outcome B :=
  match o with
  | Done a => k a
  | Throws => Throws
  | NativeText => NativeText
  end.

(** [v.k] for a property name [k] that no prototype defines and that is
    neither an index nor [length]: [None] when the read throws ([v] is
    [null]); [Some None] when the property is [undefined]. *)
Definition member (v : value) (k : string) : option (option value) :=
  match v with
  | VNull => None
  | VObj props => Some (get props k)
  | _ => Some None
  end.

(** [ToPropertyKey] of a value that may be [undefined]. *)
Definition key_of (o : option value) : outcome string :=
  match o with
  | None => Done "undefined"
  | Some v =>
      match ToPropertyKey v with
      | Some k => Done k
      | None => Throws
      end
  end.

(** The UTF-16 code units of a text held in UTF-8 form; a lone surrogate
    is held in its three-byte form, a byte that starts no well-formed
    sequence counts for itself. *)
Fixpoint code_units (s : string) : list Z :=
  match s with
  | EmptyString => []
  | String a r =>
      let b0 := Z.of_nat (nat_of_ascii a) in
      let cont (c : ascii) : option Z :=
        let n := Z.of_nat (nat_of_ascii c) in
        if (128 <=? n) && (n <? 192) then Some (n - 128) else None in
      let single := b0 :: code_units r in
      if b0 <? 192 then single
      else if b0 <? 224 then
        match r with
        | String c1 r1 =>
            match cont c1 with
            | Some x1 => ((b0 - 192) * 64 + x1) :: code_units r1
            | None => single
            end
        | _ => single
        end
      else if b0 <? 240 then
        match r with
        | String c1 (String c2 r2) =>
            match cont c1, cont c2 with
            | Some x1, Some x2 =>
                ((b0 - 224) * 4096 + x1 * 64 + x2) :: code_units r2
            | _, _ => single
            end
        | _ => single
        end
      else
        match r with
        | String c1 (String c2 (String c3 r3)) =>
            match cont c1, cont c2, cont c3 with
            | Some x1, Some x2, Some x3 =>
                let cp := (b0 - 240) * 262144 + x1 * 4096 + x2 * 64 + x3 in
                (55296 + (cp - 65536) / 1024)
                  :: (56320 + (cp - 65536) mod 1024) :: code_units r3
            | _, _, _ => single
            end
        | _ => single
        end
  end.

(** *** The form built from the metadata document ([fetchMetadata]) *)

(** [options[0]]: [None] when the read throws. *)
Definition first_option (options : option value) : option (option value) :=
  match options with
  | None => None
  | Some VNull => None
  | Some (VArr items) => Some (hd_error items)
  | Some (VStr s) =>
      Some (match code_units s with
            | [] => None
            | u :: _ => Some (VStr (JSON.utf8 u))
            end)
  | Some (VObj props) => Some (get props "0")
  | Some _ => Some None
  end.

Definition is_string (o : option value) (s : string) : bool :=
  match o with
  | Some (VStr t) => String.eqb t s
  | _ => false
  end.

(** The default a feature descriptor gets. *)
Definition initial_value (f : value) : outcome value :=
  match member f "type", member f "options" with
  | Some type, Some options =>
      if is_string type "categorical" then
        match first_option options with
        | Some first =>
            Done (match first with
                  | Some v => if truthy first then v else VStr ""
                  | None => VStr ""
                  end)
        | None => Throws
        end
      else if is_string type "date" then Done (VStr "2025-01-01")
      else Done (VNum (Fin false 0 (-1074)))
  | _, _ => Throws
  end.

(** [form[key] = v] on a plain object: an assignment to [__proto__]
    creates no property of the object. *)
Definition assign (form : object) (key : string) (v : value) : object :=
  if String.eqb key "__proto__" then form else set form key v.

(** The body of the [forEach] over the feature descriptors. *)
Definition initial_form_step (form : object) (f : value) : outcome object :=
  match member f "name" with
  | None => Throws
  | Some name =>
      bind (initial_value f) (fun v =>
      bind (key_of name) (fun key => Done (assign form key v)))
  end.

Fixpoint initial_form_each (form : object) (features : list value)
  : outcome object :=
  match features with
  | [] => Done form
  | f :: rest =>
      bind (initial_form_step form f) (fun form' =>
      initial_form_each form' rest)
  end.

(** The form for a metadata document: [meta.features] has to be an array
    for [forEach] to be there. *)
Definition initial_form (meta : value) : outcome object :=
  match member meta "features" with
  | Some (Some (VArr features)) => initial_form_each [] features
  | _ => Throws
  end.

(** The two pieces of state [fetchMetadata] sets. *)
Record form_state : Type := mkForm {
  modelMetadata : option value;
  dynamicForm : object
}.

(** [fetchMetadata] once the response is in, [ok] being [res.ok] and
    [text] the body: a response that is not ok changes nothing, nor does
    a body [res.json()] cannot parse (the [catch] logs); otherwise the
    metadata is stored first, and the form only if building it does not
    throw. *)
Definition fetchMetadata (ok : bool) (text : string) (s : form_state)
  : form_state :=
  if ok then
    match JSON.parse text with
    | Some meta =>
        match initial_form meta with
        | Done form => mkForm (Some meta) form
        | _ => mkForm (Some meta) (dynamicForm s)
        end
    | None => s
    end
  else s.

(** [handleInputChange]: a copy of the form with one field set; a
    computed key defines a property of the object whatever its name. *)
Definition handleInputChange (featureName : option value) (v : value)
  (prev : object) : outcome object :=
  bind (key_of featureName) (fun key => Done (set prev key v)).

(** *** The chart data *)

(** Addition of two numbers, round to nearest, ties to even. *)
Definition add (x y : number) : number :=
  match x, y with
  | NaN, _ => NaN
  | _, NaN => NaN
  | Infinity a, Infinity b => if Bool.eqb a b then Infinity a else NaN
  | Infinity a, Fin _ _ _ => Infinity a
  | Fin _ _ _, Infinity b => Infinity b
  | Fin n1 f1 q1, Fin n2 f2 q2 =>
      let q := Z.min q1 q2 in
      let a1 := (if n1 then -1 else 1) * f1 * 2 ^ (q1 - q) in
      let a2 := (if n2 then -1 else 1) * f2 * 2 ^ (q2 - q) in
      let sum := a1 + a2 in
      if sum =? 0 then Fin (n1 && n2 && (f1 =? 0) && (f2 =? 0)) 0 (-1074)
      else if 0 <=? q then round_ratio (sum <? 0) (Z.abs sum * 2 ^ q) 1
      else round_ratio (sum <? 0) (Z.abs sum) (2 ^ (- q))
  end.

(** [ToPrimitive] followed by the test for a string, for an operand of
    [+] that may be [undefined]: the text of a string operand (an array
    or an object converts to one), or the number of any other. *)
Definition operand (o : option value) : outcome (string + number) :=
  match o with
  | None => Done (inr NaN)
  | Some VNull => Done (inr (Fin false 0 (-1074)))
  | Some (VBool true) => Done (inr (of_decimal false 1 0))
  | Some (VBool false) => Done (inr (Fin false 0 (-1074)))
  | Some (VNum n) => Done (inr n)
  | Some (VStr s) => Done (inl s)
  | Some v =>
      match ToString v with
      | Some s => Done (inl s)
      | None => Throws
      end
  end.

(** The text of a primitive operand, for a concatenation. *)
Definition operand_text (o : option value) (p : string + number) : string :=
  match p with
  | inl s => s
  | inr n =>
      match o with
      | None => "undefined"
      | Some VNull => "null"
      | Some (VBool true) => "true"
      | Some (VBool false) => "false"
      | _ => JsNumber.toString n
      end
  end.

(** [a + b]. *)
Definition plus (a b : option value) : outcome value :=
  bind (operand a) (fun pa =>
  bind (operand b) (fun pb =>
    match pa, pb with
    | inr x, inr y => Done (VNum (add x y))
    | _, _ => Done (VStr (operand_text a pa ++ operand_text b pb))
    end)).

(** The body of the [forEach] over the rows.  A date named [__proto__]
    reads the prototype, which is truthy, and the assignment of the sum,
    a string, creates no property; a date that names another inherited
    property reads a built-in function. *)
Definition aggregate_step (aggregatedData : object) (row : value)
  : outcome object :=
  match member row "date", member row "sales" with
  | Some date, Some sales =>
      bind (key_of date) (fun key =>
        if String.eqb key "__proto__" then
          bind (operand sales) (fun _ => Done aggregatedData)
        else
          match get aggregatedData key with
          | None =>
              if inherited key then NativeText
              else
                bind (plus (Some (VNum (Fin false 0 (-1074)))) sales)
                     (fun sum => Done (set aggregatedData key sum))
          | Some current =>
              let start :=
                if truthy (Some current) then current
                else VNum (Fin false 0 (-1074)) in
              bind (plus (Some start) sales)
                   (fun sum => Done (set aggregatedData key sum))
          end)
  | _, _ => Throws
  end.

Fixpoint aggregate (aggregatedData : object) (rows : list value)
  : outcome object :=
  match rows with
  | [] => Done aggregatedData
  | row :: rest =>
      bind (aggregate_step aggregatedData row) (fun a => aggregate a rest)
  end.

(** Comparison of two texts by code units, as the default [sort] does. *)
Fixpoint units_leb (a b : list Z) : bool :=
  match a, b with
  | [], _ => true
  | _ :: _, [] => false
  | x :: a', y :: b' =>
      if x <? y then true else if y <? x then false else units_leb a' b'
  end.

Definition text_leb (a b : string) : bool :=
  units_leb (code_units a) (code_units b).

Fixpoint insert_sorted (x : string) (l : list string) : list string :=
  match l with
  | [] => [x]
  | y :: r => if text_leb x y then x :: y :: r else y :: insert_sorted x r
  end.

(** [keys.sort()] with the default comparison. *)
Definition sort (l : list string) : list string :=
  fold_right insert_sorted [] l.

(** The labels and the data of the line chart. *)
Record chart : Type := mkChart {
  labels : list string;
  data : list (option value)
}.

Definition chart_of (salesData : list value) : outcome chart :=
  bind (aggregate [] salesData) (fun aggregatedData =>
    let dates := sort (keys aggregatedData) in
    Done (mkChart dates (map (get aggregatedData) dates))).

End Page.

(** ** The remaining routes and the start of the server *)
Module Endpoints.
Import Fs Server.

(** What a handler hands back: a JSON body, or a file sent as it is. *)
Inductive reply : Type :=
| Json (r : response)
| SendFile (path : string).

(** [GET /api/metadata]: the metadata document as it is on disk, or 404
    when there is none. *)
Definition get_metadata (d : dir) : reply :=
  if existsSync d metaPath then SendFile metaPath
  else
    Json (res_status_json 404
            (VObj [("error",
                     VStr "Metadata not found. Model might not be trained yet.")])).

(** The module-level variables as they are declared. *)
Definition initial : state := mkState [] "sales_data.csv" [].

(** The [loadData()] call made when the module is loaded. *)
Definition startup (d : dir) : state := loadData d initial.

(** [p.replace(/\\/g, '/')], applied to the three artifact paths before
    they are written into the inference program: every backslash becomes
    a forward slash. *)
Fixpoint forward_slashes (p : string) : string :=
  match p with
  | EmptyString => EmptyString
  | String a r =>
      String (if Ascii.eqb a "\" then "/"%char else a) (forward_slashes r)
  end.

End Endpoints.
Export Endpoints.

(** ** Notions used to state the properties *)
Module Notions.
Import Fs Server.

(** Every cell of a parsed record is a string. *)
Definition all_strings (o : Row) : Prop :=
  forall k v, get o k = Some v -> exists s, v = CStr s.

(** The cell the target mapping hands to [parseFloat], if any: the
    declared target column when the row has it, else a non-empty literal
    [sales] column (unless the declared name is an inherited property,
    which is no cell and parses to [NaN]). *)
Definition resolved_target (key : string) (row : Row) : option cell :=
  match get row key with
  | Some v => Some v
  | None =>
      if inherited key then None
      else
        match get row "sales" with
        | Some v => if cell_truthy (Some v) then Some v else None
        | None => None
        end
  end.

(** Row filtering as the specification words it: an included record has a
    non-empty [date] and a finite numeric [sales]. *)
Definition included_is_finite (targetCol : value)
  (record : list (string * string)) : Prop :=
  forall cache out,
  on_data targetCol cache (row_of_record record) = Some (cache ++ [out])%list ->
  (exists s, get out "date" = Some (CStr s) /\ s <> "") /\
  (exists n, get out "sales" = Some (CNum n) /\ is_finite n = true).

(** The Dataset Reference as the specification words it: an upload
    leaves it at its value from before the request. *)
Definition reference_retained (bundled : bool) (st : state) (d : dir)
  (req : request) (tr : list (dir * child_event)) : Prop :=
  forall r, upload bundled st d req tr = inl r ->
            currentDataFile (run_state r) = currentDataFile st.

(** The extraction as the specification words it: the text from the first
    opening brace to the last closing brace, when both occur; it is empty
    when the last closing brace comes before the first opening one. *)
Definition brace_span (s : string) : option string :=
  let i := JsString.indexOf "{" s in
  let j := JsString.lastIndexOf "}" s in
  if (i =? -1) || (j =? -1) then None
  else Some (String.substring (Z.to_nat i) (Z.to_nat (j + 1 - i)) s).

(** Error surfacing as the specification words it: when some part of the
    text the inference process wrote is a JSON text that parses to an
    object, the request is answered 200 with that object. *)
Definition emitted_object_answered (evs : list child_event)
  (code : option Z) : Prop :=
  forall before text after props,
  stdout_of evs = before ++ text ++ after ->
  JSON.parse text = Some (VObj props) ->
  predict (evs ++ [Close code]) = Some [mkResponse 200 (VObj props)].

(** The success response of an upload as the specification words it: when
    it is sent, the cache holds the reloaded rows of the new dataset. *)
Definition cache_reloaded_at_response (d : dir) (r : run) : Prop :=
  reloaded_rows d (currentDataFile (run_state r)) =
  Some (salesData (run_state r)).

(** A trace in which the child only writes to its output streams. *)
Definition outputs_only (tr : list (dir * child_event)) : Prop :=
  Forall (fun e => is_output (snd e) = true) tr.

(** Decidable forms of two conditions on a directory: its names are
    pairwise distinct; none of its entries refuses deletion. *)
Fixpoint distinct (l : list string) : bool :=
  match l with
  | [] => true
  | x :: r => negb (existsb (String.eqb x) r) && distinct r
  end.

Definition all_unlinkable (d : dir) : bool :=
  forallb (fun e => negb (unlink_fails (snd e))) d.

End Notions.
Export Notions.

(** ** Sample data *)
Module Sample.
Import Fs Server.

Definition plain (text : string) : file := mkFile (Some text) [] false.

Definition quoted (s : string) : string := dq ++ s ++ dq.

(** A metadata document that declares the target column [revenue]. *)
Definition revenue_meta : string :=
  "{" ++ quoted "target_column" ++ ": " ++ quoted "revenue" ++ "}".

(** The dataset [A.csv] of an earlier upload and the artifacts trained
    from it. *)
Definition a_csv : file :=
  mkFile (Some ("date,sales" ++ nl ++ "2024-01-01,5" ++ nl))
         [[("date", "2024-01-01"); ("sales", "5")]] false.

Definition model_dir : dir :=
  [("A.csv", a_csv);
   ("sales_model.pkl", plain "");
   ("encoders.pkl", plain "");
   ("model_metadata.json", plain revenue_meta);
   ("train.py", plain "")].

(** The uploaded dataset [B.csv]. *)
Definition b_csv : file :=
  mkFile (Some ("order_date,revenue,sales" ++ nl ++ "2025-03-01,12.5,99" ++ nl
                ++ "2025-03-02,7,98" ++ nl))
         [[("order_date", "2025-03-01"); ("revenue", "12.5"); ("sales", "99")];
          [("order_date", "2025-03-02"); ("revenue", "7"); ("sales", "98")]]
         false.

Definition b_upload : upload_file := mkUpload "B.csv" b_csv.
Definition b_request : request := mkRequest (Some b_upload).

(** The server just started on an empty cache. *)
Definition st0 : state := mkState [] "sales_data.csv" [].

(** The directory once the training of [B.csv] has written its artifacts. *)
Definition trained_dir : dir :=
  [("train.py", plain "");
   ("B.csv", b_csv);
   ("sales_model.pkl", plain "");
   ("model_features.pkl", plain "");
   ("encoders.pkl", plain "");
   ("model_metadata.json", plain revenue_meta)].

(** A training that prints one line and exits zero. *)
Definition trace_ok : list (dir * child_event) :=
  [(trained_dir, Stdout ("Model trained" ++ nl));
   (trained_dir, Close (Some 0))].

(** A training that prints a traceback and exits with code 1. *)
Definition failing_output : list (dir * child_event) :=
  [([("train.py", plain ""); ("B.csv", b_csv)], Stdout "Traceback");
   ([("train.py", plain ""); ("B.csv", b_csv)], Stderr "KeyError")].

Definition failed_dir : dir := [("train.py", plain ""); ("B.csv", b_csv)].

(** A directory in which an old artifact refuses deletion. *)
Definition locked_dir : dir :=
  [("A.csv", a_csv);
   ("sales_model.pkl", mkFile (Some "") [] true);
   ("C.csv", a_csv);
   ("model_metadata.json", plain revenue_meta);
   ("B.csv", b_csv)].

(** A directory whose metadata document is not JSON. *)
Definition broken_meta_dir : dir :=
  [("sales_data.csv", a_csv); ("model_metadata.json", plain "{target_column")].

(** The output of the specification's extraction example. *)
Definition noisy_output : string :=
  "warning: foo" ++ nl ++ "{" ++ quoted "prediction" ++ ": 42.5}" ++ nl
  ++ "trailing" ++ nl.

(** An inference run that prints a warning holding braces before its
    result. *)
Definition warning_output : string :=
  "UserWarning: params={'n': 1}" ++ nl
  ++ "{" ++ quoted "prediction" ++ ": 3}" ++ nl.

(** An inference run that reports a domain error and exits with code 1. *)
Definition domain_error_events : list child_event :=
  [Stdout ("Traceback (most recent call last):" ++ nl);
   Stderr "noise";
   Stdout ("{" ++ quoted "error" ++ ": " ++ quoted "No input received" ++ "}" ++ nl)].

End Sample.

(** ** More sample data *)
Module SampleMore.
Import Fs Server Sample.

(** A text made of decimal digits only. *)
Definition digit (a : ascii) : bool :=
  match JsParse.digit_val 10 a with Some _ => true | None => false end.

Fixpoint digits_only (s : string) : bool :=
  match s with
  | EmptyString => true
  | String a r => digit a && digits_only r
  end.

(** An upload that carries the name of a model artifact. *)
Definition pkl_upload : upload_file :=
  mkUpload "sales_model.pkl" (plain "date,sales").

(** A stream opened for [B.csv] with the target column [revenue]. *)
Definition b_stream : stream := mkStream "B.csv" (VStr "revenue").

(** A cache that already holds one row. *)
Definition st_one_row : state :=
  mkState [[("date", CStr "2024-01-01"); ("sales", CNum (of_decimal false 5 0))]]
          "A.csv" [].

(** A directory with the default dataset and no metadata document. *)
Definition default_dir : dir := [("sales_data.csv", a_csv); ("train.py", plain "")].

(** A row whose first date-like column is empty while a later one is
    filled. *)
Definition two_dates : Row :=
  [("start_time", CStr ""); ("end_date", CStr "2024-01-01");
   ("sales", CStr "5")].

(** A record with both legacy columns and a column of its own. *)
Definition legacy_record : list (string * string) :=
  [("date", "2024-01-01"); ("sales", "5"); ("marketing_spend", "100.5");
   ("holiday", "1"); ("region", "North")].

End SampleMore.

(** ** Notions and sample data for the page *)
Module PageNotions.
Import Page.

(** A row of the sales table as the chart reads it: an object whose
    [date] is the string [d] and whose [sales] is the number [s]. *)
Definition dated (row : value) (d : string) (s : number) : Prop :=
  exists props,
    row = VObj props /\
    get props "date" = Some (VStr d) /\
    get props "sales" = Some (VNum s).

(** The running total of the date [d] over dated rows, as the loop keeps
    it: a total that is zero or [NaN] is set back to zero before the next
    sale of that date is added. *)
Fixpoint total_for (d : string) (rows : list (string * number))
  (acc : option number) : option number :=
  match rows with
  | [] => acc
  | (d', s) :: rest =>
      if String.eqb d' d then
        let start :=
          match acc with
          | Some x => if JsNumber.truthy x then x else Fin false 0 (-1074)
          | None => Fin false 0 (-1074)
          end in
        total_for d rest (Some (add start s))
      else total_for d rest acc
  end.

(** The numbers an aggregate holds. *)
Definition number_at (o : object) (d : string) : option number :=
  match get o d with
  | Some (VNum n) => Some n
  | _ => None
  end.

Definition all_numbers (o : object) : Prop :=
  forall d v, get o d = Some v -> exists n, v = VNum n.

(** The order of the labels. *)
Definition text_le (a b : string) : Prop := text_leb a b = true.

(** A metadata document with a categorical, a date and a numeric
    feature. *)
Definition sample_features : list value :=
  [VObj [("name", VStr "region"); ("type", VStr "categorical");
         ("options", VArr [VStr "North"; VStr "South"])];
   VObj [("name", VStr "order_date"); ("type", VStr "date")];
   VObj [("name", VStr "units"); ("type", VStr "numeric")]].

Definition sample_meta : value :=
  VObj [("target_column", VStr "revenue"); ("features", VArr sample_features)].

(** The text of a document whose categorical feature lists no options. *)
Definition broken_meta_text : string :=
  "{" ++ Sample.quoted "features" ++ ": [{" ++ Sample.quoted "name" ++ ": "
  ++ Sample.quoted "region" ++ ", " ++ Sample.quoted "type" ++ ": "
  ++ Sample.quoted "categorical" ++ "}]}".

Definition broken_meta : value :=
  VObj [("features",
         VArr [VObj [("name", VStr "region"); ("type", VStr "categorical")]])].

Definition sample_form : object :=
  [("region", VStr "North"); ("order_date", VStr "2025-01-01");
   ("units", VNum (Fin false 0 (-1074)))].

(** Three rows over two dates, the later date first. *)
Definition sample_rows : list value :=
  [VObj [("date", VStr "2024-01-02"); ("sales", VNum (of_decimal false 5 0))];
   VObj [("date", VStr "2024-01-01"); ("sales", VNum (of_decimal false 25 (-1)))];
   VObj [("date", VStr "2024-01-02"); ("sales", VNum (of_decimal false 1 0));
         ("region", VStr "North")]].

Definition sample_dated : list (string * number) :=
  [("2024-01-02", of_decimal false 5 0);
   ("2024-01-01", of_decimal false 25 (-1));
   ("2024-01-02", of_decimal false 1 0)].

End PageNotions.
Export PageNotions.

(** * Properties *)

(** ** Objects *)
Section ObjectFacts.
Context {A : Type}.
Implicit Types (o : list (string * A)) (v : A).

Lemma get_update_same o (k : string) v :
  get o k <> None -> get (update o k v) k = Some v.
Proof.
  induction o as [|[k' v'] o IH]; simpl; [congruence|].
  destruct (String.eqb_spec k' k) as [->|Hne]; simpl.
  - now rewrite String.eqb_refl.
  - destruct (String.eqb_spec k' k); [contradiction|exact IH].
Qed.

Lemma get_update_other o (k k' : string) v :
  k <> k' -> get (update o k v) k' = get o k'.
Proof.
  intros Hne. induction o as [|[k0 v0] o IH]; simpl; [reflexivity|].
  destruct (String.eqb_spec k0 k) as [->|Hk]; simpl.
  - destruct (String.eqb_spec k k'); [contradiction|reflexivity].
  - destruct (String.eqb_spec k0 k'); [reflexivity|exact IH].
Qed.

Lemma keys_update o (k : string) v : keys (update o k v) = keys o.
Proof.
  induction o as [|[k' v'] o IH]; simpl; [reflexivity|].
  destruct (String.eqb k' k); simpl; [reflexivity|].
  f_equal. exact IH.
Qed.

Lemma get_create_same o (k : string) v :
  get o k = None -> get (create o k v) k = Some v.
Proof.
  induction o as [|[k' v'] o IH]; simpl.
  - now rewrite String.eqb_refl.
  - destruct (String.eqb_spec k' k) as [->|Hne]; [discriminate|].
    intros H. destruct (listed_before k k'); simpl.
    + now rewrite String.eqb_refl.
    + destruct (String.eqb_spec k' k); [contradiction|now apply IH].
Qed.

Lemma get_create_other o (k k' : string) v :
  k <> k' -> get (create o k v) k' = get o k'.
Proof.
  intros Hne. induction o as [|[k0 v0] o IH]; simpl.
  - destruct (String.eqb_spec k k'); [contradiction|reflexivity].
  - destruct (listed_before k k0); simpl.
    + destruct (String.eqb_spec k k'); [contradiction|reflexivity].
    + destruct (String.eqb_spec k0 k'); [reflexivity|exact IH].
Qed.

Lemma keys_create o (k : string) v (x : string) :
  In x (keys (create o k v)) <-> x = k \/ In x (keys o).
Proof.
  induction o as [|[k' v'] o IH]; simpl.
  - intuition congruence.
  - destruct (listed_before k k'); simpl.
    + intuition congruence.
    + rewrite IH. intuition congruence.
Qed.

Lemma get_set_same o (k : string) v :
  get (set o k v) k = Some v.
Proof.
  unfold set. destruct (get o k) eqn:E.
  - apply get_update_same. congruence.
  - now apply get_create_same.
Qed.

Lemma get_set_other o (k k' : string) v :
  k <> k' -> get (set o k v) k' = get o k'.
Proof.
  intros Hne. unfold set. destruct (get o k).
  - now apply get_update_other.
  - now apply get_create_other.
Qed.

Lemma get_In_keys o (k : string) v :
  get o k = Some v -> In k (keys o).
Proof.
  induction o as [|[k' v'] o IH]; simpl; [discriminate|].
  destruct (String.eqb_spec k' k) as [->|Hne]; intros H.
  - now left.
  - right. now apply IH.
Qed.

Lemma keys_set o (k : string) v (x : string) :
  In x (keys (set o k v)) -> x = k \/ In x (keys o).
Proof.
  unfold set. destruct (get o k).
  - rewrite keys_update. now right.
  - apply keys_create.
Qed.

(** A new property whose name is no array index goes to the end. *)
Lemma set_new_name o (k : string) v :
  array_index k = None -> get o k = None -> set o k v = (o ++ [(k, v)])%list.
Proof.
  intros Hk E. unfold set. rewrite E. clear E.
  induction o as [|[k' v'] o IH]; simpl; [reflexivity|].
  unfold listed_before. rewrite Hk. now rewrite IH.
Qed.

(** A new array index goes before the first property that is no array
    index or is a larger one. *)
Lemma set_new_index o (k : string) v (i : Z) :
  array_index k = Some i -> get o k = None ->
  exists before after,
    o = (before ++ after)%list /\
    set o k v = (before ++ (k, v) :: after)%list /\
    (forall k', In k' (keys before) ->
                exists j, array_index k' = Some j /\ j <= i) /\
    match after with
    | [] => True
    | (k', _) :: _ =>
        match array_index k' with
        | Some j => i < j
        | None => True
        end
    end.
Proof.
  intros Hk E. unfold set. rewrite E. clear E.
  induction o as [|[k' v'] o IH]; simpl.
  - exists [], []. repeat split. intros k' [].
  - unfold listed_before. rewrite Hk.
    destruct (array_index k') as [j|] eqn:Ej.
    + destruct (Z.ltb_spec i j) as [Hlt|Hge].
      * exists [], ((k', v') :: o). simpl. rewrite Ej.
        repeat split; [intros k0 []|exact Hlt].
      * destruct IH as (before & after & -> & Hset & Hb & Ha).
        fold (listed_before k) in Hset.
        exists ((k', v') :: before), after. simpl.
        split; [reflexivity|]. split; [|split; [|exact Ha]].
        -- f_equal. exact Hset.
        -- intros k0 [<-|Hin]; [now exists j|now apply Hb].
    + exists [], ((k', v') :: o). simpl. rewrite Ej.
      repeat split. intros k0 [].
Qed.

End ObjectFacts.

(** ** Parsed records *)
Section RecordFacts.

Lemma all_strings_set (o : Row) (k s : string) :
  all_strings o -> all_strings (set o k (CStr s)).
Proof.
  intros H k' v'. destruct (String.eqb_spec k k') as [<-|Hne].
  - rewrite get_set_same. intros [= <-]. now exists s.
  - rewrite get_set_other by assumption. apply H.
Qed.

Lemma row_of_record_strings (r : list (string * string)) :
  all_strings (Server.row_of_record r).
Proof.
  unfold Server.row_of_record.
  assert (G : forall (o : Row), all_strings o ->
            all_strings (fold_left
              (fun o kv =>
                 if String.eqb (fst kv) "__proto__" then o
                 else set o (fst kv) (CStr (snd kv))) r o)).
  { induction r as [|[k s] r IH]; simpl; intros o Ho; [exact Ho|].
    apply IH. destruct (String.eqb k "__proto__"); [exact Ho|].
    now apply all_strings_set. }
  apply G. intros k v; simpl; discriminate.
Qed.

Lemma keys_row_of_record (r : list (string * string)) (k : string) :
  In k (keys (Server.row_of_record r)) -> In k (map fst r).
Proof.
  unfold Server.row_of_record.
  assert (G : forall (o : Row),
            In k (keys (fold_left
              (fun o kv =>
                 if String.eqb (fst kv) "__proto__" then o
                 else set o (fst kv) (CStr (snd kv))) r o)) ->
            In k (keys o) \/ In k (map fst r)).
  { induction r as [|[k0 s] r IH]; simpl; intros o H; [now left|].
    destruct (IH _ H) as [E|E]; [|right; now right].
    destruct (String.eqb k0 "__proto__"); [now left|].
    destruct (keys_set _ _ _ _ E) as [->|E']; [right; now left | now left]. }
  intros H. destruct (G [] H) as [[]|E]. exact E.
Qed.

End RecordFacts.

(** ** The row listener of the cache loader *)
Section RowFacts.
Import Server.

Lemma find_none_all {A : Type} (f : A -> bool) (l : list A) :
  (forall x, In x l -> f x = false) -> find f l = None.
Proof.
  induction l as [|a l IH]; simpl; intros H; [reflexivity|].
  rewrite (H a (or_introl eq_refl)). apply IH. intros x Hx. apply H. now right.
Qed.

Lemma map_date_other (row : Row) (k : string) :
  k <> "date" -> get (map_date row) k = get row k.
Proof.
  intros Hk. unfold map_date.
  destruct (negb (cell_truthy (get row "date"))); [|reflexivity].
  destruct (find date_like (keys row)) as [dk|]; [|reflexivity].
  destruct (JsString.truthy dk); [|reflexivity].
  destruct (get row dk); [|reflexivity].
  apply get_set_other. congruence.
Qed.

Lemma map_date_strings (row : Row) :
  all_strings row -> all_strings (map_date row).
Proof.
  intros H. unfold map_date.
  destruct (negb (cell_truthy (get row "date"))); [|exact H].
  destruct (find date_like (keys row)) as [dk|]; [|exact H].
  destruct (JsString.truthy dk); [|exact H].
  destruct (get row dk) as [v|] eqn:E; [|exact H].
  destruct (H _ _ E) as [s ->]. now apply all_strings_set.
Qed.

Lemma map_date_no_column (row : Row) :
  (forall k, In k (keys row) -> date_like k = false) ->
  cell_truthy (get (map_date row) "date") = false.
Proof.
  intros H. unfold map_date.
  assert (Hd : get row "date" = None).
  { destruct (get row "date") as [v|] eqn:E; [|reflexivity].
    apply get_In_keys in E. apply H in E. discriminate E. }
  rewrite Hd. simpl. rewrite (find_none_all _ _ H). now rewrite Hd.
Qed.

Lemma map_target_other (t : string) (row : Row) (k : string) :
  k <> "sales" -> get (map_target t row) k = get row k.
Proof.
  intros Hk. unfold map_target.
  destruct (get row t).
  - apply get_set_other. congruence.
  - destruct (inherited t); [apply get_set_other; congruence|].
    destruct (get row "sales") as [v|]; [|reflexivity].
    destruct (cell_truthy (Some v)); [|reflexivity].
    apply get_set_other. congruence.
Qed.

Lemma map_target_sales (t : string) (row : Row) :
  get (map_target t row) "sales" =
  match resolved_target t row with
  | Some v => Some (CNum (parseFloat v))
  | None =>
      match get row t with
      | None => if inherited t then Some (CNum NaN) else get row "sales"
      | Some _ => get row "sales"
      end
  end.
Proof.
  unfold map_target, resolved_target.
  destruct (get row t).
  - apply get_set_same.
  - destruct (inherited t); [apply get_set_same|].
    destruct (get row "sales") as [v|] eqn:E; [|exact E].
    destruct (cell_truthy (Some v)); [apply get_set_same|exact E].
Qed.

Lemma map_legacy_other (row : Row) (k : string) :
  k <> "marketing_spend" -> k <> "holiday" ->
  get (map_legacy row) k = get row k.
Proof.
  intros H1 H2. unfold map_legacy.
  set (row1 := match get row "marketing_spend" with
               | Some v =>
                   if cell_truthy (Some v)
                   then set row "marketing_spend" (CNum (parseFloat v))
                   else row
               | None => row
               end).
  assert (E1 : get row1 k = get row k).
  { unfold row1. destruct (get row "marketing_spend") as [v|]; [|reflexivity].
    destruct (cell_truthy (Some v)); [|reflexivity].
    apply get_set_other. congruence. }
  destruct (get row1 "holiday") as [v|]; [|exact E1].
  destruct (cell_truthy (Some v)); [|exact E1].
  rewrite get_set_other by congruence. exact E1.
Qed.

Lemma normalize_date (t : string) (row : Row) :
  get (normalize t row) "date" = get (map_date row) "date".
Proof.
  unfold normalize.
  rewrite map_legacy_other by discriminate.
  apply map_target_other. discriminate.
Qed.

Lemma normalize_sales (t : string) (row : Row) :
  get (normalize t row) "sales" =
  match resolved_target t (map_date row) with
  | Some v => Some (CNum (parseFloat v))
  | None =>
      match get (map_date row) t with
      | None =>
          if inherited t then Some (CNum NaN) else get (map_date row) "sales"
      | Some _ => get (map_date row) "sales"
      end
  end.
Proof.
  unfold normalize.
  rewrite map_legacy_other by discriminate.
  apply map_target_sales.
Qed.

Lemma truthy_string (o : Row) (k : string) :
  all_strings o -> cell_truthy (get o k) = true ->
  exists s, get o k = Some (CStr s) /\ s <> "".
Proof.
  intros Hs Ht. destruct (get o k) as [v|] eqn:E; [|discriminate].
  destruct (Hs _ _ E) as [s ->]. exists s. split; [reflexivity|].
  intros ->. discriminate Ht.
Qed.

Lemma falsy_string (o : Row) (k : string) (v : cell) :
  all_strings o -> get o k = Some v -> cell_truthy (Some v) = false ->
  v = CStr "".
Proof.
  intros Hs E Ht. destruct (Hs _ _ E) as [s ->].
  destruct s; [reflexivity|discriminate].
Qed.

(** What the listener does with one record, given the property key its
    [targetCol] converts to. *)
Lemma on_data_key (targetCol : value) (key : string) (cache : list Row)
  (row : Row) :
  ToPropertyKey targetCol = Some key ->
  on_data targetCol cache row =
  Some (if keep (normalize key row)
        then cache ++ [normalize key row] else cache)%list.
Proof. intros H. unfold on_data. now rewrite H. Qed.

(** C4 (as amended).  For every record the parser hands over, with [key]
    the property key of the declared target column: the record is pushed
    onto the cache exactly when the last test of the listener holds; a
    record with no column whose name contains [date] or [time] is
    excluded; an included record has a non-empty [date]; and, unless the
    declared target column is absent while the literal [sales] cell is
    empty, the record is included exactly when its date resolves to a
    non-empty string and the resolved target cell parses to a number
    other than [NaN], in which case the cached [sales] is that number (it
    may be an infinity: the listener tests [isNaN], not finiteness). *)
Theorem row_filtering (targetCol : value) (key : string)
  (record : list (string * string)) (cache : list Row) :
  ToPropertyKey targetCol = Some key ->
  let row := row_of_record record in
  let row1 := map_date row in
  let out := normalize key row in
  on_data targetCol cache row =
    Some (if keep out then cache ++ [out] else cache)%list /\
  ((forall k, In k (keys row) -> date_like k = false) -> keep out = false) /\
  (keep out = true -> exists s, get out "date" = Some (CStr s) /\ s <> "") /\
  (~ (get row1 key = None /\ get row1 "sales" = Some (CStr "")) ->
   (keep out = true <->
    (exists s, get row1 "date" = Some (CStr s) /\ s <> "") /\
    (exists v, resolved_target key row1 = Some v /\
               is_nan (parseFloat v) = false)) /\
   (keep out = true ->
    exists v, resolved_target key row1 = Some v /\
              get out "sales" = Some (CNum (parseFloat v)) /\
              is_nan (parseFloat v) = false)).
Proof.
  intros Hkey row row1 out.
  assert (Hs1 : all_strings row1)
    by (apply map_date_strings, row_of_record_strings).
  assert (Hk : keep out = cell_truthy (get row1 "date") &&
                          negb (isNaN (get out "sales"))).
  { unfold keep, out. now rewrite normalize_date. }
  assert (Hsales := normalize_sales key row).
  fold row1 in Hsales. fold out in Hsales.
  split; [now apply on_data_key|]. split; [|split].
  - intros Hno. rewrite Hk.
    unfold row1. now rewrite (map_date_no_column row Hno).
  - intros Hkeep. rewrite Hk in Hkeep.
    apply andb_true_iff in Hkeep as [Hd _].
    unfold out. rewrite normalize_date. now apply truthy_string.
  - intros Hslip.
    assert (Hres : keep out = true ->
              exists v, resolved_target key row1 = Some v /\
                        get out "sales" = Some (CNum (parseFloat v)) /\
                        is_nan (parseFloat v) = false).
    { intros Hkeep. rewrite Hk in Hkeep.
      apply andb_true_iff in Hkeep as [_ Hn].
      apply negb_true_iff in Hn.
      destruct (resolved_target key row1) as [v|] eqn:Er.
      - exists v. rewrite Hsales in Hn |- *. simpl in Hn. now repeat split.
      - exfalso. rewrite Hsales in Hn.
        unfold resolved_target in Er.
        destruct (get row1 key) eqn:Et; [discriminate|].
        destruct (inherited key); [discriminate Hn|].
        destruct (get row1 "sales") as [v|] eqn:Es; [|discriminate Hn].
        destruct (cell_truthy (Some v)) eqn:Ev; [discriminate|].
        apply Hslip. split; [reflexivity|].
        now rewrite (falsy_string _ _ _ Hs1 Es Ev). }
    split; [split|exact Hres].
    + intros Hkeep. split.
      * rewrite Hk in Hkeep. apply andb_true_iff in Hkeep as [Hd _].
        now apply truthy_string.
      * destruct (Hres Hkeep) as (v & E1 & _ & E3). now exists v.
    + intros [(s & Ed & Hne) (v & Er & Hv)].
      rewrite Hk, Hsales, Er, Ed. simpl. rewrite Hv.
      destruct s; [contradiction|reflexivity].
Qed.

End RowFacts.

(** ** The artifact directory and the cleanup *)
Section FsFacts.
Import Fs Server.

Lemma lookup_In (d : dir) (n : string) :
  In n (readdirSync d) <-> lookup d n <> None.
Proof.
  unfold readdirSync.
  induction d as [|[m f] d IH]; simpl; [tauto|].
  destruct (String.eqb_spec m n) as [->|Hne].
  - split; [discriminate|now left].
  - rewrite <- IH. split; [intros [E|E]; [contradiction|exact E] | now right].
Qed.

Lemma lookup_not_In (d : dir) (n : string) :
  ~ In n (readdirSync d) -> lookup d n = None.
Proof.
  intros H. destruct (lookup d n) eqn:E; [|reflexivity].
  exfalso. apply H, lookup_In. congruence.
Qed.

Lemma lookup_remove_other (d : dir) (n m : string) :
  m <> n -> lookup (remove d n) m = lookup d m.
Proof.
  intros Hne. induction d as [|[k f] d IH]; simpl; [reflexivity|].
  destruct (String.eqb_spec k n) as [->|Hk]; simpl.
  - destruct (String.eqb_spec n m); [congruence|reflexivity].
  - destruct (String.eqb_spec k m); [reflexivity|exact IH].
Qed.

Lemma In_remove (d : dir) (n m : string) :
  In m (readdirSync (remove d n)) -> In m (readdirSync d).
Proof.
  unfold readdirSync.
  induction d as [|[k f] d IH]; simpl; [tauto|].
  destruct (String.eqb_spec k n) as [->|Hk]; simpl.
  - now right.
  - intros [E|E]; [now left | right; now apply IH].
Qed.

Lemma NoDup_remove (d : dir) (n : string) :
  NoDup (readdirSync d) -> NoDup (readdirSync (remove d n)).
Proof.
  unfold readdirSync.
  induction d as [|[k f] d IH]; simpl; intros H; [exact H|].
  inversion H as [|? ? Hk Hd]; subst.
  destruct (String.eqb_spec k n) as [->|Hne]; simpl; [exact Hd|].
  constructor; [|now apply IH].
  intros Hin. apply Hk. now apply (In_remove d n).
Qed.

Lemma lookup_remove_same (d : dir) (n : string) :
  NoDup (readdirSync d) -> lookup (remove d n) n = None.
Proof.
  unfold readdirSync.
  induction d as [|[k f] d IH]; simpl; intros H; [reflexivity|].
  inversion H as [|? ? Hk Hd]; subst.
  destruct (String.eqb_spec k n) as [->|Hne]; simpl.
  - now apply lookup_not_In.
  - destruct (String.eqb_spec k n); [contradiction|now apply IH].
Qed.

Lemma lookup_write_same (d : dir) (n : string) (f : file) :
  lookup (write d n f) n = Some f.
Proof.
  induction d as [|[k g] d IH]; simpl.
  - now rewrite String.eqb_refl.
  - destruct (String.eqb_spec k n) as [->|Hne]; simpl.
    + now rewrite String.eqb_refl.
    + destruct (String.eqb_spec k n); [contradiction|exact IH].
Qed.

Lemma lookup_write_other (d : dir) (n m : string) (f : file) :
  m <> n -> lookup (write d n f) m = lookup d m.
Proof.
  intros Hne. induction d as [|[k g] d IH]; simpl.
  - destruct (String.eqb_spec n m); [congruence|reflexivity].
  - destruct (String.eqb_spec k n) as [->|Hk]; simpl.
    + destruct (String.eqb_spec n m); [congruence|reflexivity].
    + destruct (String.eqb_spec k m); [reflexivity|exact IH].
Qed.

Lemma In_write (d : dir) (n m : string) (f : file) :
  In m (readdirSync (write d n f)) -> m = n \/ In m (readdirSync d).
Proof.
  intros H. destruct (String.eqb_spec m n) as [E|Hne]; [now left|right].
  apply lookup_In. apply lookup_In in H.
  now rewrite lookup_write_other in H.
Qed.

Lemma NoDup_write (d : dir) (n : string) (f : file) :
  NoDup (readdirSync d) -> NoDup (readdirSync (write d n f)).
Proof.
  induction d as [|[k g] d IH]; simpl; intros H.
  - constructor; [intros []|constructor].
  - inversion H as [|? ? Hk Hd]; subst.
    destruct (String.eqb_spec k n) as [->|Hne]; simpl; [exact H|].
    constructor; [|now apply IH].
    intros Hin. destruct (In_write _ _ _ _ Hin) as [E|E]; [congruence|].
    now apply Hk.
Qed.

(** The loop over a listing that begins with [pre]. *)
Lemma cleanup_forEach_app (up : string) (pre rest : list string) (d : dir) :
  cleanup_forEach up (pre ++ rest)%list d =
  match cleanup_forEach up pre d with
  | Normal d1 => cleanup_forEach up rest d1
  | Thrown d1 => Thrown d1
  end.
Proof.
  revert d. induction pre as [|f pre IH]; simpl; intros d; [reflexivity|].
  destruct (stale up f); [|apply IH].
  destruct (unlinkSync d f); [apply IH|reflexivity].
Qed.

(** When no deletion throws, the loop ends normally and has removed
    exactly the stale files of the listing. *)
Lemma cleanup_forEach_normal (up : string) (files : list string) :
  forall d : dir,
  NoDup files -> NoDup (readdirSync d) ->
  (forall n, In n files -> In n (readdirSync d)) ->
  (forall n g, In n files -> stale up n = true -> lookup d n = Some g ->
               unlink_fails g = false) ->
  exists d',
    cleanup_forEach up files d = Normal d' /\
    NoDup (readdirSync d') /\
    (forall m, In m files -> stale up m = true -> lookup d' m = None) /\
    (forall m, ~ In m files \/ stale up m = false -> lookup d' m = lookup d m).
Proof.
  induction files as [|file rest IH]; simpl; intros d Hnd Hd Hin Hok.
  - exists d. repeat split; auto. intros m [].
  - inversion Hnd as [|? ? Hfile Hrest]; subst.
    destruct (stale up file) eqn:Est.
    + assert (Hex : lookup d file <> None) by (apply lookup_In, Hin; now left).
      destruct (lookup d file) as [g|] eqn:El; [|contradiction].
      unfold unlinkSync. rewrite El.
      rewrite (Hok file g (or_introl eq_refl) Est El).
      assert (P3 : forall n, In n rest -> In n (readdirSync (remove d file))).
      { intros n Hn. apply lookup_In.
        rewrite lookup_remove_other by (intros ->; contradiction).
        apply lookup_In, Hin. now right. }
      assert (P4 : forall n g', In n rest -> stale up n = true ->
                     lookup (remove d file) n = Some g' ->
                     unlink_fails g' = false).
      { intros n g' Hn Hs Hl.
        rewrite lookup_remove_other in Hl by (intros ->; contradiction).
        apply (Hok n g'); auto. }
      destruct (IH (remove d file) Hrest (NoDup_remove _ _ Hd) P3 P4)
        as (d' & E & Hnd' & Ha & Hb).
      exists d'. split; [exact E|]. split; [exact Hnd'|]. split.
      * intros m [<-|Hm] Hs.
        -- rewrite Hb by (now left). now apply lookup_remove_same.
        -- now apply Ha.
      * intros m Hm. rewrite Hb by tauto.
        apply lookup_remove_other. intros ->.
        destruct Hm as [Hm|Hm]; [apply Hm; now left|congruence].
    + assert (P3 : forall n, In n rest -> In n (readdirSync d)) by auto.
      assert (P4 : forall n g', In n rest -> stale up n = true ->
                     lookup d n = Some g' -> unlink_fails g' = false)
        by (intros n g' Hn; apply Hok; now right).
      destruct (IH d Hrest Hd P3 P4) as (d' & E & Hnd' & Ha & Hb).
      exists d'. split; [exact E|]. split; [exact Hnd'|]. split.
      * intros m [<-|Hm] Hs; [congruence|now apply Ha].
      * intros m Hm. apply Hb.
        destruct Hm as [Hm|Hm]; [left; tauto|now right].
Qed.

Lemma endsWith_csv_not_pkl (s : string) :
  JsString.endsWith ".csv" s = true -> JsString.endsWith ".pkl" s = false.
Proof.
  unfold JsString.endsWith. simpl String.length.
  intros H. apply andb_true_iff in H as [Hl He].
  rewrite Hl. apply String.eqb_eq in He. rewrite He. reflexivity.
Qed.

Lemma uploaded_csv_not_stale (s : string) :
  JsString.endsWith ".csv" s = true -> stale s s = false.
Proof.
  intros H. unfold stale.
  rewrite (endsWith_csv_not_pkl s H), String.eqb_refl, H. simpl.
  destruct (String.eqb_spec s "model_metadata.json") as [->|]; [|reflexivity].
  discriminate H.
Qed.

(** C3.  An accepted upload of a file whose name ends in [.csv], into a
    directory none of whose stale files refuses deletion: when the
    training process is spawned the directory holds the uploaded file, no
    name ending in [.pkl], no [model_metadata.json] and no other name
    ending in [.csv]; every other file is untouched.  The cleanup runs
    before the spawn, so this holds whatever the training does next. *)
Theorem cleanup_invariant (bundled : bool) (st : state) (d : dir)
  (u : upload_file) :
  let B := originalname u in
  let req := mkRequest (Some u) in
  JsString.endsWith ".csv" B = true ->
  NoDup (readdirSync d) ->
  (forall n g, stale B n = true -> lookup d n = Some g ->
               unlink_fails g = false) ->
  exists d',
    upload_start bundled st (multer_single d req) req =
      Spawned (mkState (salesData st) B (streams st)) d'
              (mkChild (if bundled then pythonPath else "python")
                       [trainScript; B] "") /\
    lookup d' B = Some (received u) /\
    (forall n, In n (readdirSync d') ->
       JsString.endsWith ".pkl" n = false /\
       n <> "model_metadata.json" /\
       (JsString.endsWith ".csv" n = true -> n = B)) /\
    (forall n, stale B n = false -> n <> B -> lookup d' n = lookup d n).
Proof.
  intros B req Hcsv Hnd Hok.
  assert (HB : stale B B = false) by now apply uploaded_csv_not_stale.
  set (d1 := multer_single d req).
  assert (Ed1 : d1 = write d B (received u)) by reflexivity.
  assert (Hnd1 : NoDup (readdirSync d1))
    by (rewrite Ed1; now apply NoDup_write).
  assert (P4 : forall n g, In n (readdirSync d1) -> stale B n = true ->
                 lookup d1 n = Some g -> unlink_fails g = false).
  { intros n g _ Hs Hl. rewrite Ed1 in Hl.
    rewrite lookup_write_other in Hl by (intros ->; congruence).
    now apply (Hok n g). }
  destruct (cleanup_forEach_normal B (readdirSync d1) d1 Hnd1 Hnd1
              (fun n H => H) P4) as (d' & E & Hnd' & Ha & Hb).
  exists d'.
  change (upload_start bundled st d1 req)
    with (Spawned (mkState (salesData st) B (streams st)) (cleanup B d1)
            (mkChild (if bundled then pythonPath else "python")
                     [trainScript; B] ""))%string.
  unfold cleanup. rewrite E. split; [reflexivity|]. split; [|split].
  - rewrite Hb by (now right). rewrite Ed1. apply lookup_write_same.
  - intros n Hn. apply lookup_In in Hn.
    assert (Hs : stale B n = false).
    { destruct (stale B n) eqn:Es; [|reflexivity]. exfalso. apply Hn.
      destruct (in_dec string_dec n (readdirSync d1)) as [Hi|Hi].
      - now apply Ha.
      - rewrite Hb by (now left). now apply lookup_not_In. }
    unfold stale in Hs.
    apply orb_false_iff in Hs as [Hs Hm].
    apply orb_false_iff in Hs as [Hc Hp].
    split; [exact Hp|]. split.
    + intros ->. discriminate Hm.
    + intros Hn'. rewrite Hn' in Hc. simpl in Hc.
      apply negb_false_iff in Hc. now apply String.eqb_eq.
  - intros n Hs Hne. rewrite Hb by (now right).
    rewrite Ed1. now apply lookup_write_other.
Qed.

(** C10.  The deletion loop sits in one [try]: when the deletion of a
    stale file [f] throws, the files listed before it have been handled
    (the stale ones are gone), [f] and every file listed after it are left
    as they were, stale or not, and the handler still goes on to spawn the
    training process. *)
Theorem cleanup_aborts_at_first_throw (bundled : bool) (st : state) (d : dir)
  (u : upload_file) (pre post : list string) (f : string) (g : file) :
  let B := originalname u in
  NoDup (readdirSync d) ->
  readdirSync d = (pre ++ f :: post)%list ->
  stale B f = true ->
  lookup d f = Some g ->
  unlink_fails g = true ->
  (forall n h, In n pre -> stale B n = true -> lookup d n = Some h ->
               unlink_fails h = false) ->
  exists d',
    upload_start bundled st d (mkRequest (Some u)) =
      Spawned (mkState (salesData st) B (streams st)) d'
              (mkChild (if bundled then pythonPath else "python")
                       [trainScript; B] "") /\
    (forall n, In n (f :: post) -> lookup d' n = lookup d n) /\
    (forall n, In n pre -> stale B n = true -> lookup d' n = None) /\
    (forall n, stale B n = false -> lookup d' n = lookup d n).
Proof.
  intros B Hnd Hl Hs Hg Hlock Hpre.
  assert (Hnd2 := Hnd). rewrite Hl in Hnd2.
  assert (Hnpre : NoDup pre) by (eapply NoDup_app_remove_r; exact Hnd2).
  assert (Hdisj : forall n, In n (f :: post) -> ~ In n pre).
  { intros n Hn Hp. revert Hnd2 Hn Hp. clear. revert n.
    induction pre as [|a pre IH]; simpl; intros n Hnd Hn Hp; [exact Hp|].
    inversion Hnd as [|? ? Ha Hrest]; subst.
    destruct Hp as [->|Hp].
    - apply Ha. apply in_or_app. now right.
    - now apply (IH n). }
  assert (P3 : forall n, In n pre -> In n (readdirSync d)).
  { intros n Hn. rewrite Hl. apply in_or_app. now left. }
  destruct (cleanup_forEach_normal B pre d Hnpre Hnd P3 Hpre)
    as (d1 & E & Hnd1 & Ha & Hb).
  exists d1.
  change (upload_start bundled st d (mkRequest (Some u)))
    with (Spawned (mkState (salesData st) B (streams st)) (cleanup B d)
            (mkChild (if bundled then pythonPath else "python")
                     [trainScript; B] ""))%string.
  unfold cleanup.
  rewrite Hl, cleanup_forEach_app, E. simpl cleanup_forEach. rewrite Hs.
  assert (Ef : lookup d1 f = Some g).
  { rewrite Hb; [exact Hg|]. left. apply Hdisj. now left. }
  unfold unlinkSync. rewrite Ef, Hlock.
  split; [reflexivity|]. split; [|split].
  - intros n Hn. apply Hb. left. now apply Hdisj.
  - exact Ha.
  - intros n Hn. apply Hb. now right.
Qed.

End FsFacts.

(** ** Strings *)
Section StringFacts.

Lemma append_nil_r (s : string) : s ++ "" = s.
Proof. induction s as [|a s IH]; simpl; [reflexivity|now rewrite IH]. Qed.

Lemma append_assoc (a b c : string) : (a ++ b) ++ c = a ++ (b ++ c).
Proof. induction a as [|x a IH]; simpl; [reflexivity|now rewrite IH]. Qed.

Lemma len_append (a b : string) :
  JsString.len (a ++ b) = JsString.len a + JsString.len b.
Proof.
  unfold JsString.len. induction a as [|x a IH]; simpl String.length.
  - reflexivity.
  - rewrite !Nat2Z.inj_succ. lia.
Qed.

Lemma len_nonneg (s : string) : 0 <= JsString.len s.
Proof. unfold JsString.len. lia. Qed.

Lemma indexOf_lower (c : ascii) (s : string) : -1 <= JsString.indexOf c s.
Proof.
  induction s as [|a s IH]; simpl; [lia|].
  destruct (Ascii.eqb a c); [lia|].
  destruct (JsString.indexOf c s =? -1); lia.
Qed.

Lemma indexOf_after_noise (c : ascii) (noise rest : string) :
  JsString.indexOf c noise = -1 ->
  JsString.indexOf c (noise ++ String c rest) = JsString.len noise.
Proof.
  induction noise as [|a noise IH]; simpl.
  - intros _. now rewrite Ascii.eqb_refl.
  - destruct (Ascii.eqb a c); [discriminate|].
    destruct (JsString.indexOf c noise =? -1) eqn:E; [|intros H; exfalso].
    + intros _. apply Z.eqb_eq in E. rewrite (IH E).
      pose proof (len_nonneg noise) as Hn.
      destruct (JsString.len noise =? -1) eqn:E2; [apply Z.eqb_eq in E2; lia|].
      unfold JsString.len. simpl String.length. lia.
    + apply Z.eqb_neq in E. pose proof (indexOf_lower c noise). lia.
Qed.

Lemma lastIndexOf_before_noise (c : ascii) (pre noise : string) :
  JsString.lastIndexOf c noise = -1 ->
  JsString.lastIndexOf c (pre ++ String c noise) = JsString.len pre.
Proof.
  intros Hn. induction pre as [|a pre IH]; simpl.
  - rewrite Hn. simpl. now rewrite Ascii.eqb_refl.
  - rewrite IH. pose proof (len_nonneg pre) as Hp.
    destruct (JsString.len pre =? -1) eqn:E2; [apply Z.eqb_eq in E2; lia|].
    unfold JsString.len. simpl String.length. lia.
Qed.

Lemma substring_whole_prefix (a b : string) :
  String.substring 0 (String.length a) (a ++ b) = a.
Proof.
  induction a as [|x a IH]; simpl.
  - destruct b; reflexivity.
  - now rewrite IH.
Qed.

Lemma substring_skip (a s : string) (m : nat) :
  String.substring (String.length a) m (a ++ s) = String.substring 0 m s.
Proof. induction a as [|x a IH]; simpl; [reflexivity|exact IH]. Qed.

(** Cutting a text out from between two others. *)
Lemma substring_middle (a b c : string) :
  JsString.substring (a ++ b ++ c) (JsString.len a)
                     (JsString.len a + JsString.len b) = b.
Proof.
  unfold JsString.substring. rewrite !len_append.
  pose proof (len_nonneg a). pose proof (len_nonneg b).
  pose proof (len_nonneg c).
  replace (Z.min (Z.max (JsString.len a) 0)
                 (JsString.len a + (JsString.len b + JsString.len c)))
    with (JsString.len a) by lia.
  replace (Z.min (Z.max (JsString.len a + JsString.len b) 0)
                 (JsString.len a + (JsString.len b + JsString.len c)))
    with (JsString.len a + JsString.len b) by lia.
  replace (Z.min (JsString.len a) (JsString.len a + JsString.len b))
    with (JsString.len a) by lia.
  replace (Z.max (JsString.len a) (JsString.len a + JsString.len b)
           - JsString.len a)
    with (JsString.len b) by lia.
  unfold JsString.len. rewrite !Nat2Z.id.
  rewrite substring_skip. apply substring_whole_prefix.
Qed.

End StringFacts.

(** ** The upload handler *)
Section UploadFacts.
Import Fs Server.

(** While the child only writes, the listeners gather its standard output
    and touch nothing else. *)
Lemma upload_events_outputs (tr : list (dir * child_event)) :
  outputs_only tr ->
  forall (st : state) (c : string) (a : list string) (o : string)
         (out : list response),
  upload_events tr (mkRun st (mkChild c a o) out false) =
  mkRun st (mkChild c a (o ++ stdout_of (map snd tr))) out false.
Proof.
  unfold upload_events.
  induction 1 as [|[d ev] tr Hev _ IH]; intros st c a o out; simpl.
  - now rewrite append_nil_r.
  - destruct ev as [data|data|m|code]; simpl in Hev; try discriminate.
    + unfold upload_on at 2. simpl. rewrite IH. now rewrite append_assoc.
    + unfold upload_on at 2. simpl. apply IH.
Qed.

Lemma upload_on_reference (d : dir) (ev : child_event) (r : run) :
  currentDataFile (run_state (upload_on d ev r)) =
  currentDataFile (run_state r).
Proof.
  unfold upload_on, respond. destruct (uncaught r); [reflexivity|].
  destruct ev as [data|data|m|code]; simpl; try reflexivity.
  - destruct (sent r); reflexivity.
  - destruct code as [[|p|p]|]; simpl; destruct (sent r); simpl;
      try reflexivity;
      unfold loadData; simpl;
      destruct (existsSync d (currentDataFile (run_state r))); reflexivity.
Qed.

Lemma upload_events_reference (tr : list (dir * child_event)) (r : run) :
  currentDataFile (run_state (upload_events tr r)) =
  currentDataFile (run_state r).
Proof.
  unfold upload_events. revert r.
  induction tr as [|[d ev] tr IH]; intros r; simpl; [reflexivity|].
  rewrite IH. apply upload_on_reference.
Qed.

(** What a training that exits zero leaves behind: the success response
    is sent with an empty cache, and the records of the new dataset are
    still to come from the stream just opened. *)
Lemma upload_success_state (bundled : bool) (st : state) (d dc : dir)
  (u : upload_file) (pre : list (dir * child_event)) :
  outputs_only pre ->
  exists r,
    upload bundled st d (mkRequest (Some u))
           (pre ++ [(dc, Close (Some 0))])%list = inl r /\
    salesData (run_state r) = [] /\
    currentDataFile (run_state r) = originalname u /\
    streams (run_state r) =
      (streams st ++
       (if existsSync dc (originalname u)
        then [mkStream (originalname u) (resolve_targetCol dc)] else []))%list /\
    sent r =
      [res_json
         (VObj [("message",
                  VStr "Data updated and model retrained successfully");
                ("output", VStr (stdout_of (map snd pre)))])].
Proof.
  intros Hpre. unfold upload. simpl upload_start. eexists. split; [reflexivity|].
  unfold upload_events. rewrite fold_left_app.
  fold (upload_events pre). rewrite (upload_events_outputs pre Hpre).
  simpl. unfold loadData. simpl.
  destruct (existsSync dc (originalname u)); simpl; repeat split.
  now rewrite app_nil_r.
Qed.

(** C2.  A training that ends with a non-zero exit code (or by a signal):
    the request is answered 500 with the captured standard output as
    [details], and the cache, like the pending streams, is exactly what
    it was before the request. *)
Theorem failed_training_keeps_cache (bundled : bool) (st : state)
  (d dc : dir) (u : upload_file) (pre : list (dir * child_event))
  (code : option Z) :
  outputs_only pre ->
  code <> Some 0 ->
  exists r,
    upload bundled st d (mkRequest (Some u))
           (pre ++ [(dc, Close code)])%list = inl r /\
    salesData (run_state r) = salesData st /\
    streams (run_state r) = streams st /\
    sent r =
      [res_status_json 500
         (VObj [("error", VStr "Model training failed");
                ("details", VStr (stdout_of (map snd pre)))])].
Proof.
  intros Hpre Hcode. unfold upload. simpl upload_start.
  eexists. split; [reflexivity|].
  unfold upload_events. rewrite fold_left_app.
  fold (upload_events pre). rewrite (upload_events_outputs pre Hpre).
  destruct code as [[|p|p]|]; [congruence| | |]; simpl; repeat split.
Qed.

(** C8 (as amended).  Every upload request that carries a file sets the
    Dataset Reference to the uploaded file's name before the training
    process is spawned, and no event of the child changes it afterwards,
    whatever the outcome; a request without a file is answered 400 and
    reaches no assignment. *)
Theorem reference_set_by_every_accepted_upload (bundled : bool) (st : state)
  (d : dir) (req : request) (tr : list (dir * child_event)) :
  match req_file req with
  | Some u =>
      exists r, upload bundled st d req tr = inl r /\
                currentDataFile (run_state r) = originalname u
  | None =>
      upload bundled st d req tr =
      inr (res_status_json 400 (VObj [("error", VStr "No file uploaded")]))
  end.
Proof.
  unfold upload, upload_start.
  destruct (req_file req) as [u|]; [|reflexivity].
  eexists. split; [reflexivity|].
  now rewrite upload_events_reference.
Qed.

(** C9.  A metadata document that exists but cannot be read, or does not
    parse as JSON: the [try] block throws, the target column stays
    ['sales'], and the load goes on to open the stream of the dataset as
    it would with that target. *)
Theorem malformed_metadata_falls_back (d : dir) (st : state) :
  existsSync d metaPath = true ->
  (readFileSync d metaPath = None \/
   exists txt, readFileSync d metaPath = Some txt /\ JSON.parse txt = None) ->
  targetCol_try d (VStr "sales") = None /\
  resolve_targetCol d = VStr "sales" /\
  loadData d st =
    if existsSync d (currentDataFile st)
    then mkState (salesData st) (currentDataFile st)
           (streams st ++ [mkStream (currentDataFile st) (VStr "sales")])
    else st.
Proof.
  intros Hex Hbad.
  assert (Htry : targetCol_try d (VStr "sales") = None).
  { unfold targetCol_try. rewrite Hex.
    destruct Hbad as [-> | (txt & -> & ->)]; reflexivity. }
  assert (Hres : resolve_targetCol d = VStr "sales").
  { unfold resolve_targetCol. now rewrite Htry. }
  repeat split; auto. unfold loadData. now rewrite Hres.
Qed.

(** C5.  With a metadata document that declares the target column
    [revenue], the listener works with the key [revenue]: a row holding
    both a [revenue] and a [sales] cell is cached with [sales] equal to
    the floating-point parse of the [revenue] cell; the literal [sales]
    cell is parsed only when the row has no [revenue] cell. *)
Theorem target_precedence (d : dir) (txt : string) (props : object)
  (record : list (string * string)) :
  readFileSync d metaPath = Some txt ->
  JSON.parse txt = Some (VObj props) ->
  get props "target_column" = Some (VStr "revenue") ->
  let row := row_of_record record in
  let out := normalize "revenue" row in
  resolve_targetCol d = VStr "revenue" /\
  (forall cache,
     on_data (resolve_targetCol d) cache row =
     Some (if keep out then cache ++ [out] else cache)%list) /\
  (forall r s, get row "revenue" = Some (CStr r) ->
               get row "sales" = Some (CStr s) ->
               get out "sales" = Some (CNum (JsParse.parseFloat r))) /\
  (forall s, get row "revenue" = None ->
             get row "sales" = Some (CStr s) -> s <> "" ->
             get out "sales" = Some (CNum (JsParse.parseFloat s))).
Proof.
  intros Hread Hparse Hcol row out.
  assert (Hres : resolve_targetCol d = VStr "revenue").
  { unfold resolve_targetCol, targetCol_try, existsSync.
    unfold readFileSync in Hread.
    destruct (lookup d metaPath) as [f|] eqn:El; [|discriminate].
    unfold readFileSync. rewrite El, Hread, Hparse. simpl. now rewrite Hcol. }
  assert (Hsales := normalize_sales "revenue" row).
  fold out in Hsales.
  unfold resolved_target in Hsales.
  rewrite !map_date_other in Hsales by discriminate.
  repeat split.
  - exact Hres.
  - intros cache. rewrite Hres. now apply on_data_key.
  - intros r s Hr _. now rewrite Hsales, Hr.
  - intros s Hr Hs Hne. rewrite Hsales, Hr, Hs.
    destruct s; [contradiction|reflexivity].
Qed.

End UploadFacts.

(** ** The prediction handler *)
Section PredictFacts.
Import Fs Server.

Lemma predict_events_outputs (evs : list child_event) :
  Forall (fun e => is_output e = true) evs ->
  forall (s : string) (out : list response),
  predict_events evs (s, out) = Some (s ++ stdout_of evs, out).
Proof.
  induction 1 as [|ev evs Hev _ IH]; intros s out; simpl.
  - now rewrite append_nil_r.
  - destruct ev as [data|data|m|code]; simpl in Hev; try discriminate.
    + rewrite IH. now rewrite append_assoc.
    + apply IH.
Qed.

Lemma predict_events_app (a b : list child_event)
  (acc : string * list response) :
  predict_events (a ++ b) acc =
  match predict_events a acc with
  | Some acc' => predict_events b acc'
  | None => None
  end.
Proof.
  revert acc. induction a as [|ev a IH]; intros acc; simpl; [reflexivity|].
  destruct (predict_on ev acc); [apply IH|reflexivity].
Qed.

(** A child that writes and then closes gets exactly one response, the
    one the ['close'] listener computes from the gathered output. *)
Lemma predict_outputs_then_close (evs : list child_event) (code : option Z) :
  Forall (fun e => is_output e = true) evs ->
  predict (evs ++ [Close code]) =
  Some [predict_close code (stdout_of evs)].
Proof.
  intros H. unfold predict.
  rewrite predict_events_app, (predict_events_outputs evs H). reflexivity.
Qed.

(** An object between noise is found and cut out exactly. *)
Lemma predict_close_object (code : option Z) (noise1 mid noise2 : string) :
  JsString.indexOf "{" noise1 = -1 ->
  JsString.lastIndexOf "}" noise2 = -1 ->
  predict_close code (noise1 ++ ("{" ++ mid ++ "}") ++ noise2) =
  match JSON.parse ("{" ++ mid ++ "}") with
  | Some result => res_json result
  | None =>
      res_status_json 500
        (VObj [("error", VStr "Prediction script failed");
               ("details",
                 VStr (noise1 ++ ("{" ++ mid ++ "}") ++ noise2))])
  end.
Proof.
  intros H1 H2. unfold predict_close.
  set (obj := "{" ++ mid ++ "}").
  set (s := noise1 ++ obj ++ noise2).
  assert (Es : JsString.indexOf "{" s = JsString.len noise1).
  { unfold s, obj. simpl. now apply indexOf_after_noise. }
  assert (Ee : JsString.lastIndexOf "}" s + 1
               = JsString.len noise1 + JsString.len obj).
  { assert (Eg : s = (noise1 ++ "{" ++ mid) ++ String "}" noise2).
    { unfold s, obj. rewrite (append_assoc noise1). simpl.
      do 2 f_equal. now rewrite append_assoc. }
    rewrite Eg, (lastIndexOf_before_noise _ _ _ H2).
    unfold obj. rewrite !len_append.
    unfold JsString.len. simpl String.length. lia. }
  pose proof (len_nonneg noise1) as Hn1.
  assert (Hn2 : 1 <= JsString.len obj).
  { unfold obj, JsString.len. simpl String.length. lia. }
  rewrite Es, Ee.
  destruct (JsString.len noise1 =? -1) eqn:E1; [apply Z.eqb_eq in E1; lia|].
  destruct (JsString.lastIndexOf "}" s =? -1) eqn:E2;
    [apply Z.eqb_eq in E2; lia|].
  simpl orb. cbv iota. unfold s. now rewrite substring_middle.
Qed.

(** C7 (as amended).  When the captured output is a JSON object between
    a text that holds no opening brace and a text that holds no closing
    brace, the request is answered 200 with the value the object parses
    to, whatever the exit code of the child, a domain error object
    included; and two runs that wrote the same text get the same
    response, whatever their exit codes. *)
Theorem predict_response_from_output_only
  (evs : list child_event) (code : option Z)
  (noise1 mid noise2 : string) (result : value) :
  Forall (fun e => is_output e = true) evs ->
  stdout_of evs = noise1 ++ ("{" ++ mid ++ "}") ++ noise2 ->
  JsString.indexOf "{" noise1 = -1 ->
  JsString.lastIndexOf "}" noise2 = -1 ->
  JSON.parse ("{" ++ mid ++ "}") = Some result ->
  predict (evs ++ [Close code]) = Some [mkResponse 200 result] /\
  (forall evs' code',
     Forall (fun e => is_output e = true) evs' ->
     stdout_of evs' = stdout_of evs ->
     predict (evs' ++ [Close code']) = predict (evs ++ [Close code])).
Proof.
  intros Hev Hout H1 H2 Hparse. split.
  - rewrite (predict_outputs_then_close evs code Hev), Hout.
    rewrite (predict_close_object code noise1 mid noise2 H1 H2).
    now rewrite Hparse.
  - intros evs' code' Hev' Hsame.
    rewrite (predict_outputs_then_close evs code Hev).
    rewrite (predict_outputs_then_close evs' code' Hev'), Hsame.
    reflexivity.
Qed.

(** The extraction example of the specification. *)
Lemma predict_extraction_example (code : option Z) :
  predict_close code Sample.noisy_output =
  mkResponse 200 (VObj [("prediction", VNum (of_decimal false 425 (-1)))]).
Proof. vm_compute. reflexivity. Qed.

(** Output without an opening brace, or without a closing one, fails the
    request with the raw text as detail. *)
Lemma predict_without_braces (code : option Z) (s : string) :
  JsString.indexOf "{" s = -1 \/ JsString.lastIndexOf "}" s = -1 ->
  predict_close code s =
  mkResponse 500 (VObj [("error", VStr "Prediction script failed");
                        ("details", VStr s)]).
Proof.
  intros [H|H]; unfold predict_close; rewrite H; simpl; [reflexivity|].
  now rewrite orb_true_r.
Qed.

(** So does a braced part that does not parse. *)
Lemma predict_unparseable (code : option Z) (s : string) :
  JSON.parse (JsString.substring s (JsString.indexOf "{" s)
                (JsString.lastIndexOf "}" s + 1)) = None ->
  predict_close code s =
  mkResponse 500 (VObj [("error", VStr "Prediction script failed");
                        ("details", VStr s)]).
Proof.
  intros H. unfold predict_close. rewrite H.
  now destruct ((JsString.indexOf "{" s =? -1)
                || (JsString.lastIndexOf "}" s =? -1)).
Qed.

(** C6 (failing input).  On the output [}42{] both braces are found, the
    last closing brace before the first opening one; [substring] swaps
    its arguments, the text between the braces is parsed, and the request
    is answered 200 with the number 42, although no text runs from the
    first opening brace to the last closing one. *)
Theorem predict_reversed_braces (code : option Z) :
  predict [Stdout "}42{"; Close code] =
    Some [mkResponse 200 (VNum (of_decimal false 42 0))] /\
  brace_span "}42{" = Some "" /\
  JSON.parse "" = None.
Proof. repeat split. Qed.

End PredictFacts.

(** ** Instances on the sample data *)
Section Instances.
Import Fs Server Sample.

Lemma distinct_sound (l : list string) : distinct l = true -> NoDup l.
Proof.
  induction l as [|x l IH]; simpl; intros H; [constructor|].
  apply andb_true_iff in H as [Hx Hl]. constructor; [|now apply IH].
  intros Hin. apply negb_true_iff in Hx.
  assert (Ht : existsb (String.eqb x) l = true).
  { apply existsb_exists. exists x. split; [exact Hin|apply String.eqb_refl]. }
  congruence.
Qed.

Lemma all_unlinkable_sound (d : dir) :
  all_unlinkable d = true ->
  forall n g, lookup d n = Some g -> unlink_fails g = false.
Proof.
  unfold all_unlinkable.
  induction d as [|[m f] d IH]; simpl; intros H n g; [discriminate|].
  apply andb_true_iff in H as [Hf Hd].
  destruct (String.eqb m n).
  - intros [= <-]. now apply negb_true_iff.
  - now apply IH.
Qed.

(** C1 (failing input).  [B.csv] is uploaded and its training exits zero:
    the handler resets the cache, opens the read stream and sends the 200
    response in the same turn, so the response leaves while the cache is
    empty; the two rows of [B.csv] reach the cache only in the later turn
    in which the stream delivers its records. *)
Theorem upload_success_response_precedes_rows :
  exists r st',
    upload true st0 model_dir b_request trace_ok = inl r /\
    map status (sent r) = [200] /\
    salesData (run_state r) = [] /\
    option_map (@List.length Row) (reloaded_rows trained_dir "B.csv")
      = Some 2%nat /\
    ~ cache_reloaded_at_response trained_dir r /\
    stream_turn trained_dir (run_state r) = Some st' /\
    Some (salesData st') = reloaded_rows trained_dir "B.csv".
Proof.
  eexists. eexists.
  split; [vm_compute; reflexivity|].
  split; [reflexivity|]. split; [reflexivity|].
  split; [vm_compute; reflexivity|].
  split; [unfold cache_reloaded_at_response; vm_compute; discriminate|].
  split; vm_compute; reflexivity.
Qed.

Lemma failed_training_keeps_cache_witness :
  outputs_only failing_output /\
  Some 1 <> Some 0 /\
  exists r,
    upload false st0 model_dir b_request
           (failing_output ++ [(failed_dir, Close (Some 1))])%list = inl r /\
    salesData (run_state r) = salesData st0 /\
    streams (run_state r) = streams st0 /\
    sent r =
      [res_status_json 500
         (VObj [("error", VStr "Model training failed");
                ("details", VStr (stdout_of (map snd failing_output)))])].
Proof.
  assert (H1 : outputs_only failing_output) by (repeat constructor).
  assert (H2 : Some 1 <> Some 0) by discriminate.
  split; [exact H1|]. split; [exact H2|].
  exact (failed_training_keeps_cache false st0 model_dir failed_dir b_upload
           failing_output (Some 1) H1 H2).
Defined.

Lemma cleanup_invariant_witness :
  exists d',
    upload_start true st0 (multer_single model_dir b_request) b_request =
      Spawned (mkState [] "B.csv" []) d'
              (mkChild pythonPath [trainScript; "B.csv"] "") /\
    lookup d' "B.csv" = Some b_csv /\
    (forall n, In n (readdirSync d') ->
       JsString.endsWith ".pkl" n = false /\
       n <> "model_metadata.json" /\
       (JsString.endsWith ".csv" n = true -> n = "B.csv")) /\
    (forall n, stale "B.csv" n = false -> n <> "B.csv" ->
               lookup d' n = lookup model_dir n).
Proof.
  apply (cleanup_invariant true st0 model_dir b_upload).
  - reflexivity.
  - apply distinct_sound. reflexivity.
  - intros n g _. apply all_unlinkable_sound. reflexivity.
Defined.

Lemma cleanup_aborts_at_first_throw_witness :
  exists d',
    upload_start false st0 locked_dir b_request =
      Spawned (mkState [] "B.csv" []) d'
              (mkChild "python" [trainScript; "B.csv"] "") /\
    (forall n, In n ["sales_model.pkl"; "C.csv"; "model_metadata.json"; "B.csv"] ->
               lookup d' n = lookup locked_dir n) /\
    (forall n, In n ["A.csv"] -> stale "B.csv" n = true -> lookup d' n = None) /\
    (forall n, stale "B.csv" n = false -> lookup d' n = lookup locked_dir n).
Proof.
  apply (cleanup_aborts_at_first_throw false st0 locked_dir b_upload
           ["A.csv"] ["C.csv"; "model_metadata.json"; "B.csv"]
           "sales_model.pkl" (mkFile (Some "") [] true)).
  - apply distinct_sound. reflexivity.
  - reflexivity.
  - reflexivity.
  - reflexivity.
  - reflexivity.
  - intros n h [<-|[]] _ H. vm_compute in H. now injection H as <-.
Defined.

(** C4 (counterexample).  A record whose [sales] cell reads [Infinity] is
    kept, and its cached [sales] is not a finite number. *)
Lemma row_filtering_keeps_infinity :
  ~ included_is_finite (VStr "sales")
      [("date", "2024-01-02"); ("sales", "Infinity")].
Proof.
  unfold included_is_finite. intros H.
  destruct (H [] [("date", CStr "2024-01-02"); ("sales", CNum (Infinity false))]
              eq_refl) as [_ (n & Hn & Hfin)].
  vm_compute in Hn. injection Hn as <-. discriminate Hfin.
Qed.

(** The same listener keeps a record with an empty [sales] cell when the
    declared target column is missing from it: the cell is never parsed
    and [isNaN] of the empty string is false. *)
Lemma row_with_empty_sales_kept :
  on_data (VStr "revenue") []
          (row_of_record [("date", "2024-01-02"); ("sales", "")]) =
  Some [[("date", CStr "2024-01-02"); ("sales", CStr "")]].
Proof. reflexivity. Qed.

Lemma row_filtering_witness :
  let record := [("order_date", "2025-03-01"); ("revenue", "12.5")] in
  let row1 := map_date (row_of_record record) in
  let out := normalize "revenue" (row_of_record record) in
  ToPropertyKey (VStr "revenue") = Some "revenue" /\
  ~ (get row1 "revenue" = None /\ get row1 "sales" = Some (CStr "")) /\
  on_data (VStr "revenue") [] (row_of_record record) = Some [out] /\
  exists v, resolved_target "revenue" row1 = Some v /\
            get out "sales" = Some (CNum (parseFloat v)) /\
            is_nan (parseFloat v) = false.
Proof.
  intros record row1 out.
  assert (H0 : ToPropertyKey (VStr "revenue") = Some "revenue") by reflexivity.
  assert (H1 : ~ (get row1 "revenue" = None /\
                  get row1 "sales" = Some (CStr "")))
    by (intros [H _]; vm_compute in H; discriminate H).
  assert (H2 : keep out = true) by (vm_compute; reflexivity).
  destruct (row_filtering (VStr "revenue") "revenue" record [] H0)
    as (Hon & _ & _ & Hrest).
  split; [exact H0|]. split; [exact H1|]. split.
  - refine (eq_trans Hon _). fold out. now rewrite H2.
  - exact (proj2 (Hrest H1) H2).
Defined.

Lemma target_precedence_witness :
  let row := row_of_record
               [("order_date", "2025-03-01"); ("revenue", "12.5");
                ("sales", "99")] in
  let out := normalize "revenue" row in
  resolve_targetCol trained_dir = VStr "revenue" /\
  get out "sales" = Some (CNum (of_decimal false 125 (-1))) /\
  on_data (resolve_targetCol trained_dir) [] row = Some [out].
Proof.
  intros row out.
  destruct (target_precedence trained_dir revenue_meta
              [("target_column", VStr "revenue")]
              [("order_date", "2025-03-01"); ("revenue", "12.5");
               ("sales", "99")])
    as (H1 & H2 & H3 & _).
  - reflexivity.
  - vm_compute. reflexivity.
  - reflexivity.
  - split; [exact H1|]. split.
    + exact (H3 "12.5" "99" eq_refl eq_refl).
    + refine (eq_trans (H2 []) _). reflexivity.
Defined.

Lemma predict_response_from_output_only_witness :
  predict (domain_error_events ++ [Close (Some 1)]) =
    Some [mkResponse 200 (VObj [("error", VStr "No input received")])].
Proof.
  refine (proj1 (predict_response_from_output_only domain_error_events (Some 1)
           ("Traceback (most recent call last):" ++ nl)
           (quoted "error" ++ ": " ++ quoted "No input received")
           nl (VObj [("error", VStr "No input received")]) _ _ _ _ _)).
  - repeat constructor.
  - reflexivity.
  - reflexivity.
  - reflexivity.
  - vm_compute. reflexivity.
Defined.

(** The object [JSON.parse] builds lists the array indices first, in
    ascending order, and a repeated name once, with its last value. *)
Lemma parse_lists_indices_first :
  JSON.parse ("{" ++ quoted "b" ++ ":1," ++ quoted "10" ++ ":2,"
              ++ quoted "2" ++ ":3," ++ quoted "b" ++ ":4}") =
  Some (VObj [("2", VNum (of_decimal false 3 0));
              ("10", VNum (of_decimal false 2 0));
              ("b", VNum (of_decimal false 4 0))]).
Proof. vm_compute. reflexivity. Qed.

(** The answer to a run whose result follows a warning that holds
    braces: the text parsed starts at the brace of the warning. *)
Lemma predict_warning_output_response (code : option Z) :
  predict [Stdout warning_output; Close code] =
  Some [mkResponse 500 (VObj [("error", VStr "Prediction script failed");
                              ("details", VStr warning_output)])].
Proof. vm_compute. reflexivity. Qed.

(** C7 (counterexample).  The inference process prints a warning that
    holds braces and then the object [{"prediction": 3}]: the object
    parses, and the request is answered 500 all the same. *)
Lemma predict_object_after_braced_warning :
  ~ emitted_object_answered [Stdout warning_output] (Some 0).
Proof.
  unfold emitted_object_answered. intros H.
  specialize (H ("UserWarning: params={'n': 1}" ++ nl)
                ("{" ++ quoted "prediction" ++ ": 3}") nl
                [("prediction", VNum (of_decimal false 3 0))]
                eq_refl ltac:(vm_compute; reflexivity)).
  vm_compute in H. discriminate H.
Qed.

(** C8 (counterexample).  The training of [B.csv] exits with code 1, and
    the Dataset Reference no longer names [sales_data.csv]. *)
Lemma reference_changed_by_failed_upload :
  ~ reference_retained false st0 model_dir b_request
      (failing_output ++ [(failed_dir, Close (Some 1))])%list.
Proof.
  unfold reference_retained. intros H.
  specialize (H _ eq_refl). vm_compute in H. discriminate H.
Qed.

Lemma malformed_metadata_falls_back_witness :
  targetCol_try broken_meta_dir (VStr "sales") = None /\
  resolve_targetCol broken_meta_dir = VStr "sales" /\
  loadData broken_meta_dir st0 =
    mkState [] "sales_data.csv" [mkStream "sales_data.csv" (VStr "sales")].
Proof.
  apply (malformed_metadata_falls_back broken_meta_dir st0).
  - reflexivity.
  - right. exists "{target_column". split; reflexivity.
Defined.

End Instances.

(** ** More on the cleanup and the upload storage *)
Section CleanupMore.
Import Fs Server.

Lemma In_remove_entry (d : dir) (n : string) (x : string * file) :
  In x (remove d n) -> In x d.
Proof.
  induction d as [|[k f] d IH]; simpl; [tauto|].
  destruct (String.eqb k n); simpl.
  - now right.
  - intros [E|E]; [now left | right; now apply IH].
Qed.

Lemma cleanup_forEach_other (B : string) (files : list string) (n : string) :
  stale B n = false ->
  forall d,
  match cleanup_forEach B files d with
  | Normal d' => lookup d' n = lookup d n
  | Thrown d' => lookup d' n = lookup d n
  end.
Proof.
  intros Hn. induction files as [|file rest IH]; simpl; intros d; [reflexivity|].
  destruct (stale B file) eqn:Es; [|apply IH].
  unfold unlinkSync.
  destruct (lookup d file) as [g|]; [|reflexivity].
  destruct (unlink_fails g); [reflexivity|].
  specialize (IH (remove d file)).
  assert (E : lookup (remove d file) n = lookup d n)
    by (apply lookup_remove_other; congruence).
  destruct (cleanup_forEach B rest (remove d file)); congruence.
Qed.

Lemma cleanup_forEach_incl (B : string) (files : list string) :
  forall d,
  match cleanup_forEach B files d with
  | Normal d' => incl d' d
  | Thrown d' => incl d' d
  end.
Proof.
  induction files as [|file rest IH]; simpl; intros d; [apply incl_refl|].
  destruct (stale B file); [|apply IH].
  unfold unlinkSync.
  destruct (lookup d file) as [g|]; [|apply incl_refl].
  destruct (unlink_fails g); [apply incl_refl|].
  specialize (IH (remove d file)).
  destruct (cleanup_forEach B rest (remove d file));
    (intros x Hx; apply (In_remove_entry d file), IH, Hx).
Qed.

(** X1.  Whatever the directory holds and whichever deletions throw, the
    cleanup never touches a file its test does not mark: such a file is
    there afterwards with the same contents; and the cleanup creates
    nothing, every entry left being an entry from before. *)
Theorem cleanup_only_removes_stale (B : string) (d : dir) :
  (forall n, stale B n = false -> lookup (cleanup B d) n = lookup d n) /\
  incl (cleanup B d) d.
Proof.
  split.
  - intros n Hn. unfold cleanup.
    pose proof (cleanup_forEach_other B (readdirSync d) n Hn d) as H.
    now destruct (cleanup_forEach B (readdirSync d) d).
  - unfold cleanup.
    pose proof (cleanup_forEach_incl B (readdirSync d) d) as H.
    now destruct (cleanup_forEach B (readdirSync d) d).
Qed.

Lemma cleanup_forEach_nothing_stale (B : string) (files : list string)
  (d : dir) :
  (forall n, In n files -> stale B n = false) ->
  cleanup_forEach B files d = Normal d.
Proof.
  induction files as [|file rest IH]; simpl; intros H; [reflexivity|].
  rewrite (H file (or_introl eq_refl)). apply IH.
  intros n Hn. apply H. now right.
Qed.

(** What the cleanup leaves when no deletion throws. *)
Lemma cleanup_normal (B : string) (d : dir) :
  NoDup (readdirSync d) ->
  (forall n g, stale B n = true -> lookup d n = Some g ->
               unlink_fails g = false) ->
  cleanup_forEach B (readdirSync d) d = Normal (cleanup B d) /\
  NoDup (readdirSync (cleanup B d)) /\
  (forall n, stale B n = true -> lookup (cleanup B d) n = None) /\
  (forall n, stale B n = false -> lookup (cleanup B d) n = lookup d n).
Proof.
  intros Hnd Hok.
  destruct (cleanup_forEach_normal B (readdirSync d) d Hnd Hnd
              (fun n H => H) (fun n g _ => Hok n g))
    as (d' & E & Hnd' & Ha & Hb).
  unfold cleanup. rewrite E. repeat split; auto.
  intros n Hs. destruct (in_dec string_dec n (readdirSync d)) as [Hi|Hi].
  - now apply Ha.
  - rewrite Hb by (now left). now apply lookup_not_In.
Qed.

(** X2.  When no deletion throws, a second cleanup for the same upload
    finds nothing left to delete. *)
Theorem cleanup_idempotent (B : string) (d : dir) :
  NoDup (readdirSync d) ->
  (forall n g, stale B n = true -> lookup d n = Some g ->
               unlink_fails g = false) ->
  cleanup B (cleanup B d) = cleanup B d.
Proof.
  intros Hnd Hok.
  destruct (cleanup_normal B d Hnd Hok) as (_ & _ & Ha & _).
  unfold cleanup at 1.
  rewrite cleanup_forEach_nothing_stale; [reflexivity|].
  intros n Hn. apply lookup_In in Hn.
  destruct (stale B n) eqn:Es; [|reflexivity].
  exfalso. apply Hn. now apply Ha.
Qed.

(** X3.  An upload under the name of an artifact (a name ending in [.pkl],
    or [model_metadata.json]) deletes the file just stored: the training
    process is spawned with the name of a file that is gone, and if it
    exits zero without writing that file again the request is answered
    200 while no stream is opened and the cache stays empty. *)
Theorem upload_under_artifact_name (bundled : bool) (st : state) (d : dir)
  (u : upload_file) (pre : list (dir * child_event)) :
  let B := originalname u in
  let req := mkRequest (Some u) in
  JsString.endsWith ".pkl" B = true \/ B = "model_metadata.json" ->
  NoDup (readdirSync d) ->
  unlink_fails (received u) = false ->
  (forall n g, stale B n = true -> lookup d n = Some g ->
               unlink_fails g = false) ->
  outputs_only pre ->
  exists d',
    upload_start bundled st (multer_single d req) req =
      Spawned (mkState (salesData st) B (streams st)) d'
              (mkChild (if bundled then pythonPath else "python")
                       [trainScript; B] "") /\
    lookup d' B = None /\
    exists r,
      upload bundled st d req (pre ++ [(d', Close (Some 0))])%list = inl r /\
      map status (sent r) = [200] /\
      salesData (run_state r) = [] /\
      streams (run_state r) = streams st.
Proof.
  intros B req Hname Hnd Hu Hok Hpre.
  assert (HB : stale B B = true).
  { unfold stale. destruct Hname as [H| ->].
    - rewrite H. now rewrite orb_true_r.
    - now rewrite orb_true_r. }
  set (d1 := multer_single d req).
  assert (Ed1 : d1 = write d B (received u)) by reflexivity.
  assert (Hnd1 : NoDup (readdirSync d1))
    by (rewrite Ed1; now apply NoDup_write).
  assert (Hok1 : forall n g, stale B n = true -> lookup d1 n = Some g ->
                   unlink_fails g = false).
  { intros n g Hs Hl. rewrite Ed1 in Hl.
    destruct (String.eqb_spec n B) as [->|Hne].
    - rewrite lookup_write_same in Hl. now injection Hl as <-.
    - rewrite lookup_write_other in Hl by assumption. now apply (Hok n g). }
  destruct (cleanup_normal B d1 Hnd1 Hok1) as (_ & _ & Ha & _).
  exists (cleanup B d1).
  split; [reflexivity|]. split; [now apply Ha|].
  destruct (upload_success_state bundled st d (cleanup B d1) u pre Hpre)
    as (r & Er & Hcache & _ & Hstreams & Hsent).
  exists r. split; [exact Er|]. split; [now rewrite Hsent|].
  split; [exact Hcache|].
  rewrite Hstreams. unfold existsSync. fold B. rewrite (Ha B HB).
  apply app_nil_r.
Qed.

(** X4.  The upload middleware stores the file under its original name:
    afterwards that name reads back the uploaded contents, every other
    name reads as before, and the names of the directory are still
    pairwise distinct; a request without a file stores nothing. *)
Theorem multer_single_stores (d : dir) (req : request) :
  NoDup (readdirSync d) ->
  NoDup (readdirSync (multer_single d req)) /\
  match req_file req with
  | Some u =>
      lookup (multer_single d req) (originalname u) = Some (received u) /\
      (forall n, n <> originalname u ->
                 lookup (multer_single d req) n = lookup d n)
  | None => multer_single d req = d
  end.
Proof.
  intros Hnd. unfold multer_single.
  destruct (req_file req) as [u|]; [|now split].
  split; [now apply NoDup_write|]. split.
  - apply lookup_write_same.
  - intros n Hn. now apply lookup_write_other.
Qed.

(** X5.  Between the cleanup of an accepted upload and the moment the
    training writes a new document, [GET /api/metadata] answers 404: the
    cleanup has deleted the metadata document whatever the name of the
    uploaded file. *)
Theorem metadata_gone_after_cleanup (bundled : bool) (st : state) (d : dir)
  (u : upload_file) :
  let req := mkRequest (Some u) in
  NoDup (readdirSync d) ->
  (forall n g, stale (originalname u) n = true ->
               lookup (multer_single d req) n = Some g ->
               unlink_fails g = false) ->
  exists st' d' p,
    upload_start bundled st (multer_single d req) req = Spawned st' d' p /\
    get_metadata d' =
      Json (mkResponse 404
              (VObj [("error",
                       VStr "Metadata not found. Model might not be trained yet.")])).
Proof.
  intros req Hnd Hok.
  assert (Hnd1 : NoDup (readdirSync (multer_single d req)))
    by (now apply NoDup_write).
  destruct (cleanup_normal (originalname u) (multer_single d req) Hnd1 Hok)
    as (_ & _ & Ha & _).
  do 3 eexists. split; [reflexivity|].
  unfold get_metadata, existsSync. rewrite Ha; [reflexivity|].
  unfold stale. now rewrite orb_true_r.
Qed.

End CleanupMore.

(** ** More on the cache loader *)
Section LoaderMore.
Import Fs Server.

Lemma on_all_data_key (t : value) (key : string) (rows : list Row) :
  ToPropertyKey t = Some key ->
  forall cache,
  on_all_data t cache rows =
  Some (cache ++ filter keep (map (normalize key) rows))%list.
Proof.
  intros Hk. induction rows as [|r rows IH]; intros cache; simpl.
  - now rewrite app_nil_r.
  - rewrite (on_data_key t key cache r Hk).
    destruct (keep (normalize key r)).
    + rewrite IH. now rewrite <- app_assoc.
    + apply IH.
Qed.

(** X6.  A read stream appends to the cache, in file order, exactly the
    records that pass the listener's test, normalized; the rows already
    cached stay in front, untouched, the Dataset Reference and the other
    pending streams are not changed, and at most one row is added per
    record. *)
Theorem stream_appends_kept_rows (d : dir) (s : stream) (st : state)
  (f : file) (key : string) :
  lookup d (dataPath s) = Some f ->
  ToPropertyKey (targetCol s) = Some key ->
  let added :=
    filter keep (map (normalize key) (map row_of_record (csv_records f))) in
  stream_events d s st =
    Some (mkState (salesData st ++ added) (currentDataFile st) (streams st)) /\
  (List.length added <= List.length (csv_records f))%nat.
Proof.
  intros Hl Hk added. split.
  - unfold stream_events. rewrite Hl.
    now rewrite (on_all_data_key _ key _ Hk).
  - unfold added.
    etransitivity; [apply filter_length_le|].
    now rewrite !length_map.
Qed.

Lemma resolve_targetCol_cases (d : dir) :
  resolve_targetCol d = VStr "sales" \/
  exists txt props,
    readFileSync d metaPath = Some txt /\
    JSON.parse txt = Some (VObj props) /\
    get props "target_column" = Some (resolve_targetCol d) /\
    truthy (Some (resolve_targetCol d)) = true.
Proof.
  unfold resolve_targetCol, targetCol_try.
  destruct (existsSync d metaPath); [|now left].
  destruct (readFileSync d metaPath) as [txt|]; [|now left].
  destruct (JSON.parse txt) as [meta|] eqn:Ep; [|now left].
  destruct meta as [| | | | |props]; simpl; try (now left).
  destruct (get props "target_column") as [v|] eqn:Eg; [|now left].
  destruct (truthy (Some v)) eqn:Et; [|now left].
  right. exists txt, props. repeat split; auto.
Qed.

(** X7.  The target column the loader resolves is never a falsy value: it
    is ['sales'], or the truthy [target_column] of a metadata document
    that reads and parses as a JSON object.  In particular, without a
    metadata document it is ['sales']. *)
Theorem resolved_target_column (d : dir) :
  truthy (Some (resolve_targetCol d)) = true /\
  (resolve_targetCol d = VStr "sales" \/
   exists txt props,
     readFileSync d metaPath = Some txt /\
     JSON.parse txt = Some (VObj props) /\
     get props "target_column" = Some (resolve_targetCol d)) /\
  (existsSync d metaPath = false -> resolve_targetCol d = VStr "sales").
Proof.
  split; [|split].
  - destruct (resolve_targetCol_cases d) as [-> | (txt & props & _ & _ & _ & H)];
      [reflexivity | exact H].
  - destruct (resolve_targetCol_cases d) as [H | (txt & props & H1 & H2 & H3 & _)];
      [now left | right; now exists txt, props].
  - intros H. unfold resolve_targetCol, targetCol_try. now rewrite H.
Qed.

(** X8.  Under the fallback target ['sales'], a record is cached exactly
    when its date resolves to a non-empty string and its [sales] cell
    parses to a number other than [NaN]; a record with an empty or a
    missing [sales] cell is dropped. *)
Theorem default_target_filtering (record : list (string * string)) :
  let row := row_of_record record in
  let out := normalize "sales" row in
  (keep out = true <->
   (exists s, get (map_date row) "date" = Some (CStr s) /\ s <> "") /\
   (exists s, get row "sales" = Some (CStr s) /\
              is_nan (JsParse.parseFloat s) = false)) /\
  (get row "sales" = None \/ get row "sales" = Some (CStr "") ->
   keep out = false).
Proof.
  intros row out.
  assert (Hs : all_strings row) by apply row_of_record_strings.
  assert (Hs1 : all_strings (map_date row)) by now apply map_date_strings.
  assert (Hk : keep out = cell_truthy (get (map_date row) "date") &&
                          negb (isNaN (get out "sales"))).
  { unfold keep, out. now rewrite normalize_date. }
  assert (Hsales : get out "sales" =
                   match get row "sales" with
                   | Some v => Some (CNum (parseFloat v))
                   | None => None
                   end).
  { unfold out. rewrite normalize_sales. unfold resolved_target.
    rewrite !map_date_other by discriminate.
    now destruct (get row "sales"). }
  split.
  - rewrite Hk, Hsales. split.
    + intros H. apply andb_true_iff in H as [Hd Hn]. split.
      * now apply truthy_string.
      * destruct (get row "sales") as [v|] eqn:Ev; [|discriminate Hn].
        destruct (Hs _ _ Ev) as [s ->]. exists s. split; [reflexivity|].
        now apply negb_true_iff in Hn.
    + intros [(s & Ed & Hne) (v & Ev & Hv)].
      rewrite Ed, Ev. simpl. unfold parseFloat. simpl. rewrite Hv.
      destruct s; [contradiction|reflexivity].
  - intros [H|H]; rewrite Hk, Hsales, H; simpl; apply andb_false_r.
Qed.

Lemma date_like_nonempty (k : string) :
  date_like k = true -> JsString.truthy k = true.
Proof. destruct k; [discriminate|reflexivity]. Qed.

(** X9.  Date mapping.  A row with a non-empty [date] is left as it is.
    Otherwise the first column, in header order, whose name contains
    [date] or [time] decides alone: its cell becomes the [date], and when
    that cell is empty the record is dropped even if a later date-like
    column is filled. *)
Theorem date_mapping_first_match (key : string) (row : Row) (k : string)
  (c : cell) :
  (cell_truthy (get row "date") = true -> map_date row = row) /\
  (cell_truthy (get row "date") = false ->
   find date_like (keys row) = Some k ->
   get row k = Some c ->
   get (normalize key row) "date" = Some c /\
   (cell_truthy (Some c) = false -> keep (normalize key row) = false)).
Proof.
  split.
  - intros H. unfold map_date. now rewrite H.
  - intros Hd Hf Hc.
    assert (Hk : JsString.truthy k = true).
    { apply find_some in Hf as [_ Hf]. now apply date_like_nonempty. }
    assert (E : get (normalize key row) "date" = Some c).
    { rewrite normalize_date. unfold map_date.
      rewrite Hd, Hf, Hk, Hc. simpl. apply get_set_same. }
    split; [exact E|].
    intros Hfalsy. unfold keep. now rewrite E, Hfalsy.
Qed.

Lemma keys_set_keeps {A : Type} (o : list (string * A)) (k : string) (v : A)
  (x : string) :
  In x (keys o) -> In x (keys (set o k v)).
Proof.
  intros H. unfold set. destruct (get o k).
  - now rewrite keys_update.
  - apply keys_create. now right.
Qed.

Lemma map_date_keys (row : Row) (x : string) :
  In x (keys row) -> In x (keys (map_date row)).
Proof.
  intros H. unfold map_date.
  destruct (negb (cell_truthy (get row "date"))); [|exact H].
  destruct (find date_like (keys row)) as [dk|]; [|exact H].
  destruct (JsString.truthy dk); [|exact H].
  destruct (get row dk); [|exact H].
  now apply keys_set_keeps.
Qed.

Lemma map_target_keys (key : string) (row : Row) (x : string) :
  In x (keys row) -> In x (keys (map_target key row)).
Proof.
  intros H. unfold map_target.
  destruct (get row key); [now apply keys_set_keeps|].
  destruct (inherited key); [now apply keys_set_keeps|].
  destruct (get row "sales") as [v|]; [|exact H].
  destruct (cell_truthy (Some v)); [now apply keys_set_keeps|exact H].
Qed.

Lemma map_legacy_keys (row : Row) (x : string) :
  In x (keys row) -> In x (keys (map_legacy row)).
Proof.
  intros H. unfold map_legacy.
  set (row1 := match get row "marketing_spend" with
               | Some v =>
                   if cell_truthy (Some v)
                   then set row "marketing_spend" (CNum (parseFloat v))
                   else row
               | None => row
               end).
  assert (H1 : In x (keys row1)).
  { unfold row1. destruct (get row "marketing_spend") as [v|]; [|exact H].
    destruct (cell_truthy (Some v)); [now apply keys_set_keeps|exact H]. }
  destruct (get row1 "holiday") as [v|]; [|exact H1].
  destruct (cell_truthy (Some v)); [now apply keys_set_keeps|exact H1].
Qed.

(** X10.  Normalization never drops a column and rewrites only four
    fields: every column of the record is still there, and every field
    other than [date], [sales], [marketing_spend] and [holiday] keeps its
    cell. *)
Theorem normalize_keeps_columns (key : string) (row : Row) (k : string) :
  (In k (keys row) -> In k (keys (normalize key row))) /\
  (k <> "date" -> k <> "sales" -> k <> "marketing_spend" -> k <> "holiday" ->
   get (normalize key row) k = get row k).
Proof.
  split.
  - intros H. unfold normalize.
    now apply map_legacy_keys, map_target_keys, map_date_keys.
  - intros H1 H2 H3 H4. unfold normalize.
    rewrite map_legacy_other, map_target_other, map_date_other; auto.
Qed.

(** X11.  The two legacy columns of a parsed record: a non-empty
    [marketing_spend] cell is replaced by its floating-point parse and a
    non-empty [holiday] cell by its integer parse, whatever they parse
    to; neither column has a say in whether the record is kept. *)
Theorem legacy_columns (key : string) (record : list (string * string))
  (s : string) :
  let row := row_of_record record in
  s <> "" ->
  (get row "marketing_spend" = Some (CStr s) ->
   get (normalize key row) "marketing_spend" =
   Some (CNum (JsParse.parseFloat s))) /\
  (get row "holiday" = Some (CStr s) ->
   get (normalize key row) "holiday" = Some (CNum (JsParse.parseInt s))) /\
  keep (normalize key row) = keep (map_target key (map_date row)).
Proof.
  intros row Hs.
  assert (Ht : cell_truthy (Some (CStr s)) = true)
    by (destruct s; [contradiction|reflexivity]).
  assert (Em : forall k, k <> "date" -> k <> "sales" ->
             get (map_target key (map_date row)) k = get row k).
  { intros k H1 H2. now rewrite map_target_other, map_date_other. }
  split; [|split].
  - intros H. unfold normalize, map_legacy.
    rewrite (Em "marketing_spend") by discriminate. rewrite H, Ht.
    set (row1 := set _ "marketing_spend" _).
    assert (E1 : get row1 "marketing_spend"
                 = Some (CNum (JsParse.parseFloat s)))
      by apply get_set_same.
    destruct (get row1 "holiday") as [v|]; [|exact E1].
    destruct (cell_truthy (Some v)); [|exact E1].
    now rewrite get_set_other by discriminate.
  - intros H. unfold normalize, map_legacy.
    set (row1 := match get _ "marketing_spend" with
                 | Some v => _
                 | None => _
                 end).
    assert (E1 : get row1 "holiday" = Some (CStr s)).
    { unfold row1.
      destruct (get (map_target key (map_date row)) "marketing_spend") as [v|].
      - destruct (cell_truthy (Some v)).
        + rewrite get_set_other by discriminate.
          rewrite (Em "holiday") by discriminate. exact H.
        + rewrite (Em "holiday") by discriminate. exact H.
      - rewrite (Em "holiday") by discriminate. exact H. }
    rewrite E1, Ht. apply get_set_same.
  - unfold keep, normalize.
    now rewrite !map_legacy_other by discriminate.
Qed.

End LoaderMore.

(** ** More on the upload handler, the start of the server and the
    prediction handler *)
Section FlowMore.
Import Fs Server.

(** X12.  A training process that cannot be started.  Node raises
    ['error'] and then ['close'] with a code that is not zero.  The
    ['error'] listener answers 500 with the error message as [details];
    the ['close'] listener then answers a second time, which throws, the
    headers being sent: nothing catches the exception and the process
    ends.  The client has the first answer and no other, and up to the
    throw the cache and the pending streams are what they were before the
    request. *)
Theorem launch_failure_answers_once_then_throws (bundled : bool) (st : state)
  (d de dc : dir) (u : upload_file) (pre : list (dir * child_event))
  (message : string) (code : option Z) :
  outputs_only pre ->
  code <> Some 0 ->
  exists r,
    upload bundled st d (mkRequest (Some u))
           (pre ++ [(de, Error message); (dc, Close code)])%list = inl r /\
    sent r =
      [mkResponse 500
         (VObj [("error", VStr "Failed to start training script");
                ("details", VStr message)])] /\
    uncaught r = true /\
    salesData (run_state r) = salesData st /\
    streams (run_state r) = streams st.
Proof.
  intros Hpre Hcode. unfold upload. simpl upload_start.
  eexists. split; [reflexivity|].
  unfold upload_events. rewrite fold_left_app.
  fold (upload_events pre). rewrite (upload_events_outputs pre Hpre).
  destruct code as [[|q|q]|]; [congruence| | |]; simpl; repeat split.
Qed.

(** X13.  A training that exits zero is answered exactly once, with
    status 200 and the standard-output chunks joined in arrival order as
    [output] (nothing written to the standard error appears); the cache
    is empty at that moment, and one stream has been opened for the
    uploaded file, with the target column resolved from the directory as
    it is at the exit, provided the file is there. *)
Theorem upload_success_answer (bundled : bool) (st : state) (d dc : dir)
  (u : upload_file) (pre : list (dir * child_event)) :
  outputs_only pre ->
  exists r,
    upload bundled st d (mkRequest (Some u))
           (pre ++ [(dc, Close (Some 0))])%list = inl r /\
    sent r =
      [mkResponse 200
         (VObj [("message",
                  VStr "Data updated and model retrained successfully");
                ("output", VStr (stdout_of (map snd pre)))])] /\
    salesData (run_state r) = [] /\
    streams (run_state r) =
      (streams st ++
       (if existsSync dc (originalname u)
        then [mkStream (originalname u) (resolve_targetCol dc)] else []))%list.
Proof.
  intros Hpre.
  destruct (upload_success_state bundled st d dc u pre Hpre)
    as (r & E & H1 & _ & H3 & H4).
  exists r. repeat split; assumption.
Qed.

(** X14.  After a training that exits zero, with no older stream pending,
    the turn in which the new stream delivers leaves in the cache exactly
    the records of the uploaded file that pass the listener's test, in
    file order, normalized for the target column resolved at the exit. *)
Theorem reload_completes_on_stream_turn (bundled : bool) (st : state)
  (d dc : dir) (u : upload_file) (pre : list (dir * child_event))
  (f : file) (key : string) :
  streams st = [] ->
  outputs_only pre ->
  lookup dc (originalname u) = Some f ->
  ToPropertyKey (resolve_targetCol dc) = Some key ->
  exists r,
    upload bundled st d (mkRequest (Some u))
           (pre ++ [(dc, Close (Some 0))])%list = inl r /\
    stream_turn dc (run_state r) =
      Some (mkState
              (filter keep
                 (map (normalize key) (map row_of_record (csv_records f))))
              (originalname u) []).
Proof.
  intros Hst Hpre Hf Hk.
  destruct (upload_success_state bundled st d dc u pre Hpre)
    as (r & E & H1 & H2 & H3 & _).
  exists r. split; [exact E|].
  unfold stream_turn. rewrite H3, Hst. unfold existsSync. rewrite Hf.
  simpl. unfold stream_events. simpl. rewrite Hf, H1, H2.
  now rewrite (on_all_data_key _ key _ Hk).
Qed.

(** X15.  The load made when the server starts: without a file
    [sales_data.csv] the server starts on an empty cache with no stream
    pending; with one, the turn in which its stream delivers fills the
    cache with the records that pass the listener's test. *)
Theorem startup_load (d : dir) :
  (existsSync d "sales_data.csv" = false -> startup d = initial) /\
  (forall f key,
     lookup d "sales_data.csv" = Some f ->
     ToPropertyKey (resolve_targetCol d) = Some key ->
     stream_turn d (startup d) =
       Some (mkState
               (filter keep
                  (map (normalize key) (map row_of_record (csv_records f))))
               "sales_data.csv" [])).
Proof.
  unfold startup, loadData, initial. simpl. split.
  - intros H. now rewrite H.
  - intros f key Hf Hk. unfold existsSync. rewrite Hf. simpl.
    unfold stream_turn. simpl. unfold stream_events. simpl. rewrite Hf.
    now rewrite (on_all_data_key _ key _ Hk).
Qed.

(** *** The names the cleanup deletes *)

Lemma substring_all (s : string) :
  String.substring 0 (String.length s) s = s.
Proof. induction s as [|a s IH]; simpl; [reflexivity|now rewrite IH]. Qed.

Lemma substring_split (s : string) :
  forall k, (k <= String.length s)%nat ->
  s = String.substring 0 k s ++
      String.substring k (String.length s - k) s.
Proof.
  induction s as [|a s IH]; intros k Hk; simpl in *.
  - now destruct k.
  - destruct k as [|k]; simpl.
    + now rewrite substring_all.
    + f_equal. apply IH. lia.
Qed.

Lemma length_append (a b : string) :
  String.length (a ++ b) = (String.length a + String.length b)%nat.
Proof. induction a as [|x a IH]; simpl; [reflexivity|now rewrite IH]. Qed.

Lemma endsWith_iff (suffix s : string) :
  JsString.endsWith suffix s = true <-> exists p, s = p ++ suffix.
Proof.
  unfold JsString.endsWith. split.
  - intros H. apply andb_true_iff in H as [Hl He].
    apply Nat.leb_le in Hl. apply String.eqb_eq in He.
    exists (String.substring 0 (String.length s - String.length suffix) s).
    assert (Hsp := substring_split s
                     (String.length s - String.length suffix) ltac:(lia)).
    replace (String.length s - (String.length s - String.length suffix))%nat
      with (String.length suffix) in Hsp by lia.
    now rewrite He in Hsp.
  - intros [p ->]. rewrite length_append. apply andb_true_iff. split.
    + apply Nat.leb_le. lia.
    + replace (String.length p + String.length suffix
               - String.length suffix)%nat
        with (String.length p) by lia.
      rewrite substring_skip, substring_all. apply String.eqb_refl.
Qed.

(** X16.  The files an upload deletes, by name: those whose name ends in
    [.csv] other than the uploaded name, those whose name ends in [.pkl],
    and [model_metadata.json]; the test is on the exact characters, so an
    upper-case extension is not matched. *)
Theorem stale_names (B n : string) :
  (stale B n = true <->
   ((exists p, n = p ++ ".csv") /\ n <> B) \/
   (exists p, n = p ++ ".pkl") \/
   n = "model_metadata.json") /\
  (forall p, stale B (p ++ ".CSV") = false).
Proof.
  split.
  - unfold stale. rewrite !orb_true_iff, andb_true_iff, negb_true_iff.
    rewrite !endsWith_iff, String.eqb_eq, String.eqb_neq. tauto.
  - intros p. unfold stale.
    assert (Hc : JsString.endsWith ".csv" (p ++ ".CSV") = false).
    { destruct (JsString.endsWith ".csv" (p ++ ".CSV")) eqn:E;
        [|reflexivity].
      unfold JsString.endsWith in E. apply andb_true_iff in E as [_ E].
      rewrite length_append in E. simpl String.length in E.
      replace (String.length p + 4 - 4)%nat with (String.length p) in E
        by lia.
      rewrite substring_skip in E. discriminate E. }
    assert (Hp : JsString.endsWith ".pkl" (p ++ ".CSV") = false).
    { destruct (JsString.endsWith ".pkl" (p ++ ".CSV")) eqn:E;
        [|reflexivity].
      unfold JsString.endsWith in E. apply andb_true_iff in E as [_ E].
      rewrite length_append in E. simpl String.length in E.
      replace (String.length p + 4 - 4)%nat with (String.length p) in E
        by lia.
      rewrite substring_skip in E. discriminate E. }
    rewrite Hc, Hp. simpl.
    destruct (String.eqb_spec (p ++ ".CSV") "model_metadata.json") as [E|];
      [|reflexivity].
    exfalso.
    assert (He : JsString.endsWith ".CSV" "model_metadata.json" = true)
      by (apply endsWith_iff; now exists p).
    discriminate He.
Qed.

End FlowMore.

(** ** More on the prediction handler *)
Section PredictMore.
Import Fs Server.

(** The members of an object parse to an object. *)
Lemma parse_members_object (fuel : nat) :
  forall (s : string) (acc : object) (v : value) (r : string),
  JSON.parse_members fuel s acc = Some (v, r) -> exists props, v = VObj props.
Proof.
  induction fuel as [|f IH]; intros s acc v r; simpl; [discriminate|].
  destruct (JSON.skip_ws s) as [|a s1]; [discriminate|].
  destruct a as [[] [] [] [] [] [] [] []]; try (intros; discriminate).
  destruct (JSON.string_body s1) as [[k r1]|]; [|discriminate].
  destruct (JSON.skip_ws r1) as [|b r2]; [discriminate|].
  destruct b as [[] [] [] [] [] [] [] []]; try (intros; discriminate).
  destruct (JSON.parse_value f r2) as [[v3 r3]|]; [|discriminate].
  destruct (JSON.skip_ws r3) as [|c r4]; [discriminate|].
  destruct c as [[] [] [] [] [] [] [] []]; try (intros; discriminate);
    first [apply IH | intros [= <- _]; now eexists].
Qed.

(** A text that starts with an opening brace parses to an object, if it
    parses. *)
Lemma parse_braced_object (t : string) (v : value) :
  JSON.parse (String "{" t) = Some v -> exists props, v = VObj props.
Proof.
  unfold JSON.parse.
  set (fuel := (2 * String.length (String "{" t) + 2)%nat).
  assert (Hf : exists f, fuel = S f) by (unfold fuel; simpl; eauto).
  destruct Hf as [f ->]. simpl.
  destruct (JSON.skip_ws t) as [|a t1] eqn:Et.
  - destruct f; simpl; [discriminate|]. rewrite ?Et. discriminate.
  - assert (G : forall o : option (value * string),
              (forall v' r', o = Some (v', r') -> exists props, v' = VObj props) ->
              match o with
              | Some (v', rest) =>
                  match JSON.skip_ws rest with
                  | "" => Some v'
                  | String _ _ => None
                  end
              | None => None
              end = Some v -> exists props, v = VObj props).
    { intros [[v' rest]|] Ho; [|discriminate].
      destruct (JSON.skip_ws rest); [|discriminate].
      intros [= <-]. now apply (Ho v' rest). }
    destruct a as [[] [] [] [] [] [] [] []];
      first [ apply G; intros v' r'; apply parse_members_object
            | destruct (JSON.skip_ws t1);
              [intros [= <-]; now eexists | discriminate] ].
Qed.

Lemma indexOf_split (c : ascii) (s : string) :
  JsString.indexOf c s <> -1 ->
  exists pre post,
    s = pre ++ String c post /\
    JsString.len pre = JsString.indexOf c s.
Proof.
  induction s as [|a s IH]; simpl; [congruence|].
  destruct (Ascii.eqb_spec a c) as [->|Hne].
  - intros _. now exists "", s.
  - destruct (JsString.indexOf c s =? -1) eqn:E; [congruence|].
    intros _. apply Z.eqb_neq in E.
    destruct (IH E) as (pre & post & -> & Hl).
    exists (String a pre), post. split; [reflexivity|].
    unfold JsString.len in *. simpl String.length. lia.
Qed.

(** The text cut from the first occurrence of a character starts with
    that character. *)
Lemma substring_from_indexOf (c : ascii) (s : string) (b : Z) :
  JsString.indexOf c s <> -1 ->
  JsString.indexOf c s < b ->
  exists t, JsString.substring s (JsString.indexOf c s) b = String c t.
Proof.
  intros Hi Hb.
  destruct (indexOf_split c s Hi) as (pre & post & -> & Hl).
  rewrite <- Hl in *. clear Hl Hi.
  unfold JsString.substring. rewrite len_append.
  pose proof (len_nonneg pre) as Hp. pose proof (len_nonneg post) as Hq.
  assert (Hc : JsString.len (String c post) = 1 + JsString.len post)
    by (unfold JsString.len; simpl String.length; lia).
  rewrite Hc.
  set (total := JsString.len pre + (1 + JsString.len post)).
  replace (Z.min (Z.max (JsString.len pre) 0) total)
    with (JsString.len pre) by lia.
  set (b' := Z.min (Z.max b 0) total).
  replace (Z.min (JsString.len pre) b') with (JsString.len pre) by lia.
  replace (Z.max (JsString.len pre) b') with b' by lia.
  assert (Hm : exists m, Z.to_nat (b' - JsString.len pre) = S m).
  { exists (Z.to_nat (b' - JsString.len pre - 1)). lia. }
  destruct Hm as [m ->].
  unfold JsString.len. rewrite Nat2Z.id, substring_skip. simpl. eauto.
Qed.

(** X17.  When the first opening brace of the captured output does not
    come after its last closing brace, every 200 response of the
    prediction handler carries a JSON object: a scalar, an array or a
    string can come back only in the reversed case. *)
Theorem predict_success_body_is_object (code : option Z) (s : string)
  (v : value) :
  JsString.indexOf "{" s <= JsString.lastIndexOf "}" s ->
  predict_close code s = mkResponse 200 v ->
  exists props, v = VObj props.
Proof.
  intros Hord. unfold predict_close.
  destruct (JsString.indexOf "{" s =? -1) eqn:E1; [discriminate|].
  destruct (JsString.lastIndexOf "}" s =? -1) eqn:E2; [discriminate|].
  simpl orb. cbv iota.
  apply Z.eqb_neq in E1.
  destruct (substring_from_indexOf "{" s (JsString.lastIndexOf "}" s + 1) E1)
    as [t ->]; [lia|].
  destruct (JSON.parse (String "{" t)) as [result|] eqn:Ep; [|discriminate].
  intros [= <-]. now apply (parse_braced_object t).
Qed.

End PredictMore.

(** ** Artifact paths, and the state a failed training leaves *)
Section PathsMore.
Import Fs Server.

Lemma forward_slashes_get (p : string) (i : nat) :
  String.get i (forward_slashes p) =
  match String.get i p with
  | Some c => Some (if Ascii.eqb c "\" then "/"%char else c)
  | None => None
  end.
Proof.
  revert i. induction p as [|a p IH]; intros i; simpl; [reflexivity|].
  destruct i as [|i]; [reflexivity|apply IH].
Qed.

(** X18.  The artifact paths written into the inference program hold no
    backslash; the replacement changes nothing else: the length is the
    same, a path without backslashes is unchanged, applying it twice is
    applying it once, and at every position a backslash has become a
    forward slash while any other character, a quote included, is the
    one that was there. *)
Theorem forward_slashes_only (p : string) :
  JsString.indexOf "\" (forward_slashes p) = -1 /\
  String.length (forward_slashes p) = String.length p /\
  forward_slashes (forward_slashes p) = forward_slashes p /\
  (JsString.indexOf "\" p = -1 -> forward_slashes p = p) /\
  (forall i c, String.get i p = Some c ->
     String.get i (forward_slashes p) =
     Some (if Ascii.eqb c "\" then "/"%char else c)) /\
  (forall i, String.get i p = None ->
     String.get i (forward_slashes p) = None).
Proof.
  split; [|split; [|split; [|split; [|split]]]].
  - induction p as [|a p IH]; simpl; [reflexivity|].
    rewrite IH. now destruct (Ascii.eqb_spec a "\"%char) as [->|Ha];
      [|destruct (Ascii.eqb_spec a "\"%char)].
  - induction p as [|a p IH]; simpl; [reflexivity|now rewrite IH].
  - induction p as [|a p IH]; simpl; [reflexivity|]. rewrite IH.
    now destruct (Ascii.eqb_spec a "\"%char) as [->|Ha];
      [|destruct (Ascii.eqb_spec a "\"%char)].
  - induction p as [|a p IH]; simpl; [reflexivity|].
    destruct (Ascii.eqb a "\"%char); [discriminate|].
    destruct (JsString.indexOf "\" p =? -1) eqn:E.
    + intros _. apply Z.eqb_eq in E. now rewrite (IH E).
    + intros H. pose proof (indexOf_lower "\" p). apply Z.eqb_neq in E. lia.
  - intros i c H. now rewrite forward_slashes_get, H.
  - intros i H. now rewrite forward_slashes_get, H.
Qed.

(** X19.  What a failed training leaves behind.  After an accepted upload
    of [B] whose training ends with a non-zero exit code, the cache still
    holds the rows it held before the request, while the Dataset
    Reference names [B] and every other dataset file (a name ending in
    [.csv]) that could be unlinked is gone from the directory the
    training was given: the cached rows no longer belong to any file on
    disk. *)
Theorem failed_training_state (bundled : bool) (st : state) (d dc : dir)
  (u : upload_file) (pre : list (dir * child_event)) (code : option Z) :
  let B := originalname u in
  let req := mkRequest (Some u) in
  NoDup (readdirSync d) ->
  (forall n g, stale B n = true -> lookup (multer_single d req) n = Some g ->
               unlink_fails g = false) ->
  outputs_only pre ->
  code <> Some 0 ->
  exists st' d' p r,
    upload_start bundled st (multer_single d req) req = Spawned st' d' p /\
    upload bundled st d req (pre ++ [(dc, Close code)])%list = inl r /\
    salesData (run_state r) = salesData st /\
    currentDataFile (run_state r) = B /\
    (forall A, JsString.endsWith ".csv" A = true -> A <> B ->
               lookup d' A = None).
Proof.
  intros B req Hnd Hok Hpre Hcode.
  assert (Hnd1 : NoDup (readdirSync (multer_single d req)))
    by (now apply NoDup_write).
  destruct (cleanup_normal B (multer_single d req) Hnd1 Hok)
    as (_ & _ & Ha & _).
  do 4 eexists. split; [reflexivity|]. split; [reflexivity|].
  unfold upload_events. rewrite fold_left_app.
  fold (upload_events pre). rewrite (upload_events_outputs pre Hpre).
  split; [|split].
  - destruct code as [[|q|q]|]; [congruence| | |]; reflexivity.
  - destruct code as [[|q|q]|]; [congruence| | |]; reflexivity.
  - intros A HA Hne. apply Ha. unfold stale. rewrite HA.
    destruct (String.eqb_spec A B); [contradiction|reflexivity].
Qed.

End PathsMore.

(** ** The dashboard page *)
Section PageFacts.
Import Page.

Lemma set_set_same {A : Type} (o : list (string * A)) (k : string) (v w : A) :
  set (set o k v) k w = set o k w.
Proof.
  unfold set at 1. rewrite get_set_same. unfold set.
  destruct (get o k) eqn:E.
  - clear E. induction o as [|[k' v'] o IH]; simpl; [reflexivity|].
    destruct (String.eqb_spec k' k) as [->|Hne]; simpl.
    + now rewrite String.eqb_refl.
    + destruct (String.eqb_spec k' k); [contradiction|now rewrite IH].
  - induction o as [|[k' v'] o IH]; simpl.
    + now rewrite String.eqb_refl.
    + simpl in E. destruct (String.eqb_spec k' k) as [->|Hne]; [discriminate|].
      destruct (listed_before k k'); simpl.
      * now rewrite String.eqb_refl.
      * destruct (String.eqb_spec k' k); [contradiction|now rewrite IH].
Qed.

Lemma keys_set_present {A : Type} (o : list (string * A)) (k : string)
  (v : A) :
  get o k <> None -> keys (set o k v) = keys o.
Proof.
  intros H. unfold set. destruct (get o k); [apply keys_update|congruence].
Qed.

Lemma get_none_keys {A : Type} (o : list (string * A)) (k : string) :
  get o k = None <-> ~ In k (keys o).
Proof.
  induction o as [|[k' v'] o IH]; simpl; [tauto|].
  destruct (String.eqb_spec k' k) as [->|Hne].
  - split; [discriminate|]. intros H. exfalso. apply H. now left.
  - rewrite IH. tauto.
Qed.

(** X20.  One change of a form field: the field named reads back the new
    value, every other field keeps its value, a field that was there
    keeps its place (no field is added), and a second change of the same
    field leaves only the later value. *)
Theorem handleInputChange_sets_one_field (featureName : option value)
  (v w : value) (prev : object) (k : string) :
  key_of featureName = Done k ->
  exists form,
    handleInputChange featureName v prev = Done form /\
    get form k = Some v /\
    (forall k', k' <> k -> get form k' = get prev k') /\
    (get prev k <> None -> keys form = keys prev) /\
    handleInputChange featureName w form = handleInputChange featureName w prev.
Proof.
  intros Hk. exists (set prev k v). unfold handleInputChange. rewrite Hk. simpl.
  split; [reflexivity|]. split; [apply get_set_same|]. split; [|split].
  - intros k' Hne. apply get_set_other. congruence.
  - apply keys_set_present.
  - now rewrite set_set_same.
Qed.

(** *** The initial form *)

Lemma initial_form_each_app (form : object) (a b : list value) :
  initial_form_each form (a ++ b) =
  bind (initial_form_each form a) (fun form' => initial_form_each form' b).
Proof.
  revert form. induction a as [|f a IH]; intros form; simpl; [reflexivity|].
  destruct (initial_form_step form f); simpl; auto.
Qed.

Lemma initial_form_step_inv (form form' : object) (f : value) :
  initial_form_step form f = Done form' ->
  exists name v key,
    member f "name" = Some name /\
    initial_value f = Done v /\
    key_of name = Done key /\
    form' = assign form key v.
Proof.
  unfold initial_form_step.
  destruct (member f "name") as [name|]; [|discriminate].
  destruct (initial_value f) as [v| |]; simpl; try discriminate.
  destruct (key_of name) as [key| |] eqn:Ek; simpl; try discriminate.
  intros [= <-]. now exists name, v, key.
Qed.

Lemma get_assign_other (form : object) (key k : string) (v : value) :
  key <> k -> get (assign form key v) k = get form k.
Proof.
  intros H. unfold assign. destruct (String.eqb key "__proto__");
    [reflexivity|now apply get_set_other].
Qed.

Lemma initial_form_each_other (k : string) (post : list value) :
  (forall g name, In g post -> member g "name" = Some name ->
                  key_of name <> Done k) ->
  forall form form',
  initial_form_each form post = Done form' -> get form' k = get form k.
Proof.
  induction post as [|g post IH]; intros Hpost form form'; simpl.
  - now intros [= <-].
  - destruct (initial_form_step form g) as [form1| |] eqn:E; simpl;
      try discriminate.
    intros H.
    destruct (initial_form_step_inv _ _ _ E) as (name & v & key & Hn & _ & Hk & ->).
    rewrite (IH (fun g' n' Hg => Hpost g' n' (or_intror Hg)) _ _ H).
    apply get_assign_other. intros ->.
    apply (Hpost g name (or_introl eq_refl) Hn Hk).
Qed.

(** X21.  The form built from the feature descriptors holds, under the
    name of a descriptor, the default of the last descriptor of that
    name: the first option of a categorical feature (the empty string
    when there is none or it is falsy), [2025-01-01] for a date, [0] for
    any other type. *)
Theorem initial_form_holds_defaults (pre post : list value) (f : value)
  (name : option value) (k : string) (form : object) :
  initial_form_each [] (pre ++ f :: post) = Done form ->
  member f "name" = Some name ->
  key_of name = Done k ->
  k <> "__proto__" ->
  (forall g name', In g post -> member g "name" = Some name' ->
                   key_of name' <> Done k) ->
  exists v,
    initial_value f = Done v /\
    get form k = Some v /\
    (member f "type" = Some (Some (VStr "date")) -> v = VStr "2025-01-01") /\
    (forall first rest,
       member f "type" = Some (Some (VStr "categorical")) ->
       member f "options" = Some (Some (VArr (VStr first :: rest))) ->
       v = VStr first).
Proof.
  intros H Hn Hk Hproto Hpost.
  rewrite initial_form_each_app in H.
  destruct (initial_form_each [] pre) as [form1| |]; simpl in H;
    try discriminate.
  destruct (initial_form_step form1 f) as [form2| |] eqn:E; simpl in H;
    try discriminate.
  destruct (initial_form_step_inv _ _ _ E)
    as (name' & v & key & Hn' & Hv & Hk' & ->).
  rewrite Hn in Hn'. injection Hn' as <-.
  rewrite Hk in Hk'. injection Hk' as <-.
  exists v. split; [exact Hv|]. split; [|split].
  - rewrite (initial_form_each_other k post Hpost _ _ H).
    unfold assign. destruct (String.eqb_spec k "__proto__");
      [contradiction|apply get_set_same].
  - intros Ht. unfold initial_value in Hv. rewrite Ht in Hv.
    destruct (member f "options"); [|discriminate].
    simpl in Hv. now injection Hv as <-.
  - intros first rest Ht Ho. unfold initial_value in Hv.
    rewrite Ht, Ho in Hv. simpl in Hv.
    destruct first; now injection Hv as <-.
Qed.

Lemma initial_form_each_throws (f : value) (features : list value) :
  In f features ->
  initial_value f = Throws ->
  forall form,
  (forall form', initial_form_each form features <> Done form').
Proof.
  intros Hin Hv. induction features as [|g rest IH]; [destruct Hin|].
  intros form form'. simpl.
  destruct Hin as [->|Hin].
  - unfold initial_form_step.
    destruct (member f "name"); [|discriminate].
    rewrite Hv. simpl. discriminate.
  - destruct (initial_form_step form g) as [form1| |]; simpl;
      try discriminate.
    now apply IH.
Qed.

(** X22.  When the metadata request fails to give a form.  A response
    that is not ok, or whose body does not parse, changes nothing.  A
    document in which some categorical feature has no [options] is
    stored, but building the form throws, so the form keeps whatever it
    held before. *)
Theorem fetchMetadata_keeps_stale_form (text : string) (s : form_state) :
  fetchMetadata false text s = s /\
  (JSON.parse text = None -> fetchMetadata true text s = s) /\
  (forall props fprops features,
     JSON.parse text = Some (VObj props) ->
     get props "features" = Some (VArr features) ->
     In (VObj fprops) features ->
     get fprops "type" = Some (VStr "categorical") ->
     get fprops "options" = None ->
     fetchMetadata true text s =
     mkForm (Some (VObj props)) (dynamicForm s)).
Proof.
  split; [reflexivity|]. split.
  - intros H. unfold fetchMetadata. now rewrite H.
  - intros props fprops features Hp Hf Hin Ht Ho.
    unfold fetchMetadata, initial_form. rewrite Hp. simpl. rewrite Hf.
    assert (Hv : initial_value (VObj fprops) = Throws).
    { unfold initial_value. simpl. now rewrite Ht, Ho. }
    pose proof (initial_form_each_throws _ _ Hin Hv []) as H.
    destruct (initial_form_each [] features) as [form| |]; [|reflexivity..].
    now destruct (H form).
Qed.

End PageFacts.

(** ** The chart data *)
Section ChartFacts.
Import Page.

Lemma units_leb_total (a : list Z) :
  forall b, units_leb a b = true \/ units_leb b a = true.
Proof.
  induction a as [|x a IH]; intros b; [now left|].
  destruct b as [|y b]; [now right|]. simpl.
  destruct (x <? y) eqn:E1; [now left|].
  destruct (y <? x) eqn:E2; [now right|]. apply IH.
Qed.

Lemma units_leb_trans (a : list Z) :
  forall b c, units_leb a b = true -> units_leb b c = true ->
              units_leb a c = true.
Proof.
  induction a as [|x a IH]; intros b c Hab Hbc; [reflexivity|].
  destruct b as [|y b]; [discriminate|].
  destruct c as [|z c]; [discriminate|]. simpl in *.
  destruct (Z.ltb_spec x y), (Z.ltb_spec y x),
           (Z.ltb_spec y z), (Z.ltb_spec z y),
           (Z.ltb_spec x z), (Z.ltb_spec z x);
    try reflexivity; try discriminate; try lia.
  now apply (IH b c).
Qed.

Lemma text_le_total (a b : string) : text_le a b \/ text_le b a.
Proof. apply units_leb_total. Qed.

Lemma text_le_trans (a b c : string) :
  text_le a b -> text_le b c -> text_le a c.
Proof. apply units_leb_trans. Qed.

Lemma insert_sorted_perm (x : string) (l : list string) :
  Permutation (insert_sorted x l) (x :: l).
Proof.
  induction l as [|y l IH]; simpl; [reflexivity|].
  destruct (text_leb x y); [reflexivity|].
  rewrite IH. apply perm_swap.
Qed.

Lemma sort_perm (l : list string) : Permutation (sort l) l.
Proof.
  induction l as [|x l IH]; simpl; [reflexivity|].
  rewrite insert_sorted_perm. now constructor.
Qed.

Lemma insert_sorted_sorted (x : string) (l : list string) :
  StronglySorted text_le l -> StronglySorted text_le (insert_sorted x l).
Proof.
  induction 1 as [|y l Hs IH Hy]; simpl.
  - repeat constructor.
  - destruct (text_leb x y) eqn:E.
    + constructor; [now constructor|].
      constructor; [exact E|].
      eapply Forall_impl; [|exact Hy].
      intros z Hz. now apply (text_le_trans x y z).
    + constructor; [exact IH|].
      assert (Hyx : text_le y x).
      { destruct (text_le_total x y) as [H|H]; [|exact H].
        unfold text_le in H. congruence. }
      eapply Permutation_Forall.
      * symmetry. apply insert_sorted_perm.
      * now constructor.
Qed.

Lemma sort_sorted (l : list string) : StronglySorted text_le (sort l).
Proof.
  induction l as [|x l IH]; simpl; [constructor|].
  now apply insert_sorted_sorted.
Qed.

Lemma NoDup_keys_set {A : Type} (o : list (string * A)) (k : string) (v : A) :
  NoDup (keys o) -> NoDup (keys (set o k v)).
Proof.
  intros H. destruct (get o k) eqn:E.
  - rewrite keys_set_present by congruence. exact H.
  - unfold set. rewrite E. apply get_none_keys in E.
    induction o as [|[k' v'] o IH]; simpl; [repeat constructor; intros []|].
    simpl in H, E. inversion H as [|? ? Hk' Ho]; subst.
    destruct (listed_before k k'); simpl.
    + constructor; [exact E|exact H].
    + constructor.
      * intros Hin. apply keys_create in Hin. destruct Hin as [->|Hin].
        -- apply E. now left.
        -- now apply Hk'.
      * apply IH; [exact Ho|]. intros Hin. apply E. now right.
Qed.

Lemma aggregate_step_keys (o o' : object) (row : value) :
  aggregate_step o row = Done o' ->
  NoDup (keys o) ->
  NoDup (keys o') /\
  forall k, In k (keys o') ->
    In k (keys o) \/
    exists date, member row "date" = Some date /\ key_of date = Done k.
Proof.
  unfold aggregate_step.
  destruct (member row "date") as [date|]; [|discriminate].
  destruct (member row "sales") as [sales|]; [|discriminate].
  destruct (key_of date) as [key| |] eqn:Ek; simpl; try discriminate.
  assert (G : forall v, NoDup (keys o) ->
            NoDup (keys (set o key v)) /\
            forall k, In k (keys (set o key v)) ->
              In k (keys o) \/
              exists date0, Some date = Some date0 /\ key_of date0 = Done k).
  { intros v Hn. split; [now apply NoDup_keys_set|].
    intros k Hk. destruct (keys_set _ _ _ _ Hk) as [->|H]; [|now left].
    right. now exists date. }
  destruct (String.eqb key "__proto__").
  - destruct (operand sales); simpl; try discriminate.
    intros [= <-] Hn. split; [exact Hn|]. intros k Hk. now left.
  - destruct (get o key) as [current|].
    + destruct (plus _ sales) as [sum| |]; simpl; try discriminate.
      intros [= <-]. apply G.
    + destruct (inherited key); [discriminate|].
      destruct (plus _ sales) as [sum| |]; simpl; try discriminate.
      intros [= <-]. apply G.
Qed.

Lemma aggregate_keys (rows : list value) :
  forall o o',
  aggregate o rows = Done o' ->
  NoDup (keys o) ->
  NoDup (keys o') /\
  forall k, In k (keys o') ->
    In k (keys o) \/
    exists row date,
      In row rows /\ member row "date" = Some date /\ key_of date = Done k.
Proof.
  induction rows as [|row rows IH]; intros o o'; simpl.
  - intros [= <-] Hn. split; [exact Hn|]. intros k Hk. now left.
  - destruct (aggregate_step o row) as [o1| |] eqn:E; simpl; try discriminate.
    intros H Hn.
    destruct (aggregate_step_keys _ _ _ E Hn) as [Hn1 H1].
    destruct (IH _ _ H Hn1) as [Hn' H'].
    split; [exact Hn'|]. intros k Hk.
    destruct (H' k Hk) as [Hk1|(r & dt & Hr & Hm & Hkey)].
    + destruct (H1 k Hk1) as [Hk0|(dt & Hm & Hkey)]; [now left|].
      right. exists row, dt. split; [now left|]. now split.
    + right. exists r, dt. split; [now right|]. now split.
Qed.

(** X23.  The labels of the chart are the dates under which the loop has
    stored a total, each once, in ascending order of their code units,
    and every label is the date of some row; the data holds one total per
    label, in the order of the labels. *)
Theorem chart_labels_sorted (salesData : list value) (c : chart) :
  chart_of salesData = Done c ->
  StronglySorted text_le (labels c) /\
  NoDup (labels c) /\
  List.length (data c) = List.length (labels c) /\
  Forall (fun total => total <> None) (data c) /\
  (forall l, In l (labels c) ->
     exists row date,
       In row salesData /\ member row "date" = Some date /\
       key_of date = Done l).
Proof.
  unfold chart_of.
  destruct (aggregate [] salesData) as [o| |] eqn:E; simpl; try discriminate.
  intros [= <-]. simpl.
  destruct (aggregate_keys _ _ _ E (NoDup_nil _)) as [Hn Hk].
  split; [apply sort_sorted|].
  split; [eapply Permutation_NoDup; [symmetry; apply sort_perm|exact Hn]|].
  split; [apply length_map|]. split.
  - apply Forall_map. apply Forall_forall. intros k Hin.
    apply (Permutation_in _ (sort_perm _)) in Hin.
    intros Hnone. now apply get_none_keys in Hnone.
  - intros l Hl. apply (Permutation_in _ (sort_perm _)) in Hl.
    destruct (Hk l Hl) as [[]|H]. exact H.
Qed.

Lemma total_for_some (d : string) (l : list (string * number)) :
  forall a, total_for d l a <> None <-> a <> None \/ In d (map fst l).
Proof.
  induction l as [|[d' x] l IH]; intros a; simpl; [tauto|].
  destruct (String.eqb_spec d' d) as [->|Hne].
  - rewrite IH. split; [intros _; right; now left|intros _; left; discriminate].
  - rewrite IH. tauto.
Qed.

Lemma aggregate_dated (rows : list value) :
  forall (drows : list (string * number)) (o : object),
  Forall2 (fun row ds => dated row (fst ds) (snd ds)) rows drows ->
  (forall d s, In (d, s) drows -> inherited d = false) ->
  all_numbers o ->
  exists o',
    aggregate o rows = Done o' /\
    all_numbers o' /\
    forall d, get o' d = option_map VNum (total_for d drows (number_at o d)).
Proof.
  induction rows as [|row rows IH]; intros drows o Hd Hin Hnum.
  - inversion Hd; subst. exists o. split; [reflexivity|]. split; [exact Hnum|].
    intros d. simpl. unfold number_at.
    destruct (get o d) as [v|] eqn:E; [|reflexivity].
    now destruct (Hnum _ _ E) as [n ->].
  - inversion Hd as [|? [d0 s0] ? drest Hrow Hrest]; subst.
    destruct Hrow as (props & -> & Hdate & Hsales). simpl in Hdate, Hsales.
    assert (Hin0 : inherited d0 = false) by (apply (Hin d0 s0); now left).
    assert (Hproto : String.eqb d0 "__proto__" = false).
    { destruct (String.eqb_spec d0 "__proto__") as [->|]; [|reflexivity].
      discriminate Hin0. }
    set (start := match number_at o d0 with
                  | Some x => if JsNumber.truthy x then x
                              else Fin false 0 (-1074)
                  | None => Fin false 0 (-1074)
                  end).
    assert (Estep : aggregate_step o (VObj props)
                    = Done (set o d0 (VNum (add start s0)))).
    { unfold aggregate_step. simpl. rewrite Hdate, Hsales. simpl.
      rewrite Hproto. unfold start, number_at.
      destruct (get o d0) as [v|] eqn:Eg.
      - destruct (Hnum _ _ Eg) as [n ->]. simpl.
        now destruct (JsNumber.truthy n).
      - now rewrite Hin0. }
    assert (Hnum1 : all_numbers (set o d0 (VNum (add start s0)))).
    { intros d v. destruct (String.eqb_spec d0 d) as [<-|Hne].
      - rewrite get_set_same. intros [= <-]. eauto.
      - rewrite get_set_other by assumption. apply Hnum. }
    destruct (IH drest _ Hrest
                (fun d s H => Hin d s (or_intror H)) Hnum1)
      as (o' & Ho' & Hn' & Hget).
    exists o'. simpl. rewrite Estep. simpl.
    split; [exact Ho'|]. split; [exact Hn'|].
    intros d. rewrite Hget. f_equal. simpl.
    destruct (String.eqb_spec d0 d) as [<-|Hne].
    + unfold number_at at 1. now rewrite get_set_same.
    + unfold number_at. now rewrite get_set_other.
Qed.

(** X24.  For rows that each hold a string [date] (no name inherited from
    [Object.prototype]) and a numeric [sales], the chart is built without
    a throw; its labels are exactly the dates of the rows, and the total
    under a label depends only on the rows of that date, in their order:
    it is their running sum, set back to zero whenever it stands at zero
    or [NaN] before the next sale is added. *)
Theorem chart_totals_by_date (salesData : list value)
  (drows : list (string * number)) :
  Forall2 (fun row ds => dated row (fst ds) (snd ds)) salesData drows ->
  (forall d s, In (d, s) drows -> inherited d = false) ->
  exists c,
    chart_of salesData = Done c /\
    (forall d, In d (labels c) <-> In d (map fst drows)) /\
    data c =
      map (fun d => option_map VNum (total_for d drows None)) (labels c).
Proof.
  intros Hd Hin.
  destruct (aggregate_dated salesData drows [] Hd Hin)
    as (o & Ho & _ & Hget); [intros d v; discriminate|].
  unfold chart_of. rewrite Ho. simpl. eexists. split; [reflexivity|].
  simpl. split.
  - intros d.
    assert (H1 : In d (sort (keys o)) <-> In d (keys o)).
    { split; apply Permutation_in;
        [apply sort_perm | symmetry; apply sort_perm]. }
    assert (H2 : In d (keys o) <-> get o d <> None).
    { split.
      - intros Hi Hn. now apply get_none_keys in Hn.
      - intros Hn. destruct (in_dec string_dec d (keys o)) as [Hi|Hi];
          [exact Hi|].
        apply get_none_keys in Hi. contradiction. }
    assert (H3 : get o d <> None <-> total_for d drows None <> None).
    { rewrite Hget. change (number_at [] d) with (@None number).
      destruct (total_for d drows None); simpl; split; congruence. }
    rewrite H1, H2, H3, total_for_some.
    split; [intros [H|H]; [congruence|exact H] | now right].
  - apply map_ext. intros d. now rewrite Hget.
Qed.

End ChartFacts.

(** ** Cells with a thousands separator *)
Section ParseFacts.
Import Fs Server SampleMore.

Lemma digits_then (c : ascii) (rest : string) (ds : string) :
  digits_only ds = true ->
  JsParse.digit_val 10 c = None ->
  forall acc cnt,
  JsParse.digits 10 (ds ++ String c rest) acc cnt =
  (fst (fst (JsParse.digits 10 ds acc cnt)),
   snd (fst (JsParse.digits 10 ds acc cnt)),
   String c rest) /\
  snd (JsParse.digits 10 ds acc cnt) = "" /\
  cnt <= snd (fst (JsParse.digits 10 ds acc cnt)).
Proof.
  intros Hds Hc. induction ds as [|d ds IH]; intros acc cnt; simpl.
  - rewrite Hc. simpl. repeat split. lia.
  - simpl in Hds. apply andb_true_iff in Hds as [Hd Hds]. unfold digit in Hd.
    destruct (JsParse.digit_val 10 d) as [v|]; [|discriminate].
    destruct (IH Hds (acc * 10 + v) (cnt + 1)) as (E1 & E2 & E3).
    rewrite E1. repeat split; [exact E2|lia].
Qed.

Lemma of_decimal_not_nan (neg : bool) (m e : Z) :
  is_nan (of_decimal neg m e) = false.
Proof.
  unfold of_decimal, round_ratio.
  repeat match goal with
         | |- context [if ?b then _ else _] => destruct b
         | |- context [let '(_, _) := ?p in _] => destruct p
         end; reflexivity.
Qed.

(** The head of a digit string is no sign, no white space and not the
    start of [Infinity]. *)
Lemma leading_digit (d : ascii) (r : string) :
  digit d = true ->
  JsParse.trimStart (String d r) = String d r /\
  JsParse.sign (String d r) = (false, String d r) /\
  String.prefix "Infinity" (String d r) = false.
Proof.
  unfold digit.
  destruct d as [[] [] [] [] [] [] [] []]; try discriminate;
    intros _; repeat split.
Qed.

(** X25.  A cell with a thousands separator is cut at the comma: the
    target mapping caches the number read from the digits before the
    first comma, which is never [NaN], so [1,234.50] is kept as [1]. *)
Theorem thousands_separator_truncates (key : string)
  (record : list (string * string)) (ds rest : string) :
  let row := row_of_record record in
  digits_only ds = true ->
  ds <> "" ->
  key <> "date" ->
  get row key = Some (CStr (ds ++ "," ++ rest)) ->
  JsParse.parseFloat (ds ++ "," ++ rest) = JsParse.parseFloat ds /\
  get (normalize key row) "sales" = Some (CNum (JsParse.parseFloat ds)) /\
  isNaN (get (normalize key row) "sales") = false.
Proof.
  intros row Hds Hne Hkey Hget.
  assert (Hp : JsParse.parseFloat (ds ++ "," ++ rest)
               = JsParse.parseFloat ds /\
               is_nan (JsParse.parseFloat ds) = false).
  { destruct ds as [|d ds']; [contradiction|].
    simpl in Hds. apply andb_true_iff in Hds as [Hd Hds'].
    assert (Hall : digits_only (String d ds') = true)
      by (simpl; now rewrite Hd, Hds').
    destruct (leading_digit d (ds' ++ "," ++ rest) Hd) as (T1 & S1 & I1).
    destruct (leading_digit d ds' Hd) as (T2 & S2 & I2).
    destruct (digits_then "," rest (String d ds') Hall eq_refl 0 0)
      as (E1 & E2 & E3).
    assert (Hcnt : 1 <= snd (fst (JsParse.digits 10 (String d ds') 0 0))).
    { simpl. unfold digit in Hd.
      destruct (JsParse.digit_val 10 d) as [v|]; [|discriminate].
      destruct (digits_then "," rest ds' Hds' eq_refl (0 * 10 + v) (0 + 1))
        as (_ & _ & H). simpl in H. exact H. }
    unfold JsParse.parseFloat, JsParse.decimal_prefix.
    change (String d ds' ++ "," ++ rest)
      with (String d (ds' ++ "," ++ rest)).
    rewrite T1, T2, S1, S2, I1, I2.
    change (String d (ds' ++ "," ++ rest))
      with (String d ds' ++ String "," rest).
    rewrite E1.
    destruct (JsParse.digits 10 (String d ds') 0 0) as [[v n] r] eqn:Ed.
    simpl in E2, Hcnt |- *. subst r.
    destruct (n =? 0) eqn:En; [apply Z.eqb_eq in En; lia|].
    simpl. split; [reflexivity|apply of_decimal_not_nan]. }
  destruct Hp as [Hp Hnan].
  split; [exact Hp|].
  assert (E : get (normalize key row) "sales"
              = Some (CNum (JsParse.parseFloat ds))).
  { rewrite normalize_sales. unfold resolved_target.
    rewrite map_date_other by assumption. rewrite Hget.
    change (parseFloat (CStr (ds ++ "," ++ rest)))
      with (JsParse.parseFloat (ds ++ "," ++ rest)).
    now rewrite Hp. }
  split; [exact E|]. rewrite E. exact Hnan.
Qed.

End ParseFacts.

(** ** Instances of the further properties *)
Section MoreInstances.
Import Fs Server Sample SampleMore.

Lemma cleanup_only_removes_stale_witness :
  stale "B.csv" "train.py" = false /\
  lookup (cleanup "B.csv" (("train.py", plain "") :: locked_dir)) "train.py"
    = Some (plain "").
Proof.
  split; [reflexivity|].
  exact (proj1 (cleanup_only_removes_stale "B.csv"
                  (("train.py", plain "") :: locked_dir))
               "train.py" eq_refl).
Defined.

Lemma cleanup_idempotent_witness :
  cleanup "B.csv" (cleanup "B.csv" (multer_single model_dir b_request)) =
  cleanup "B.csv" (multer_single model_dir b_request).
Proof.
  apply cleanup_idempotent.
  - apply distinct_sound. reflexivity.
  - intros n g _. apply all_unlinkable_sound. reflexivity.
Defined.

Lemma upload_under_artifact_name_witness :
  exists d',
    upload_start false st0
      (multer_single model_dir (mkRequest (Some pkl_upload)))
      (mkRequest (Some pkl_upload)) =
      Spawned (mkState [] "sales_model.pkl" []) d'
              (mkChild "python" [trainScript; "sales_model.pkl"] "") /\
    lookup d' "sales_model.pkl" = None /\
    exists r,
      upload false st0 model_dir (mkRequest (Some pkl_upload))
             ([] ++ [(d', Close (Some 0))])%list = inl r /\
      map status (sent r) = [200] /\
      salesData (run_state r) = [] /\
      streams (run_state r) = [].
Proof.
  apply (upload_under_artifact_name false st0 model_dir pkl_upload []).
  - left. reflexivity.
  - apply distinct_sound. reflexivity.
  - reflexivity.
  - intros n g _. apply all_unlinkable_sound. reflexivity.
  - constructor.
Defined.

Lemma multer_single_stores_witness :
  NoDup (readdirSync (multer_single model_dir b_request)) /\
  lookup (multer_single model_dir b_request) "B.csv" = Some b_csv /\
  (forall n, n <> "B.csv" ->
             lookup (multer_single model_dir b_request) n = lookup model_dir n).
Proof.
  exact (multer_single_stores model_dir b_request
           (distinct_sound (readdirSync model_dir) eq_refl)).
Defined.

Lemma metadata_gone_after_cleanup_witness :
  exists st' d' p,
    upload_start true st0 (multer_single model_dir b_request) b_request
      = Spawned st' d' p /\
    get_metadata d' =
      Json (mkResponse 404
              (VObj [("error",
                       VStr "Metadata not found. Model might not be trained yet.")])).
Proof.
  apply (metadata_gone_after_cleanup true st0 model_dir b_upload).
  - apply distinct_sound. reflexivity.
  - intros n g _. apply all_unlinkable_sound. reflexivity.
Defined.

Lemma stream_appends_kept_rows_witness :
  exists added,
    stream_events trained_dir b_stream st_one_row =
      Some (mkState (salesData st_one_row ++ added) "A.csv" []) /\
    (List.length added <= 2)%nat.
Proof.
  eexists.
  exact (stream_appends_kept_rows trained_dir b_stream st_one_row b_csv
           "revenue" eq_refl eq_refl).
Defined.

Lemma resolved_target_column_witness :
  existsSync default_dir metaPath = false /\
  resolve_targetCol default_dir = VStr "sales".
Proof.
  split; [reflexivity|].
  exact (proj2 (proj2 (resolved_target_column default_dir)) eq_refl).
Defined.

Lemma default_target_filtering_witness :
  get (row_of_record [("date", "2024-01-01"); ("sales", "")]) "sales"
    = Some (CStr "") /\
  keep (normalize "sales"
          (row_of_record [("date", "2024-01-01"); ("sales", "")])) = false.
Proof.
  split; [reflexivity|].
  exact (proj2 (default_target_filtering [("date", "2024-01-01"); ("sales", "")])
               (or_intror eq_refl)).
Defined.

Lemma date_mapping_first_match_witness :
  cell_truthy (get two_dates "date") = false /\
  find date_like (keys two_dates) = Some "start_time" /\
  get (normalize "sales" two_dates) "date" = Some (CStr "") /\
  keep (normalize "sales" two_dates) = false.
Proof.
  destruct (proj2 (date_mapping_first_match "sales" two_dates "start_time"
                     (CStr "")) eq_refl eq_refl eq_refl) as [H1 H2].
  split; [reflexivity|]. split; [reflexivity|].
  split; [exact H1 | exact (H2 eq_refl)].
Defined.

Lemma normalize_keeps_columns_witness :
  In "region" (keys (normalize "sales" (row_of_record legacy_record))) /\
  get (normalize "sales" (row_of_record legacy_record)) "region"
    = Some (CStr "North").
Proof.
  destruct (normalize_keeps_columns "sales" (row_of_record legacy_record)
              "region") as [H1 H2].
  split.
  - apply H1. vm_compute. tauto.
  - rewrite H2 by discriminate. reflexivity.
Defined.

Lemma legacy_columns_witness :
  get (normalize "sales" (row_of_record legacy_record)) "holiday"
    = Some (CNum (of_decimal false 1 0)).
Proof.
  exact (proj1 (proj2 (legacy_columns "sales" legacy_record "1"
                         ltac:(discriminate))) eq_refl).
Defined.

Lemma launch_failure_answers_once_then_throws_witness :
  exists r,
    upload true st_one_row model_dir b_request
           ([] ++ [(failed_dir, Error "spawn python ENOENT");
                   (failed_dir, Close (Some (-2)))])%list = inl r /\
    sent r =
      [mkResponse 500
         (VObj [("error", VStr "Failed to start training script");
                ("details", VStr "spawn python ENOENT")])] /\
    uncaught r = true /\
    salesData (run_state r) = salesData st_one_row /\
    streams (run_state r) = [].
Proof.
  apply (launch_failure_answers_once_then_throws true st_one_row model_dir
           failed_dir failed_dir b_upload [] "spawn python ENOENT"
           (Some (-2))).
  - constructor.
  - discriminate.
Defined.

Lemma upload_success_answer_witness :
  exists r,
    upload true st_one_row model_dir b_request
           (failing_output ++ [(trained_dir, Close (Some 0))])%list = inl r /\
    sent r =
      [mkResponse 200
         (VObj [("message",
                  VStr "Data updated and model retrained successfully");
                ("output", VStr "Traceback")])] /\
    salesData (run_state r) = [] /\
    streams (run_state r) = [mkStream "B.csv" (VStr "revenue")].
Proof.
  apply (upload_success_answer true st_one_row model_dir trained_dir b_upload
           failing_output).
  repeat constructor.
Defined.

Lemma reload_completes_on_stream_turn_witness :
  exists r,
    upload true st_one_row model_dir b_request
           ([] ++ [(trained_dir, Close (Some 0))])%list = inl r /\
    stream_turn trained_dir (run_state r) =
      Some (mkState
              [[("order_date", CStr "2025-03-01"); ("revenue", CStr "12.5");
                ("sales", CNum (of_decimal false 125 (-1)));
                ("date", CStr "2025-03-01")];
               [("order_date", CStr "2025-03-02"); ("revenue", CStr "7");
                ("sales", CNum (of_decimal false 7 0));
                ("date", CStr "2025-03-02")]]
              "B.csv" []).
Proof.
  exact (reload_completes_on_stream_turn true st_one_row model_dir trained_dir
           b_upload [] b_csv "revenue" eq_refl (Forall_nil _) eq_refl eq_refl).
Defined.

Lemma startup_load_witness :
  stream_turn default_dir (startup default_dir) =
    Some (mkState
            [[("date", CStr "2024-01-01");
              ("sales", CNum (of_decimal false 5 0))]]
            "sales_data.csv" []).
Proof.
  exact (proj2 (startup_load default_dir) a_csv "sales" eq_refl eq_refl).
Defined.

Lemma stale_names_witness :
  stale "B.csv" "A.csv" = true.
Proof.
  apply (proj1 (stale_names "B.csv" "A.csv")).
  left. split; [now exists "A" | discriminate].
Defined.

Lemma predict_success_body_is_object_witness :
  exists props,
    VObj [("prediction", VNum (of_decimal false 425 (-1)))] = VObj props.
Proof.
  apply (predict_success_body_is_object (Some 0) noisy_output).
  - vm_compute. discriminate.
  - vm_compute. reflexivity.
Defined.

Lemma forward_slashes_only_witness :
  (JsString.indexOf "\" "C:/srv/model/sales_model.pkl" = -1 /\
   forward_slashes "C:/srv/model/sales_model.pkl"
     = "C:/srv/model/sales_model.pkl") /\
  String.get 6 (forward_slashes "C:\srv\model\sales_model.pkl")
    = Some "/"%char.
Proof.
  split; [split; [reflexivity|]|].
  - exact (proj1 (proj2 (proj2 (proj2
             (forward_slashes_only "C:/srv/model/sales_model.pkl")))) eq_refl).
  - exact (proj1 (proj2 (proj2 (proj2 (proj2
             (forward_slashes_only "C:\srv\model\sales_model.pkl")))))
             6%nat "\"%char eq_refl).
Defined.

Lemma failed_training_state_witness :
  exists st' d' p r,
    upload_start true st_one_row (multer_single model_dir b_request) b_request
      = Spawned st' d' p /\
    upload true st_one_row model_dir b_request
           (failing_output ++ [(failed_dir, Close (Some 1))])%list = inl r /\
    salesData (run_state r) = salesData st_one_row /\
    currentDataFile (run_state r) = "B.csv" /\
    (forall A, JsString.endsWith ".csv" A = true -> A <> "B.csv" ->
               lookup d' A = None).
Proof.
  apply (failed_training_state true st_one_row model_dir failed_dir b_upload
           failing_output (Some 1)).
  - apply distinct_sound. reflexivity.
  - intros n g _. apply all_unlinkable_sound. reflexivity.
  - repeat constructor.
  - discriminate.
Defined.

Lemma thousands_separator_truncates_witness :
  get (normalize "sales"
         (row_of_record [("date", "2024-01-01"); ("sales", "1,234.50")]))
      "sales" = Some (CNum (of_decimal false 1 0)).
Proof.
  exact (proj1 (proj2
           (thousands_separator_truncates "sales"
              [("date", "2024-01-01"); ("sales", "1,234.50")] "1" "234.50"
              eq_refl ltac:(discriminate) ltac:(discriminate) eq_refl))).
Defined.

End MoreInstances.

(** ** Instances on the page *)
Section PageInstances.
Import Page.

Lemma handleInputChange_sets_one_field_witness :
  exists form,
    handleInputChange (Some (VStr "region")) (VStr "South") sample_form
      = Done form /\
    get form "region" = Some (VStr "South") /\
    (forall k', k' <> "region" -> get form k' = get sample_form k') /\
    (get sample_form "region" <> None -> keys form = keys sample_form) /\
    handleInputChange (Some (VStr "region")) (VStr "North") form
      = handleInputChange (Some (VStr "region")) (VStr "North") sample_form.
Proof.
  exact (handleInputChange_sets_one_field (Some (VStr "region"))
           (VStr "South") (VStr "North") sample_form "region" eq_refl).
Defined.

Lemma initial_form_holds_defaults_witness :
  initial_form sample_meta = Done sample_form /\
  exists v,
    initial_value (nth 0 sample_features VNull) = Done v /\
    get sample_form "region" = Some v /\
    v = VStr "North".
Proof.
  split; [reflexivity|].
  destruct (initial_form_holds_defaults []
              [nth 1 sample_features VNull; nth 2 sample_features VNull]
              (nth 0 sample_features VNull) (Some (VStr "region")) "region"
              sample_form eq_refl eq_refl eq_refl)
    as (v & H1 & H2 & _ & H4).
  - discriminate.
  - intros g name' [<-|[<-|[]]] [= <-]; discriminate.
  - exists v. split; [exact H1|]. split; [exact H2|].
    exact (H4 "North" [VStr "South"] eq_refl eq_refl).
Defined.

Lemma fetchMetadata_keeps_stale_form_witness :
  JSON.parse broken_meta_text = Some broken_meta /\
  fetchMetadata true broken_meta_text (mkForm None sample_form) =
  mkForm (Some broken_meta) sample_form.
Proof.
  assert (E : JSON.parse broken_meta_text = Some broken_meta)
    by (vm_compute; reflexivity).
  split; [exact E|].
  apply (proj2 (proj2 (fetchMetadata_keeps_stale_form broken_meta_text
                         (mkForm None sample_form)))
           [("features",
             VArr [VObj [("name", VStr "region");
                         ("type", VStr "categorical")]])]
           [("name", VStr "region"); ("type", VStr "categorical")]
           [VObj [("name", VStr "region"); ("type", VStr "categorical")]]).
  - exact E.
  - reflexivity.
  - now left.
  - reflexivity.
  - reflexivity.
Defined.

Lemma chart_labels_sorted_witness :
  exists c,
    chart_of sample_rows = Done c /\
    labels c = ["2024-01-01"; "2024-01-02"] /\
    StronglySorted text_le (labels c) /\
    NoDup (labels c).
Proof.
  exists (mkChart ["2024-01-01"; "2024-01-02"]
            [Some (VNum (of_decimal false 25 (-1)));
             Some (VNum (of_decimal false 6 0))]).
  assert (E : chart_of sample_rows =
              Done (mkChart ["2024-01-01"; "2024-01-02"]
                      [Some (VNum (of_decimal false 25 (-1)));
                       Some (VNum (of_decimal false 6 0))]))
    by (vm_compute; reflexivity).
  destruct (chart_labels_sorted _ _ E) as (H1 & H2 & _).
  repeat split; assumption.
Defined.

Lemma chart_totals_by_date_witness :
  exists c,
    chart_of sample_rows = Done c /\
    (forall d, In d (labels c) <-> In d (map fst sample_dated)) /\
    data c =
      map (fun d => option_map VNum (total_for d sample_dated None))
          (labels c).
Proof.
  apply chart_totals_by_date.
  - repeat constructor; eexists; repeat split.
  - intros d s [[= <- _]|[[= <- _]|[[= <- _]|[]]]]; reflexivity.
Defined.

End PageInstances.

